(** * hoshi: the operator execution contract of the MoFA graph-RAG pipeline

    A shallow embedding of the Python operators under
    [mofa_graph_rag/script/]: the output envelope helpers, the retry loops
    around external calls, the question extraction of the query stage and
    the [on_event] handlers of the five operators.

    Conventions.  Python values that travel between stages are modelled by
    [pyval].  Calls that leave the process (network, file system, YAML
    reader, LightRAG, asyncio loop) take their answer from an environment
    record supplied with each event; every handler returns the list of
    effects it performed, in program order, so that invocations, waits,
    log records and emitted outputs can be counted. *)

From Stdlib Require Import List String Ascii ZArith Bool Lia Arith.
Import ListNotations.
Local Open Scope string_scope.
Local Open Scope list_scope.
Local Set Warnings "-register-all".

(* ================================================================== *)
(** ** Python values *)
(* ================================================================== *)

(** Values as [pyarrow]'s [as_py()] and [json]/[yaml] hand them to the
    operators.  A [dict] keeps its items in insertion order; keys are
    strings, which is what struct arrays, JSON objects and the YAML
    configuration files of the pipeline produce.  [PObj] is an object of
    any other class, named by its type (for instance the answer object of
    a library call): it is true, has no items and is no JSON value. *)
Inductive pyval : Type :=
| PNone  : pyval
| PBool  : bool -> pyval
| PInt   : Z -> pyval
| PStr   : string -> pyval
| PList  : list pyval -> pyval
| PDict  : list (string * pyval) -> pyval
| PObj   : string -> pyval.

(** [key in d] and [d[key]] on the items of a dict. *)
Fixpoint dict_get (key : string) (items : list (string * pyval)) : option pyval :=
  match items with
  | [] => None
  | (k, v) :: rest => if String.eqb key k then Some v else dict_get key rest
  end.

Definition dict_has (key : string) (items : list (string * pyval)) : bool :=
  match dict_get key items with Some _ => true | None => false end.

(** [d[key] = v]: replaces the value of an existing key in place, appends a
    new key at the end. *)
Fixpoint dict_set (key : string) (v : pyval) (items : list (string * pyval))
  : list (string * pyval) :=
  match items with
  | [] => [(key, v)]
  | (k, w) :: rest =>
      if String.eqb key k then (k, v) :: rest else (k, w) :: dict_set key v rest
  end.

(** Truth value of a Python object ([if x:], [not x]). *)
Definition truthy (v : pyval) : bool :=
  match v with
  | PNone => false
  | PBool b => b
  | PInt n => negb (Z.eqb n 0)
  | PStr s => negb (String.eqb s "")
  | PList l => match l with [] => false | _ => true end
  | PDict d => match d with [] => false | _ => true end
  | PObj _ => true
  end.

(** Number of constructors of a value; a value stored under a key of a dict
    is strictly smaller than the dict. *)
Fixpoint pysize (v : pyval) : nat :=
  match v with
  | PList l => S (fold_right (fun x n => pysize x + n) 0 l)
  | PDict d => S (fold_right (fun kv n => pysize (snd kv) + n) 0 d)
  | _ => 1
  end.

(* ================================================================== *)
(** ** Output envelope *)
(* ================================================================== *)

Module Envelope.

(** [create_agent_output(agent_name, agent_result, dataflow_status=False)]
    (the fallback definition, identical in every operator file). *)
Definition create_agent_output (agent_name : string) (agent_result : pyval)
    (dataflow_status : bool) : pyval :=
  PDict [ ("agent_name", PStr agent_name);
          ("agent_result", agent_result);
          ("dataflow_status", PBool dataflow_status) ].

(** [load_node_result(input_data)] of [result_logger_operator.py]; the
    copies in [question_gen_operator.py], [rag_index_operator.py] and
    [rag_query_operator.py] have the same body without the debug records. *)
Definition load_node_result (input_data : pyval) : pyval :=
  match input_data with
  | PDict items =>
      match dict_get "agent_result" items with
      | Some r => r
      | None => input_data
      end
  | _ => input_data
  end.

(** The envelope shape in the words of the specification: a record with a
    producer name, a result and an is-final flag, that is, a dict that has
    all three fields written by [create_agent_output]. *)
Definition envelope_shaped (v : pyval) : bool :=
  match v with
  | PDict items =>
      dict_has "agent_name" items && dict_has "agent_result" items
      && dict_has "dataflow_status" items
  | _ => false
  end.

(** The test the code applies: a dict that has the key ["agent_result"]. *)
Definition has_agent_result (v : pyval) : bool :=
  match v with
  | PDict items => dict_has "agent_result" items
  | _ => false
  end.

End Envelope.

(* ================================================================== *)
(** ** Exceptions, effects and traces *)
(* ================================================================== *)

(** A raised [Exception]: its class name and [str(e)]. *)
Record exn : Type := Exception { exn_class : string; exn_str : string }.

Definition RuntimeError (msg : string) : exn := Exception "RuntimeError" msg.
Definition TypeError (msg : string) : exn := Exception "TypeError" msg.
Definition ValueError (msg : string) : exn := Exception "ValueError" msg.
Definition UnboundLocalError (msg : string) : exn :=
  Exception "UnboundLocalError" msg.

(** The classes of the interpreter and its standard library that are
    derived from a class named in an [except] clause of the operators
    ([IOError] is another name of [OSError]). *)
Definition builtin_subclasses (cls : string) : list string :=
  if String.eqb cls "OSError" then
    [ "BlockingIOError"; "ChildProcessError"; "ConnectionError"; "BrokenPipeError";
      "ConnectionAbortedError"; "ConnectionRefusedError"; "ConnectionResetError";
      "FileExistsError"; "FileNotFoundError"; "InterruptedError"; "IsADirectoryError";
      "NotADirectoryError"; "PermissionError"; "ProcessLookupError"; "TimeoutError";
      "UnsupportedOperation" ]
  else if String.eqb cls "RuntimeError" then
    [ "NotImplementedError"; "RecursionError"; "PythonFinalizationError" ]
  else [].

(** [except cls:] catches [e]: [e] is of the class or of a class derived
    from it. *)
Definition is_class (cls : string) (e : exn) : bool :=
  String.eqb (exn_class e) cls
  || existsb (String.eqb (exn_class e)) (builtin_subclasses cls).

(** Outcome of a call: a returned value or a raised exception. *)
Inductive res (A : Type) : Type :=
| Ret (a : A)
| Raise (e : exn).
Arguments Ret {A} a.
Arguments Raise {A} e.

Inductive level : Type := DEBUG | INFO | WARNING | ERROR.

(** What a handler does to the outside, in program order.  A log record
    carries the text of its format string as written in the source. *)
Inductive effect : Type :=
| Log (lvl : level) (template : string)
| SnapshotDownload (repo_id : pyval) (local_dir : pyval)
| ChatCompletion (model : pyval) (prompt : string)
| RagQuery (query_text : string)
| RagInsert (file_path : string)
| Sleep (seconds : Z)
| MakeDirs (path : pyval)
| ExtractContexts (input_directory output_directory : pyval)
| WriteText (path : pyval) (content : pyval)
| JsonDump (path : pyval) (data : pyval) (default_str : bool)
| RagInit (working_dir : pyval)
| SendOutput (output_id : string) (data : pyval) (metadata : pyval).

Definition trace : Type := list effect.

Definition is_log (e : effect) : bool :=
  match e with Log _ _ => true | _ => false end.

Definition is_sleep (e : effect) : bool :=
  match e with Sleep _ => true | _ => false end.

Definition is_output (e : effect) : bool :=
  match e with SendOutput _ _ _ => true | _ => false end.

(** Invocations of the operation a retry loop wraps. *)
Definition is_invocation (e : effect) : bool :=
  match e with
  | SnapshotDownload _ _ | ChatCompletion _ _ | RagQuery _ | RagInsert _ => true
  | _ => false
  end.

(** The effects other than log records. *)
Definition actions (t : trace) : trace := filter (fun e => negb (is_log e)) t.

(** The outputs emitted in a trace. *)
Definition outputs (t : trace) : trace := filter is_output t.

(** [n] invocations [call] with a wait of [delay] between consecutive
    ones: [call; Sleep delay; call; ...; call]. *)
Fixpoint retry_schedule (call : effect) (delay : Z) (n : nat) : trace :=
  match n with
  | O => []
  | S O => [call]
  | S m => call :: Sleep delay :: retry_schedule call delay m
  end.

(** [time.sleep(secs)]: raises [ValueError] on a negative length. *)
Definition time_sleep (secs : Z) : res trace :=
  if (secs <? 0)%Z then Raise (ValueError "sleep length must be non-negative")
  else Ret [Sleep secs].

(** [await asyncio.sleep(delay)] on an integer delay: never raises; a
    delay of zero or less only yields to the loop. *)
Definition asyncio_sleep (delay : Z) : trace := [Sleep delay].

(* ================================================================== *)
(** ** data_prep_operator.py: download_dataset *)
(* ================================================================== *)

Module DataPrepDownload.

(** What the outside answers during one call of [download_dataset]:
    [snapshot_download r] is the outcome of the call made when [r] earlier
    attempts have failed; the other two are asked once, after the last
    failure. *)
Record world : Type := World {
  snapshot_download : Z -> res unit;
  os_path_exists : res bool;
  os_listdir : res (list string)
}.

Section Download.
Variable w : world.
Variables (repo_id local_dir : pyval) (max_retries delay : Z).

(** The [while retries < max_retries:] loop.  [fuel] bounds the number of
    iterations; [None] means the bound was too small. *)
Fixpoint download_loop (fuel : nat) (retries : Z) : option (res bool * trace) :=
  match fuel with
  | O => None
  | S fuel' =>
      if (retries <? max_retries)%Z then
        match snapshot_download w retries with
        | Ret _ =>
            Some (Ret true,
                  [SnapshotDownload repo_id local_dir;
                   Log INFO "Dataset successfully downloaded to: {local_dir}"])
        | Raise e =>
            let retries := (retries + 1)%Z in
            let t := [SnapshotDownload repo_id local_dir;
                      Log WARNING "Error downloading dataset (attempt {retries}/{max_retries}): {e}"] in
            if (retries <? max_retries)%Z then
              let t := t ++ [Log INFO "Retrying in {delay} seconds..."] in
              match time_sleep delay with
              | Raise e' => Some (Raise e', t)
              | Ret ts =>
                  match download_loop fuel' retries with
                  | Some (r, t') => Some (r, t ++ ts ++ t')
                  | None => None
                  end
              end
            else
              let t := t ++ [Log ERROR "Max download retries reached."] in
              match os_path_exists w with
              | Raise e' => Some (Raise e', t)
              | Ret false => Some (Ret false, t)
              | Ret true =>
                  match os_listdir w with
                  | Raise e' => Some (Raise e', t)
                  | Ret names =>
                      match names with
                      | _ :: _ =>
                          Some (Ret true,
                                t ++ [Log WARNING "Directory '{local_dir}' already exists and is not empty. Assuming dataset is present despite download errors."])
                      | [] => Some (Ret false, t)
                      end
                  end
              end
        end
      else Some (Ret false, [])
  end.

(** [download_dataset(repo_id, local_dir, max_retries=3, delay=5)].  The
    loop runs at most [max_retries] times, so the bound given here is never
    reached ([download_loop_fuel] below) and the last case never taken. *)
Definition download_dataset : res bool * trace :=
  match download_loop (S (Z.to_nat max_retries)) 0%Z with
  | Some (r, t) =>
      (r, Log INFO "Attempting to download dataset '{repo_id}' to '{local_dir}'..." :: t)
  | None => (Ret false, [])
  end.

End Download.
End DataPrepDownload.

(** What [download_dataset] answers once every attempt has failed: the
    directory check of the last [except] branch. *)
Definition after_exhaustion (w : DataPrepDownload.world) : res bool :=
  match DataPrepDownload.os_path_exists w with
  | Raise e => Raise e
  | Ret false => Ret false
  | Ret true =>
      match DataPrepDownload.os_listdir w with
      | Raise e => Raise e
      | Ret (_ :: _) => Ret true
      | Ret [] => Ret false
      end
  end.

(* ================================================================== *)
(** ** Operations on Python values that can raise *)
(* ================================================================== *)

(** [sub in s] on strings. *)
Fixpoint str_contains (sub s : string) : bool :=
  if String.prefix sub s then true
  else match s with
       | EmptyString => false
       | String _ s' => str_contains sub s'
       end.

(** [x == key] for a string [key]. *)
Definition py_eq_str (key : string) (x : pyval) : bool :=
  match x with PStr s => String.eqb s key | _ => false end.

(** [key in v] for a string [key]. *)
Definition py_contains (key : string) (v : pyval) : res bool :=
  match v with
  | PDict items => Ret (dict_has key items)
  | PList l => Ret (existsb (py_eq_str key) l)
  | PStr s => Ret (str_contains key s)
  | _ => Raise (TypeError "argument is not iterable")
  end.

(** [v[key]] for a string [key]. *)
Definition py_getitem (v : pyval) (key : string) : res pyval :=
  match v with
  | PDict items =>
      match dict_get key items with
      | Some x => Ret x
      | None => Raise (Exception "KeyError" key)
      end
  | PList _ => Raise (TypeError "list indices must be integers or slices, not str")
  | PStr _ => Raise (TypeError "string indices must be integers, not 'str'")
  | _ => Raise (TypeError "object is not subscriptable")
  end.

(** [v.get(key, default)]: only a dict has the method. *)
Definition py_get (v : pyval) (key : string) (default : pyval) : res pyval :=
  match v with
  | PDict items =>
      match dict_get key items with
      | Some x => Ret x
      | None => Ret default
      end
  | _ => Raise (Exception "AttributeError" "object has no attribute 'get'")
  end.

(** The integer a value counts as in a comparison or as a delay: an [int],
    or a [bool] (a subclass of [int]). *)
Definition py_as_int (v : pyval) : option Z :=
  match v with
  | PInt n => Some n
  | PBool b => Some (if b then 1 else 0)%Z
  | _ => None
  end.

(** [n < v] for an integer [n]. *)
Definition py_int_lt (n : Z) (v : pyval) : res bool :=
  match py_as_int v with
  | Some m => Ret (n <? m)%Z
  | None => Raise (TypeError "'<' not supported between instances")
  end.

(** [await asyncio.sleep(v)] on a configured value. *)
Definition asyncio_sleep_py (v : pyval) : res trace :=
  match py_as_int v with
  | Some d => Ret (asyncio_sleep d)
  | None => Raise (TypeError "'<=' not supported between instances")
  end.

(* ================================================================== *)
(** ** question_gen_operator.py: call_llm_for_questions *)
(* ================================================================== *)

Module QuestionGenLLM.

Section CallLLM.
(** [chat_completion r]: outcome of the body of the [try] (the completion
    request and the extraction of [choices[0].message.content]) when [r]
    earlier attempts have failed. *)
Variable chat_completion : Z -> res pyval.
Variables (model : pyval) (prompt : string) (max_retries delay : Z).

Fixpoint llm_loop (fuel : nat) (retries : Z) : option (pyval * trace) :=
  match fuel with
  | O => None
  | S fuel' =>
      if (retries <? max_retries)%Z then
        let t0 := [Log INFO "Sending request to LLM ({model})... (Attempt {retries + 1})";
                   ChatCompletion model prompt] in
        match chat_completion retries with
        | Ret result =>
            Some (result, t0 ++ [Log INFO "LLM response received successfully."])
        | Raise e =>
            let retries := (retries + 1)%Z in
            let t := t0 ++ [Log WARNING "LLM call failed (attempt {retries}/{max_retries}): {e}"] in
            if (retries <? max_retries)%Z then
              match llm_loop fuel' retries with
              | Some (r, t') =>
                  Some (r, t ++ [Log INFO "Retrying LLM call in {delay} seconds..."]
                             ++ asyncio_sleep delay ++ t')
              | None => None
              end
            else
              Some (PNone, t ++ [Log ERROR "LLM call failed after maximum retries."])
        end
      else Some (PNone, [])
  end.

(** [call_llm_for_questions(client, model, prompt, max_retries=3, delay=5)];
    the function returns [None] when the loop ends without a [return]. *)
Definition call_llm_for_questions : pyval * trace :=
  match llm_loop (S (Z.to_nat max_retries)) 0%Z with
  | Some r => r
  | None => (PNone, [])
  end.

End CallLLM.
End QuestionGenLLM.

(* ================================================================== *)
(** ** rag_query_operator.py: _process_single_query *)
(* ================================================================== *)

Module RagQuerySingle.

Section ProcessSingleQuery.
(** [self.rag_instance] ([None] or the instance, named by its working
    directory) and [self.config]. *)
Variable rag_instance : option pyval.
Variable config : pyval.
(** [aquery r]: outcome of [await self.rag_instance.aquery(query_text, ...)]
    when [r] earlier attempts have failed. *)
Variable aquery : Z -> res pyval.
Variable query_text : string.

Definition error_record (msg : string) : pyval :=
  PDict [("query", PStr query_text); ("error", PStr msg)].

Definition result_record (result : pyval) : pyval :=
  PDict [("query", PStr query_text); ("result", result)].

Fixpoint query_loop (max_retries retry_delay : pyval) (fuel : nat) (retries : Z)
  : option (res (pyval * pyval) * trace) :=
  match fuel with
  | O => None
  | S fuel' =>
      match py_int_lt retries max_retries with
      | Raise e => Some (Raise e, [])
      | Ret false =>
          Some (Ret (PNone, error_record "Query failed after retries"), [])
      | Ret true =>
          let t0 := [Log DEBUG "Querying RAG for: '{query_text[:100]}...' (Attempt {retries + 1})";
                     RagQuery query_text] in
          match aquery retries with
          | Ret result =>
              Some (Ret (result_record result, PNone),
                    t0 ++ [Log DEBUG "Query successful in {end_time - start_time:.2f} seconds."])
          | Raise e =>
              let retries := (retries + 1)%Z in
              let t := t0 ++ [Log WARNING "Error querying RAG for '{query_text[:50]}...' (Attempt {retries}/{max_retries}): {e}"] in
              match py_int_lt retries max_retries with
              | Raise e' => Some (Raise e', t)
              | Ret true =>
                  let t := t ++ [Log INFO "Retrying query in {retry_delay} seconds..."] in
                  match asyncio_sleep_py retry_delay with
                  | Raise e' => Some (Raise e', t)
                  | Ret ts =>
                      match query_loop max_retries retry_delay fuel' retries with
                      | Some (r, t') => Some (r, t ++ ts ++ t')
                      | None => None
                      end
                  end
              | Ret false =>
                  Some (Ret (PNone, error_record (exn_str e)),
                        t ++ [Log ERROR "Query failed after {max_retries} attempts for: '{query_text[:50]}...'"])
              end
          end
      end
  end.

(** [_process_single_query(self, query_text, query_param)]: the pair
    [(result_data, error_data)]. *)
Definition _process_single_query : res (pyval * pyval) * trace :=
  match rag_instance with
  | None => (Ret (PNone, error_record "RAG instance not initialized"), [])
  | Some _ =>
      match py_get config "QUERY_MAX_RETRIES" (PInt 1) with
      | Raise e => (Raise e, [])
      | Ret max_retries =>
          match py_get config "QUERY_RETRY_DELAY" (PInt 5) with
          | Raise e => (Raise e, [])
          | Ret retry_delay =>
              let bound := match py_as_int max_retries with
                           | Some n => S (Z.to_nat n)
                           | None => 1%nat
                           end in
              match query_loop max_retries retry_delay bound 0%Z with
              | Some r => r
              | None => (Ret (PNone, error_record "Query failed after retries"), [])
              end
          end
      end
  end.

End ProcessSingleQuery.
End RagQuerySingle.

(** A trace whose effects, log records aside, are [n] invocations [call]
    separated by waits of [delay]; the two counts are consequences
    ([retried_of_actions] below) and are part of the definition only to be
    read off directly. *)
Definition retried (call : effect) (delay : Z) (n : nat) (t : trace) : Prop :=
  actions t = retry_schedule call delay n /\
  List.length (filter is_invocation t) = n /\
  filter is_sleep t = repeat (Sleep delay) (n - 1).

(** Concrete environments used in the examples below. *)
Module Samples.

Definition offline : exn := Exception "ConnectionError" "network unreachable".

(** Every download fails; the target directory already holds a file. *)
Definition stale_copy : DataPrepDownload.world :=
  {| DataPrepDownload.snapshot_download := fun _ => Raise offline;
     DataPrepDownload.os_path_exists := Ret true;
     DataPrepDownload.os_listdir := Ret ["data.jsonl"] |}.

(** Every download fails; there is no target directory. *)
Definition no_copy : DataPrepDownload.world :=
  {| DataPrepDownload.snapshot_download := fun _ => Raise offline;
     DataPrepDownload.os_path_exists := Ret false;
     DataPrepDownload.os_listdir := Raise (Exception "FileNotFoundError" "data") |}.

(** The [r]-th failure of a call, told apart by its message. *)
Definition nth_failure (r : Z) : exn :=
  Exception "TimeoutError" (if (r =? 0)%Z then "first" else "later").

Definition query_config : pyval :=
  PDict [("QUERY_MODE", PStr "hybrid");
         ("QUERY_MAX_RETRIES", PInt 2);
         ("QUERY_RETRY_DELAY", PInt 1)].

End Samples.

(* ================================================================== *)
(** ** rag_query_operator.py: extract_queries *)
(* ================================================================== *)

(** The pattern of [extract_queries] is matched by a backtracking matcher
    for sequences of single-character classes with greedy repetition, which
    is the fragment of [re] the pattern lives in.  Characters are code
    points below 256. *)
Module Regex.

Local Open Scope char_scope.

(** [\s] and [str.isspace]: tab to carriage return, the four separators
    FS..US, space, NEL and the no-break space. *)
Definition is_space (c : ascii) : bool :=
  let n := nat_of_ascii c in
  ((9 <=? n) && (n <=? 13) || (28 <=? n) && (n <=? 32) || (n =? 133) || (n =? 160))%nat.

(** [\d]. *)
Definition is_digit (c : ascii) : bool :=
  let n := nat_of_ascii c in ((48 <=? n) && (n <=? 57))%nat.

(** [.] without [re.DOTALL]. *)
Definition is_dot (c : ascii) : bool := negb (Ascii.eqb c "010").

Definition lower (c : ascii) : ascii :=
  let n := nat_of_ascii c in
  if ((65 <=? n) && (n <=? 90))%nat then ascii_of_nat (n + 32) else c.

(** A literal character under [re.IGNORECASE]. *)
Definition nocase (l : ascii) (c : ascii) : bool := Ascii.eqb (lower l) (lower c).

Inductive repetition : Type := One | Many0 | Many1.

(** One item of a pattern: a class, how often it repeats (greedily), and
    whether it lies inside the capturing group. *)
Record atom : Type := Atom {
  cls : ascii -> bool;
  rep : repetition;
  grp : bool
}.

Definition keep (a : atom) (c : ascii) (m : option (string * nat))
  : option (string * nat) :=
  match m with
  | Some (g, n) => Some (if grp a then String c g else g, S n)
  | None => None
  end.

(** Match [pat] at the start of [s]: the text of the group and the number
    of characters matched, for the first match in backtracking order (a
    repetition takes as many characters as it can and gives them back one
    by one). *)
Fixpoint match_here (pat : list atom) (s : string) : option (string * nat) :=
  match pat with
  | [] => Some (EmptyString, O)
  | a :: pat' =>
      let many :=
        fix many (s : string) : option (string * nat) :=
          match s with
          | String c s' =>
              if cls a c then
                match keep a c (many s') with
                | Some m => Some m
                | None => match_here pat' s
                end
              else match_here pat' s
          | EmptyString => match_here pat' s
          end in
      match rep a with
      | One =>
          match s with
          | String c s' => if cls a c then keep a c (match_here pat' s') else None
          | EmptyString => None
          end
      | Many0 => many s
      | Many1 =>
          match s with
          | String c s' => if cls a c then keep a c (many s') else None
          | EmptyString => None
          end
      end
  end.

(** [re.findall] for a pattern with one group: scan from the left, collect
    the group of each match, resume after the match ([skip] counts the
    characters of the current match still to step over; after an empty
    match the scan moves on by one character). *)
Fixpoint findall_from (pat : list atom) (skip : nat) (s : string) : list string :=
  match s with
  | EmptyString =>
      match skip, match_here pat EmptyString with
      | O, Some (g, _) => [g]
      | _, _ => []
      end
  | String _ s' =>
      match skip with
      | S k => findall_from pat k s'
      | O =>
          match match_here pat s with
          | Some (g, n) => g :: findall_from pat (n - 1) s'
          | None => findall_from pat 0 s'
          end
      end
  end.

Definition findall (pat : list atom) (s : string) : list string := findall_from pat 0 s.

Definition lit (c : ascii) : atom := Atom (nocase c) One false.

(** [r"-\s*Question\s*\d+:\s*(.+)"] with [re.IGNORECASE | re.MULTILINE]
    (the pattern has no anchor, so [re.MULTILINE] changes nothing). *)
Definition question_pattern : list atom :=
  [ lit "-"; Atom is_space Many0 false ]
  ++ map lit (list_ascii_of_string "Question")
  ++ [ Atom is_space Many0 false; Atom is_digit Many1 false; lit ":";
       Atom is_space Many0 false; Atom is_dot Many1 true ].

(** [s.replace("**", "")]. *)
Fixpoint remove_double_star (s : string) : string :=
  match s with
  | String "*" (String "*" s') => remove_double_star s'
  | String c s' => String c (remove_double_star s')
  | EmptyString => EmptyString
  end.

Fixpoint lstrip (s : string) : string :=
  match s with
  | String c s' => if is_space c then lstrip s' else s
  | EmptyString => EmptyString
  end.

Fixpoint rstrip (s : string) : string :=
  match s with
  | String c s' =>
      match rstrip s' with
      | EmptyString => if is_space c then EmptyString else String c EmptyString
      | r => String c r
      end
  | EmptyString => EmptyString
  end.

(** [s.strip()]. *)
Definition strip (s : string) : string := rstrip (lstrip s).

End Regex.

Module RagQueryExtract.

(** [extract_queries(file_path)]; [read_file] is the outcome of opening and
    reading the file. *)
Definition extract_queries (read_file : res string) : list string * trace :=
  let t0 := [Log INFO "Extracting queries from: {file_path}"] in
  match read_file with
  | Ret data =>
      let data := Regex.remove_double_star data in
      let found_queries := Regex.findall Regex.question_pattern data in
      let queries :=
        map Regex.strip
            (filter (fun q => negb (String.eqb (Regex.strip q) "")) found_queries) in
      (queries,
       t0 ++ [Log INFO "Extracted {len(queries)} queries."]
          ++ match queries with
             | [] => [Log WARNING "No queries extracted from {file_path}. Check file content and regex pattern."]
             | _ => []
             end)
  | Raise e =>
      if is_class "FileNotFoundError" e
      then ([], t0 ++ [Log ERROR "Questions file not found: {file_path}"])
      else ([], t0 ++ [Log ERROR "Error extracting queries from {file_path}: {e}"])
  end.

End RagQueryExtract.

(** Text of the end-to-end scenario C of the specification. *)
Module Scenario.

Definition newline : string := String "010"%char EmptyString.

Definition line1 : string := "- Question 1: What is X?".
Definition line2 : string := "- Question 2: How does Y work?".

(** The two lines after their hyphen. *)
Definition tail1 : string := " Question 1: What is X?".
Definition tail2 : string := " Question 2: How does Y work?".

(** No character of [s] is a hyphen. *)
Fixpoint no_dash (s : string) : bool :=
  match s with
  | String c s' => negb (Ascii.eqb c "-"%char) && no_dash s'
  | EmptyString => true
  end.

(** [s] is empty or begins a new line. *)
Definition ends_line (s : string) : bool :=
  match s with
  | EmptyString => true
  | String c _ => Ascii.eqb c "010"%char
  end.

(** The two question lines, one after the other, inside a text. *)
Definition questions_text (before after : string) : string :=
  String.append before
    (String.append line1 (String.append newline (String.append line2 after))).

End Scenario.

(* ================================================================== *)
(** ** Operators: events, status, and the monad of handlers *)
(* ================================================================== *)

(** [dora_event]: its ["type"], and for an input its ["id"], the Python
    value of [dora_event["value"][0].as_py()] and its ["metadata"]. *)
Inductive event : Type :=
| INPUT (id : string) (value : pyval) (metadata : pyval)
| STOP_EVENT
| ERROR_EVENT (error : pyval)
| OTHER_EVENT (type : string).

Inductive DoraStatus : Type := CONTINUE | STOP.

(** A method of an operator: from the fields of [self] to a returned value
    or a raised exception, the fields afterwards, and the effects performed.
    Assignments made before an exception is raised stay. *)
Definition M (S A : Type) : Type := S -> res A * S * trace.

Definition ret {S A} (a : A) : M S A := fun s => (Ret a, s, []).

Definition bind {S A B} (m : M S A) (k : A -> M S B) : M S B :=
  fun s =>
    match m s with
    | (Ret a, s', t) =>
        match k a s' with
        | (r, s'', t') => (r, s'', t ++ t')
        end
    | (Raise e, s', t) => (Raise e, s', t)
    end.

Declare Scope handler_scope.
Delimit Scope handler_scope with handler.
Notation "x <- m ;; k" := (bind m (fun x => k))
  (at level 61, m at next level, right associativity) : handler_scope.
Notation "m ;; k" := (bind m (fun _ => k))
  (at level 61, right associativity) : handler_scope.

(** [raise e]. *)
Definition throw {S A} (e : exn) : M S A := fun s => (Raise e, s, []).

(** The outcome of a call settled elsewhere. *)
Definition lift {S A} (r : res A) : M S A := fun s => (r, s, []).

(** One effect on the outside. *)
Definition emit {S} (e : effect) : M S unit := fun s => (Ret tt, s, [e]).

(** Effects already collected by a pure helper. *)
Definition emits {S} (t : trace) : M S unit := fun s => (Ret tt, s, t).

Definition log {S} (lvl : level) (template : string) : M S unit := emit (Log lvl template).

(** Read and assign the fields of [self]. *)
Definition get {S} : M S S := fun s => (Ret s, s, []).
Definition put {S} (s' : S) : M S unit := fun _ => (Ret tt, s', []).

(** [try: m  except Exception as e: h e]. *)
Definition try_except {S A} (m : M S A) (h : exn -> M S A) : M S A :=
  fun s =>
    match m s with
    | (Ret a, s', t) => (Ret a, s', t)
    | (Raise e, s', t) =>
        match h e s' with
        | (r, s'', t') => (r, s'', t ++ t')
        end
    end.

(** [all(key in v for key in keys)]. *)
Fixpoint py_has_all (keys : list string) (v : pyval) : res bool :=
  match keys with
  | [] => Ret true
  | key :: keys' =>
      match py_contains key v with
      | Raise e => Raise e
      | Ret false => Ret false
      | Ret true => py_has_all keys' v
      end
  end.

(** [v[key] = x] on a dict. *)
Definition py_setitem (v : pyval) (key : string) (x : pyval) : res pyval :=
  match v with
  | PDict items => Ret (PDict (dict_set key x items))
  | _ => Raise (TypeError "object does not support item assignment")
  end.

(** [base / v] for a [pathlib.Path] base: [v] has to be a string;
    [join] computes the joined path. *)
Definition path_div (join : string -> string) (v : pyval) : res string :=
  match v with
  | PStr rel => Ret (join rel)
  | _ => Raise (TypeError "unsupported operand type(s) for /")
  end.

Definition is_none (v : pyval) : bool :=
  match v with PNone => true | _ => false end.

(* ================================================================== *)
(** ** rag_query_operator.py: Operator *)
(* ================================================================== *)

Module RagQuery.

Local Open Scope handler_scope.

(** The fields of [self].  A field that holds a function or an object is
    recorded by whether it is set. *)
Record Operator : Type := mkOperator {
  config : pyval;
  rag_instance : option pyval;
  processed : bool;
  questions_file_path : pyval;
  rag_index_dir : pyval;
  llm_model_func : bool;
  embedding_func_wrapper : bool
}.

(** [Operator.__init__]. *)
Definition init : Operator :=
  {| config := PNone; rag_instance := None; processed := false;
     questions_file_path := PNone; rag_index_dir := PNone;
     llm_model_func := false; embedding_func_wrapper := false |}.

Definition set_config (v : pyval) : M Operator unit :=
  fun s => (Ret tt, mkOperator v (rag_instance s) (processed s) (questions_file_path s)
                      (rag_index_dir s) (llm_model_func s) (embedding_func_wrapper s), []).
Definition set_rag_instance (v : option pyval) : M Operator unit :=
  fun s => (Ret tt, mkOperator (config s) v (processed s) (questions_file_path s)
                      (rag_index_dir s) (llm_model_func s) (embedding_func_wrapper s), []).
Definition set_processed (v : bool) : M Operator unit :=
  fun s => (Ret tt, mkOperator (config s) (rag_instance s) v (questions_file_path s)
                      (rag_index_dir s) (llm_model_func s) (embedding_func_wrapper s), []).
Definition set_questions_file_path (v : pyval) : M Operator unit :=
  fun s => (Ret tt, mkOperator (config s) (rag_instance s) (processed s) v
                      (rag_index_dir s) (llm_model_func s) (embedding_func_wrapper s), []).
Definition set_rag_index_dir (v : pyval) : M Operator unit :=
  fun s => (Ret tt, mkOperator (config s) (rag_instance s) (processed s)
                      (questions_file_path s) v (llm_model_func s)
                      (embedding_func_wrapper s), []).
Definition set_llm_model_func (v : bool) : M Operator unit :=
  fun s => (Ret tt, mkOperator (config s) (rag_instance s) (processed s)
                      (questions_file_path s) (rag_index_dir s) v
                      (embedding_func_wrapper s), []).
Definition set_embedding_func_wrapper (v : bool) : M Operator unit :=
  fun s => (Ret tt, mkOperator (config s) (rag_instance s) (processed s)
                      (questions_file_path s) (rag_index_dir s) (llm_model_func s) v, []).

(** What the outside answers while one event is handled. *)
Record world : Type := World {
  os_path_isfile : pyval -> res bool;
  os_path_isdir : pyval -> res bool;
  (** [read_yaml(get_relative_path(...))] *)
  read_yaml : res pyval;
  (** [str(script_dir_parent / rel)] and [Path(p).parent] *)
  join_script_dir_parent : string -> string;
  path_parent : string -> pyval;
  os_makedirs : pyval -> res unit;
  (** [loop.run_until_complete] refuses to run the task ([RuntimeError]) *)
  loop_refuses : option string;
  (** [LightRAG(...)] and [initialize_storages()] *)
  lightrag_new : pyval -> res unit;
  initialize_storages : res unit;
  (** reading the questions file *)
  read_text : pyval -> res string;
  (** [aquery] for the [i]-th query after [r] failed attempts *)
  aquery : nat -> Z -> res pyval;
  (** [open(path, "w")] followed by [json.dump(data, f, default=...)] *)
  json_dump : pyval -> pyval -> bool -> res unit
}.

Section Handlers.
Variable w : world.

Definition required_keys : list string :=
  [ "QUERY_MODE"; "OUTPUT_RESULTS_FILE"; "OUTPUT_ERRORS_FILE";
    "LLM_API_KEY"; "LLM_BASE_URL"; "LLM_MODEL_NAME";
    "EMBEDDING_API_KEY"; "EMBEDDING_BASE_URL"; "EMBEDDING_MODEL_NAME";
    "EMBEDDING_DIM"; "EMBEDDING_MAX_TOKEN_SIZE" ].

(** [self.config[key] = str(script_dir_parent / self.config[key])]. *)
Definition resolve_path (key : string) : M Operator unit :=
  s <- get ;;
  rel <- lift (py_getitem (config s) key) ;;
  p <- lift (path_div (join_script_dir_parent w) rel) ;;
  c <- lift (py_setitem (config s) key (PStr p)) ;;
  set_config c.

(** [os.makedirs(Path(self.config[key]).parent, exist_ok=True)]. *)
Definition make_parent_dir (key : string) : M Operator unit :=
  s <- get ;;
  p <- lift (py_getitem (config s) key) ;;
  match p with
  | PStr path =>
      emit (MakeDirs (path_parent w path)) ;;
      lift (os_makedirs w (path_parent w path))
  | _ => throw (TypeError "expected str, bytes or os.PathLike object")
  end.

Definition load_config : M Operator bool :=
  try_except
    (log INFO "Loading configuration from: {yaml_file_path}" ;;
     cfg <- lift (read_yaml w) ;;
     has_section <- (if truthy cfg then lift (py_contains "RAG_QUERY" cfg) else ret false) ;;
     if has_section : bool then
       section <- lift (py_getitem cfg "RAG_QUERY") ;;
       set_config section ;;
       log INFO "Configuration loaded successfully." ;;
       complete <- lift (py_has_all required_keys section) ;;
       if complete : bool then
         resolve_path "OUTPUT_RESULTS_FILE" ;;
         resolve_path "OUTPUT_ERRORS_FILE" ;;
         make_parent_dir "OUTPUT_RESULTS_FILE" ;;
         make_parent_dir "OUTPUT_ERRORS_FILE" ;;
         log INFO "Resolved OUTPUT_RESULTS_FILE: {self.config['OUTPUT_RESULTS_FILE']}" ;;
         log INFO "Resolved OUTPUT_ERRORS_FILE: {self.config['OUTPUT_ERRORS_FILE']}" ;;
         ret true
       else
         log ERROR "Configuration missing required keys: {missing}" ;;
         set_config PNone ;;
         ret false
     else
       log ERROR "'RAG_QUERY' section not found in YAML or config is empty." ;;
       ret false)
    (fun e =>
       log ERROR "Failed to load or process configuration: {e}" ;;
       ret false).

Definition _setup_async_funcs : M Operator bool :=
  s <- get ;;
  if negb (truthy (config s)) then
    log ERROR "Cannot setup async functions without configuration." ;;
    ret false
  else
    set_llm_model_func true ;;
    _ <- lift (py_getitem (config s) "EMBEDDING_DIM") ;;
    _ <- lift (py_getitem (config s) "EMBEDDING_MAX_TOKEN_SIZE") ;;
    set_embedding_func_wrapper true ;;
    log INFO "Async LLM and Embedding functions configured." ;;
    ret true.

Definition _initialize_rag_instance (rag_working_dir : pyval) : M Operator bool :=
  s <- get ;;
  if negb (truthy (config s)) || negb (llm_model_func s) || negb (embedding_func_wrapper s)
  then
    log ERROR "Cannot initialize RAG: Missing config or async functions." ;;
    ret false
  else
    try_except
      (log INFO "Initializing LightRAG instance using existing directory: {rag_working_dir}..." ;;
       emit (RagInit rag_working_dir) ;;
       lift (lightrag_new w rag_working_dir) ;;
       set_rag_instance (Some rag_working_dir) ;;
       log INFO "Calling initialize_storages() for existing directory (check if needed)..." ;;
       lift (initialize_storages w) ;;
       log INFO "LightRAG instance pointing to existing index is ready." ;;
       ret true)
      (fun e =>
         log ERROR "Failed to initialize LightRAG with existing directory {rag_working_dir}: {e}" ;;
         set_rag_instance None ;;
         ret false).

(** [_process_single_query] for the [i]-th query of the file. *)
Definition _process_single_query (i : nat) (query_text : string)
  : M Operator (pyval * pyval) :=
  fun s =>
    match RagQuerySingle._process_single_query
            (rag_instance s) (config s) (aquery w i) query_text with
    | (r, t) => (r, s, t)
    end.

(** The [for i, query_text in enumerate(queries):] loop. *)
Fixpoint run_queries (i : nat) (queries : list string) (results errors : list pyval)
  : M Operator (list pyval * list pyval) :=
  match queries with
  | [] => ret (results, errors)
  | query_text :: rest =>
      log INFO "Processing query {i+1}/{total_queries}..." ;;
      r <- _process_single_query i query_text ;;
      let results := if truthy (fst r) then results ++ [fst r] else results in
      let errors := if truthy (snd r) then errors ++ [snd r] else errors in
      run_queries (S i) rest results errors
  end.

(** One [open]/[json.dump] attempt. *)
Definition dump (path data : pyval) (default_str : bool) : M Operator unit :=
  emit (JsonDump path data default_str) ;;
  lift (json_dump w path data default_str).

(** The [try] that saves the results list: the path to report, or [None]. *)
Definition save_results (results_file_path : pyval) (results_list : list pyval)
  : M Operator pyval :=
  try_except
    (dump results_file_path (PList results_list) false ;;
     ret results_file_path)
    (fun e =>
       if is_class "TypeError" e then
         log ERROR "Serialization error writing results: {e}. Result objects might not be JSON serializable." ;;
         try_except
           (dump results_file_path (PList results_list) true ;;
            log WARNING "Results saved with string conversion fallback due to serialization error." ;;
            ret results_file_path)
           (fun ioe =>
              log ERROR "Failed to write results JSON even with fallback: {ioe}" ;;
              ret PNone)
       else
         log ERROR "Failed to write results JSON: {e}" ;;
         ret PNone).

(** The [try] that saves the errors list. *)
Definition save_errors (errors_file_path : pyval) (errors_list : list pyval)
  : M Operator pyval :=
  try_except
    (dump errors_file_path (PList errors_list) false ;;
     ret errors_file_path)
    (fun e =>
       log ERROR "Failed to write errors JSON: {e}" ;;
       ret PNone).

Definition _run_queries_and_save_task (questions_file rag_dir : pyval)
  : M Operator (pyval * pyval) :=
  ready <- _initialize_rag_instance rag_dir ;;
  if negb ready then ret (PNone, PNone)
  else
    let extracted := RagQueryExtract.extract_queries (read_text w questions_file) in
    emits (snd extracted) ;;
    match fst extracted with
    | [] =>
        log WARNING "No queries extracted. Nothing to process." ;;
        ret (PNone, PNone)
    | queries =>
        s <- get ;;
        _ <- lift (py_get (config s) "QUERY_MODE" (PStr "hybrid")) ;;
        log INFO "Configured query mode: {query_mode}" ;;
        lists <- run_queries 0 queries [] [] ;;
        results_file_path <- lift (py_getitem (config s) "OUTPUT_RESULTS_FILE") ;;
        errors_file_path <- lift (py_getitem (config s) "OUTPUT_ERRORS_FILE") ;;
        log INFO "Saving {len(results_list)} results to {results_file_path}" ;;
        results_file_path <- save_results results_file_path (fst lists) ;;
        log INFO "Saving {len(errors_list)} errors to {errors_file_path}" ;;
        errors_file_path <- save_errors errors_file_path (snd lists) ;;
        ret (results_file_path, errors_file_path)
    end.

(** [loop.run_until_complete(task)] inside
    [try: ... except RuntimeError as e: logger.warning(...)], with the
    targets of the assignment preset to [(None, None)]. *)
Definition run_main_query_task : M Operator (pyval * pyval) :=
  try_except
    (match loop_refuses w with
     | Some msg => throw (RuntimeError msg)
     | None =>
         s <- get ;;
         _run_queries_and_save_task (questions_file_path s) (rag_index_dir s)
     end)
    (fun e =>
       if is_class "RuntimeError" e then
         log WARNING "Asyncio loop issue: {e}. Check DORA context." ;;
         ret (PNone, PNone)
       else throw e).

(** The branch taken once both inputs are there and nothing was processed. *)
Definition start_processing (metadata : pyval) : M Operator DoraStatus :=
  log INFO "Both inputs received. Starting RAG query process..." ;;
  s <- get ;;
  configured <- (if negb (truthy (config s)) then load_config else ret true) ;;
  if negb configured then
    log ERROR "Failed to load configuration. Stopping." ;;
    ret STOP
  else
    s <- get ;;
    set_up <- (if negb (llm_model_func s) || negb (embedding_func_wrapper s)
               then _setup_async_funcs else ret true) ;;
    if negb set_up then
      log ERROR "Failed to setup async functions. Stopping." ;;
      ret STOP
    else
      paths <- run_main_query_task ;;
      if negb (is_none (fst paths)) && negb (is_none (snd paths)) then
        log INFO "RAG querying and saving completed." ;;
        emit (SendOutput "query_results"
                (Envelope.create_agent_output "rag_query_evaluator"
                   (PDict [("results_file", fst paths); ("errors_file", snd paths)])
                   true)
                metadata) ;;
        log INFO "Sent output file paths: Results='{results_path}', Errors='{errors_path}'" ;;
        set_processed true ;;
        log INFO "RagQueryOperator processing finished." ;;
        ret STOP
      else
        log ERROR "RAG querying task failed or did not return valid output paths." ;;
        set_processed true ;;
        ret STOP.

(** The part of [on_event] after the input has been looked at. *)
Definition check_inputs (metadata : pyval) : M Operator DoraStatus :=
  s <- get ;;
  if truthy (questions_file_path s) && truthy (rag_index_dir s) && negb (processed s)
  then start_processing metadata
  else if processed s then
    log INFO "RAG querying already processed. Ignoring further inputs." ;;
    ret CONTINUE
  else
    log INFO "Waiting for all required inputs (questions file path and RAG index dir)..." ;;
    ret CONTINUE.

Definition on_event (dora_event : event) : M Operator DoraStatus :=
  match dora_event with
  | INPUT event_id input_data metadata =>
      log DEBUG "Received input event on ID: {event_id}" ;;
      let payload := Envelope.load_node_result input_data in
      if String.eqb event_id "generated_questions_file" then
        is_file <- lift (os_path_isfile w payload) ;;
        (if is_file : bool then
           set_questions_file_path payload ;;
           log INFO "Received questions file path: {self.questions_file_path}"
         else
           log ERROR "Received invalid path for questions file: {payload}") ;;
        check_inputs metadata
      else if String.eqb event_id "rag_index_dir" then
        is_dir <- lift (os_path_isdir w payload) ;;
        (if is_dir : bool then
           set_rag_index_dir payload ;;
           log INFO "Received RAG index directory path: {self.rag_index_dir}"
         else
           log ERROR "Received invalid path for RAG index directory: {payload}") ;;
        check_inputs metadata
      else
        log DEBUG "Ignoring input from unexpected ID: {event_id}" ;;
        ret CONTINUE
  | STOP_EVENT =>
      log INFO "Received STOP event. Shutting down RagQueryOperator." ;;
      ret CONTINUE
  | ERROR_EVENT _ =>
      log ERROR "Received ERROR event: {dora_event['error']}" ;;
      ret CONTINUE
  | OTHER_EVENT _ =>
      log DEBUG "Received unknown event type: {dora_event['type']}" ;;
      ret CONTINUE
  end.

End Handlers.
End RagQuery.

(* ================================================================== *)
(** ** Observations on handlers and traces *)
(* ================================================================== *)

(** The record that marks the start of processing in the query stage. *)
Definition start_template : string :=
  "Both inputs received. Starting RAG query process...".

Definition is_start (e : effect) : bool :=
  match e with
  | Log INFO template => String.eqb template start_template
  | _ => false
  end.

(** How many times processing was started in a trace. *)
Definition started (t : trace) : nat := List.length (filter is_start t).

(** A method none of whose effects satisfies [p], whatever the fields. *)
Definition avoids {S A} (p : effect -> bool) (m : M S A) : Prop :=
  forall s, filter p (snd (m s)) = [].

(** A property of effects that no log record has, the start record
    aside, and no effect on the outside has, an emitted output aside. *)
Definition silent (p : effect -> bool) : Prop :=
  (forall l m, m <> start_template -> p (Log l m) = false) /\
  (forall e, is_log e = false -> is_output e = false -> p e = false).

(** A method that leaves the observation [f] of the fields as it was. *)
Definition keeps {S A B} (f : S -> B) (m : M S A) : Prop :=
  forall s, f (snd (fst (m s))) = f s.

(** Deliver events one after the other, each with the answers of the
    outside during its handling; the effects of all of them in order. *)
Fixpoint deliver {S W} (on_event : W -> event -> M S DoraStatus)
    (events : list (W * event)) (s : S) : S * trace :=
  match events with
  | [] => (s, [])
  | (w, ev) :: rest =>
      match on_event w ev s with
      | (_, s', t) =>
          match deliver on_event rest s' with
          | (s'', t') => (s'', t ++ t')
          end
      end
  end.

(* ================================================================== *)
(** ** data_prep_operator.py: Operator *)
(* ================================================================== *)

Module DataPrep.

Local Open Scope handler_scope.

Record Operator : Type := mkOperator {
  config : pyval;
  processed : bool
}.

(** [Operator.__init__]. *)
Definition init : Operator := {| config := PNone; processed := false |}.

Definition set_config (v : pyval) : M Operator unit :=
  fun s => (Ret tt, mkOperator v (processed s), []).
Definition set_processed (v : bool) : M Operator unit :=
  fun s => (Ret tt, mkOperator (config s) v, []).

(** What the outside answers while one event is handled. *)
Record world : Type := World {
  read_yaml : res pyval;
  (** [str(script_dir / rel)] *)
  join_script_dir : string -> string;
  (** the answers met by [download_dataset] *)
  download : DataPrepDownload.world;
  (** [os.path.isdir] and [os.listdir] of the branch that skips the download *)
  os_path_isdir : pyval -> res bool;
  os_listdir : pyval -> res (list string);
  (** [extract_unique_contexts(input_directory, output_directory)]: the
      handler uses only its answer *)
  extract_unique_contexts : pyval -> pyval -> res bool
}.

Section Handlers.
Variable w : world.

Definition required_keys : list string :=
  [ "DATASET_REPO_ID"; "DOWNLOAD_DIR"; "OUTPUT_DIR" ].

(** [self.config[key] = str(script_dir / self.config[key])]. *)
Definition resolve_path (key : string) : M Operator unit :=
  s <- get ;;
  rel <- lift (py_getitem (config s) key) ;;
  p <- lift (path_div (join_script_dir w) rel) ;;
  c <- lift (py_setitem (config s) key (PStr p)) ;;
  set_config c.

Definition load_config : M Operator bool :=
  try_except
    (log INFO "Loading configuration from: {yaml_file_path}" ;;
     cfg <- lift (read_yaml w) ;;
     has_section <- (if truthy cfg then lift (py_contains "DATA_PREP" cfg) else ret false) ;;
     if has_section : bool then
       section <- lift (py_getitem cfg "DATA_PREP") ;;
       set_config section ;;
       log INFO "Configuration loaded successfully." ;;
       complete <- lift (py_has_all required_keys section) ;;
       if complete : bool then
         resolve_path "DOWNLOAD_DIR" ;;
         resolve_path "OUTPUT_DIR" ;;
         log INFO "Resolved DOWNLOAD_DIR: {self.config['DOWNLOAD_DIR']}" ;;
         log INFO "Resolved OUTPUT_DIR: {self.config['OUTPUT_DIR']}" ;;
         ret true
       else
         log ERROR "Configuration missing required keys: {required_keys}" ;;
         set_config PNone ;;
         ret false
     else
       log ERROR "'DATA_PREP' section not found in YAML or config is empty." ;;
       ret false)
    (fun e =>
       log ERROR "Failed to load or process configuration: {e}" ;;
       ret false).

(** [download_dataset(repo_id, download_dir)] with the default
    [max_retries=3, delay=5]. *)
Definition download_dataset (repo_id download_dir : pyval) : M Operator bool :=
  fun s =>
    match DataPrepDownload.download_dataset (download w) repo_id download_dir 3 5 with
    | (r, t) => (r, s, t)
    end.

(** The check made instead of a download when [SKIP_DOWNLOAD] is set. *)
Definition check_existing (download_dir : pyval) : M Operator bool :=
  log INFO "Skipping download. Assuming dataset exists in '{download_dir}'." ;;
  is_dir <- lift (os_path_isdir w download_dir) ;;
  names <- (if is_dir : bool then lift (os_listdir w download_dir) else ret []) ;;
  match names with
  | _ :: _ =>
      log INFO "Directory '{download_dir}' exists and is not empty." ;;
      ret true
  | [] =>
      log ERROR "Error: Skipped download, but directory '{download_dir}' does not exist or is empty." ;;
      ret false
  end.

(** The body of the [try] of [on_event]. *)
Definition main_logic (metadata : pyval) : M Operator DoraStatus :=
  s <- get ;;
  download_dir <- lift (py_getitem (config s) "DOWNLOAD_DIR") ;;
  output_dir <- lift (py_getitem (config s) "OUTPUT_DIR") ;;
  repo_id <- lift (py_getitem (config s) "DATASET_REPO_ID") ;;
  skip_download <- lift (py_get (config s) "SKIP_DOWNLOAD" (PBool false)) ;;
  download_successful <-
    (if negb (truthy skip_download) then download_dataset repo_id download_dir
     else check_existing download_dir) ;;
  if download_successful : bool then
    log INFO "Proceeding with context extraction." ;;
    emit (ExtractContexts download_dir output_dir) ;;
    extraction_successful <- lift (extract_unique_contexts w download_dir output_dir) ;;
    (if extraction_successful : bool
     then log INFO "Context extraction completed successfully."
     else log WARNING "Context extraction finished, but there might have been issues (e.g., no files found, save errors).") ;;
    log INFO "Sending output directory path: {output_dir}" ;;
    emit (SendOutput "unique_contexts_dir"
            (Envelope.create_agent_output "data_prep" output_dir false) metadata) ;;
    log INFO "Output sent successfully." ;;
    set_processed true ;;
    log INFO "Data preparation process finished." ;;
    ret STOP
  else
    log ERROR "Dataset download/verification failed. Cannot proceed with context extraction." ;;
    set_processed true ;;
    ret STOP.

Definition on_event (dora_event : event) : M Operator DoraStatus :=
  match dora_event with
  | INPUT event_id input_data metadata =>
      s <- get ;;
      if processed s then
        log INFO "Data preparation already processed. Ignoring further inputs." ;;
        ret CONTINUE
      else
        log INFO "Received input event on ID: {dora_event['id']}. Starting data preparation..." ;;
        configured <- (if negb (truthy (config s)) then load_config else ret true) ;;
        if negb configured then
          log ERROR "Failed to load configuration. Stopping." ;;
          ret STOP
        else
          try_except (main_logic metadata)
            (fun e =>
               log ERROR "An unhandled error occurred during data preparation: {e}" ;;
               set_processed true ;;
               ret STOP)
  | STOP_EVENT =>
      log INFO "Received STOP event. Shutting down DataPrepOperator." ;;
      ret CONTINUE
  | ERROR_EVENT _ =>
      log ERROR "Received ERROR event: {dora_event['error']}" ;;
      ret CONTINUE
  | OTHER_EVENT _ =>
      log DEBUG "Received unknown event type: {dora_event['type']}" ;;
      ret CONTINUE
  end.

End Handlers.
End DataPrep.

(* ================================================================== *)
(** ** question_gen_operator.py: Operator *)
(* ================================================================== *)

Module QuestionGen.

Local Open Scope handler_scope.

Record Operator : Type := mkOperator {
  config : pyval;
  processed : bool;
  tokenizer : bool;
  llm_client : bool
}.

(** [Operator.__init__]. *)
Definition init : Operator :=
  {| config := PNone; processed := false; tokenizer := false; llm_client := false |}.

Definition set_config (v : pyval) : M Operator unit :=
  fun s => (Ret tt, mkOperator v (processed s) (tokenizer s) (llm_client s), []).
Definition set_processed (v : bool) : M Operator unit :=
  fun s => (Ret tt, mkOperator (config s) v (tokenizer s) (llm_client s), []).
Definition set_tokenizer (v : bool) : M Operator unit :=
  fun s => (Ret tt, mkOperator (config s) (processed s) v (llm_client s), []).
Definition set_llm_client (v : bool) : M Operator unit :=
  fun s => (Ret tt, mkOperator (config s) (processed s) (tokenizer s) v, []).

(** What the outside answers while one event is handled. *)
Record world : Type := World {
  read_yaml : res pyval;
  join_script_dir_parent : string -> string;
  path_parent : string -> pyval;
  os_makedirs : pyval -> res unit;
  (** [GPT2Tokenizer.from_pretrained(name)] and [AsyncOpenAI(...)] *)
  tokenizer_from_pretrained : pyval -> res unit;
  async_openai_new : res unit;
  (** [loop.run_until_complete] refuses to run the task ([RuntimeError]) *)
  loop_refuses : option string;
  os_path_isdir : pyval -> res bool;
  (** [os.path.join(directory, name)], [os.path.exists], and [open] with
      [json.load] on the contexts file *)
  os_path_join : pyval -> pyval -> res pyval;
  os_path_exists : pyval -> res bool;
  json_load : pyval -> res pyval;
  (** the prompt built from the summaries of the contexts *)
  build_prompt : pyval -> pyval -> res string;
  (** the completion request after [r] failed attempts *)
  chat_completion : Z -> res pyval;
  (** [open(path, "w")] followed by [file.write(content)] *)
  write_text : pyval -> pyval -> res unit
}.

Section Handlers.
Variable w : world.

Definition required_keys : list string :=
  [ "INPUT_CONTEXTS_FILENAME"; "SUMMARY_TOTAL_TOKENS";
    "OUTPUT_QUESTIONS_FILE"; "LLM_API_KEY"; "LLM_BASE_URL";
    "LLM_MODEL_NAME"; "TOKENIZER_MODEL" ].

Definition resolve_path (key : string) : M Operator unit :=
  s <- get ;;
  rel <- lift (py_getitem (config s) key) ;;
  p <- lift (path_div (join_script_dir_parent w) rel) ;;
  c <- lift (py_setitem (config s) key (PStr p)) ;;
  set_config c.

Definition make_parent_dir (key : string) : M Operator unit :=
  s <- get ;;
  p <- lift (py_getitem (config s) key) ;;
  match p with
  | PStr path =>
      emit (MakeDirs (path_parent w path)) ;;
      lift (os_makedirs w (path_parent w path))
  | _ => throw (TypeError "expected str, bytes or os.PathLike object")
  end.

Definition load_config : M Operator bool :=
  try_except
    (log INFO "Loading configuration from: {yaml_file_path}" ;;
     cfg <- lift (read_yaml w) ;;
     has_section <- (if truthy cfg then lift (py_contains "QUESTION_GEN" cfg) else ret false) ;;
     if has_section : bool then
       section <- lift (py_getitem cfg "QUESTION_GEN") ;;
       set_config section ;;
       log INFO "Configuration loaded successfully." ;;
       complete <- lift (py_has_all required_keys section) ;;
       if complete : bool then
         resolve_path "OUTPUT_QUESTIONS_FILE" ;;
         make_parent_dir "OUTPUT_QUESTIONS_FILE" ;;
         log INFO "Resolved OUTPUT_QUESTIONS_FILE: {self.config['OUTPUT_QUESTIONS_FILE']}" ;;
         ret true
       else
         log ERROR "Configuration missing required keys: {missing}" ;;
         set_config PNone ;;
         ret false
     else
       log ERROR "'QUESTION_GEN' section not found in YAML or config is empty." ;;
       ret false)
    (fun e =>
       log ERROR "Failed to load or process configuration: {e}" ;;
       ret false).

Definition _setup_dependencies : M Operator bool :=
  s <- get ;;
  if negb (truthy (config s)) then
    log ERROR "Cannot setup dependencies without configuration." ;;
    ret false
  else
    try_except
      (name <- lift (py_getitem (config s) "TOKENIZER_MODEL") ;;
       log INFO "Loading tokenizer: {self.config['TOKENIZER_MODEL']}" ;;
       lift (tokenizer_from_pretrained w name) ;;
       set_tokenizer true ;;
       log INFO "Tokenizer loaded." ;;
       log INFO "Initializing AsyncOpenAI client..." ;;
       _ <- lift (py_getitem (config s) "LLM_API_KEY") ;;
       _ <- lift (py_getitem (config s) "LLM_BASE_URL") ;;
       lift (async_openai_new w) ;;
       set_llm_client true ;;
       log INFO "AsyncOpenAI client initialized." ;;
       ret true)
      (fun e =>
         log ERROR "Failed to setup dependencies: {e}" ;;
         set_tokenizer false ;;
         set_llm_client false ;;
         ret false).

(** [call_llm_for_questions(client, model, prompt)] with the default
    [max_retries=3, delay=5]. *)
Definition call_llm_for_questions (model : pyval) (prompt : string) : M Operator pyval :=
  fun s =>
    match QuestionGenLLM.call_llm_for_questions (chat_completion w) model prompt 3 5 with
    | (r, t) => (Ret r, s, t)
    end.

(** [_generate_questions_task]: the path of the questions file, or [None]. *)
Definition _generate_questions_task (unique_contexts_dir : pyval) : M Operator pyval :=
  s <- get ;;
  if negb (truthy (config s)) || negb (tokenizer s) || negb (llm_client s) then
    log ERROR "Operator not properly configured or dependencies not set up." ;;
    ret PNone
  else
    try_except
      (context_file_name <- lift (py_getitem (config s) "INPUT_CONTEXTS_FILENAME") ;;
       context_file_path <- lift (os_path_join w unique_contexts_dir context_file_name) ;;
       log INFO "Attempting to load contexts from: {context_file_path}" ;;
       found <- lift (os_path_exists w context_file_path) ;;
       if negb found then
         log ERROR "Required context file not found: {context_file_path}" ;;
         ret PNone
       else
         unique_contexts <- lift (json_load w context_file_path) ;;
         match unique_contexts with
         | PList (_ :: _) =>
             log INFO "Generating summaries for {len(unique_contexts)} contexts..." ;;
             summary_tokens <- lift (py_get (config s) "SUMMARY_TOTAL_TOKENS" (PInt 2000)) ;;
             prompt <- lift (build_prompt w unique_contexts summary_tokens) ;;
             log INFO "Total description length: {len(total_description)} characters." ;;
             log INFO "Requesting question generation from LLM..." ;;
             model <- lift (py_getitem (config s) "LLM_MODEL_NAME") ;;
             generated_content <- call_llm_for_questions model prompt ;;
             if negb (truthy generated_content) then
               log ERROR "Failed to get response from LLM for question generation." ;;
               ret PNone
             else
               output_file_path <- lift (py_getitem (config s) "OUTPUT_QUESTIONS_FILE") ;;
               emit (WriteText output_file_path generated_content) ;;
               try_except
                 (lift (write_text w output_file_path generated_content) ;;
                  log INFO "Generated questions successfully saved to: {output_file_path}" ;;
                  ret output_file_path)
                 (fun e =>
                    if is_class "OSError" e then
                      log ERROR "Failed to write questions to file {output_file_path}: {e}" ;;
                      ret PNone
                    else throw e)
         | _ =>
             log ERROR "Context file {context_file_path} is empty or not a list." ;;
             ret PNone
         end)
      (fun e =>
         (if is_class "FileNotFoundError" e then
            log ERROR "Context file not found during processing: {context_file_path}"
          else if is_class "JSONDecodeError" e then
            log ERROR "Error decoding JSON from {context_file_path}: {e}"
          else
            log ERROR "An unhandled error occurred during question generation task: {e}") ;;
         ret PNone).

(** The coroutine [run_main_task] of [on_event]. *)
Definition run_main_task (input_data : pyval) : M Operator pyval :=
  let unique_contexts_dir := Envelope.load_node_result input_data in
  is_dir <- (if truthy unique_contexts_dir
             then lift (os_path_isdir w unique_contexts_dir) else ret false) ;;
  if negb is_dir then
    log ERROR "Invalid input: Expected a valid directory path for 'unique_contexts_dir', got '{unique_contexts_dir}'. Stopping." ;;
    ret PNone
  else _generate_questions_task unique_contexts_dir.

(** [loop.run_until_complete(run_main_task())] inside
    [try: ... except RuntimeError], with [output_file_path] preset to
    [None]. *)
Definition run_until_complete (input_data : pyval) : M Operator pyval :=
  try_except
    (match loop_refuses w with
     | Some msg => throw (RuntimeError msg)
     | None => run_main_task input_data
     end)
    (fun e =>
       if is_class "RuntimeError" e then
         log WARNING "Asyncio loop issue: {e}. Attempting direct run (check context)." ;;
         ret PNone
       else throw e).

Definition on_event (dora_event : event) : M Operator DoraStatus :=
  match dora_event with
  | INPUT event_id input_data metadata =>
      log DEBUG "Received input event on ID: {event_id}" ;;
      if String.eqb event_id "unique_contexts_dir" then
        s <- get ;;
        if processed s then
          log INFO "Question generation already processed. Ignoring further inputs." ;;
          ret CONTINUE
        else
          log INFO "Received unique contexts directory path. Starting question generation..." ;;
          configured <- (if negb (truthy (config s)) then load_config else ret true) ;;
          if negb configured then
            log ERROR "Failed to load configuration. Stopping." ;;
            ret STOP
          else
            s <- get ;;
            set_up <- (if negb (tokenizer s) || negb (llm_client s)
                       then _setup_dependencies else ret true) ;;
            if negb set_up then
              log ERROR "Failed to setup dependencies. Stopping." ;;
              ret STOP
            else
              output_file_path <- run_until_complete input_data ;;
              if truthy output_file_path then
                log INFO "Question generation completed successfully." ;;
                emit (SendOutput "generated_questions_file"
                        (Envelope.create_agent_output "question_generator"
                           output_file_path false)
                        metadata) ;;
                log INFO "Sent generated questions file path: {output_file_path}" ;;
                set_processed true ;;
                log INFO "QuestionGenOperator processing finished." ;;
                ret STOP
              else
                log ERROR "Question generation failed. No output sent." ;;
                set_processed true ;;
                ret STOP
      else
        log DEBUG "Ignoring input from ID: {event_id}" ;;
        ret CONTINUE
  | STOP_EVENT =>
      log INFO "Received STOP event. Shutting down QuestionGenOperator." ;;
      ret CONTINUE
  | ERROR_EVENT _ =>
      log ERROR "Received ERROR event: {dora_event['error']}" ;;
      ret CONTINUE
  | OTHER_EVENT _ =>
      log DEBUG "Received unknown event type: {dora_event['type']}" ;;
      ret CONTINUE
  end.

End Handlers.
End QuestionGen.

(* ================================================================== *)
(** ** rag_index_operator.py: Operator *)
(* ================================================================== *)

Module RagIndex.

Local Open Scope handler_scope.

Record Operator : Type := mkOperator {
  config : pyval;
  rag_instance : option pyval;
  processed : bool;
  llm_model_func : bool;
  embedding_func_wrapper : bool
}.

(** [Operator.__init__]. *)
Definition init : Operator :=
  {| config := PNone; rag_instance := None; processed := false;
     llm_model_func := false; embedding_func_wrapper := false |}.

Definition set_config (v : pyval) : M Operator unit :=
  fun s => (Ret tt, mkOperator v (rag_instance s) (processed s) (llm_model_func s)
                      (embedding_func_wrapper s), []).
Definition set_rag_instance (v : option pyval) : M Operator unit :=
  fun s => (Ret tt, mkOperator (config s) v (processed s) (llm_model_func s)
                      (embedding_func_wrapper s), []).
Definition set_processed (v : bool) : M Operator unit :=
  fun s => (Ret tt, mkOperator (config s) (rag_instance s) v (llm_model_func s)
                      (embedding_func_wrapper s), []).
Definition set_llm_model_func (v : bool) : M Operator unit :=
  fun s => (Ret tt, mkOperator (config s) (rag_instance s) (processed s) v
                      (embedding_func_wrapper s), []).
Definition set_embedding_func_wrapper (v : bool) : M Operator unit :=
  fun s => (Ret tt, mkOperator (config s) (rag_instance s) (processed s)
                      (llm_model_func s) v, []).

(** What the outside answers while one event is handled. *)
Record world : Type := World {
  read_yaml : res pyval;
  join_script_dir_parent : string -> string;
  os_makedirs : pyval -> res unit;
  (** [loop.run_until_complete] refuses to run the task ([RuntimeError]) *)
  loop_refuses : option string;
  lightrag_new : pyval -> res unit;
  initialize_storages : res unit;
  os_path_isdir : pyval -> res bool;
  (** [glob.glob(os.path.join(directory, pattern))] *)
  glob : pyval -> pyval -> res (list string);
  (** [open] with [json.load] on a context file *)
  json_load : string -> res pyval;
  (** [self.rag_instance.insert(contexts)] for a file after [r] failed
      attempts *)
  insert : string -> Z -> res unit
}.

Section Handlers.
Variable w : world.

Definition required_keys : list string :=
  [ "WORKING_DIR"; "LLM_API_KEY"; "LLM_BASE_URL"; "LLM_MODEL_NAME";
    "EMBEDDING_API_KEY"; "EMBEDDING_BASE_URL"; "EMBEDDING_MODEL_NAME";
    "EMBEDDING_DIM"; "EMBEDDING_MAX_TOKEN_SIZE"; "EMBEDDING_BATCH_NUM";
    "INPUT_CONTEXTS_FILENAME_PATTERN" ].

Definition resolve_path (key : string) : M Operator unit :=
  s <- get ;;
  rel <- lift (py_getitem (config s) key) ;;
  p <- lift (path_div (join_script_dir_parent w) rel) ;;
  c <- lift (py_setitem (config s) key (PStr p)) ;;
  set_config c.

Definition load_config : M Operator bool :=
  try_except
    (log INFO "Loading configuration from: {yaml_file_path}" ;;
     cfg <- lift (read_yaml w) ;;
     has_section <- (if truthy cfg then lift (py_contains "RAG_INDEX" cfg) else ret false) ;;
     if has_section : bool then
       section <- lift (py_getitem cfg "RAG_INDEX") ;;
       set_config section ;;
       log INFO "Configuration loaded successfully." ;;
       complete <- lift (py_has_all required_keys section) ;;
       if complete : bool then
         resolve_path "WORKING_DIR" ;;
         log INFO "Resolved WORKING_DIR: {self.config['WORKING_DIR']}" ;;
         s <- get ;;
         working_dir <- lift (py_getitem (config s) "WORKING_DIR") ;;
         emit (MakeDirs working_dir) ;;
         lift (os_makedirs w working_dir) ;;
         ret true
       else
         log ERROR "Configuration missing required keys: {missing}" ;;
         set_config PNone ;;
         ret false
     else
       log ERROR "'RAG_INDEX' section not found in YAML or config is empty." ;;
       ret false)
    (fun e =>
       log ERROR "Failed to load or process configuration: {e}" ;;
       ret false).

Definition _setup_async_funcs : M Operator bool :=
  s <- get ;;
  if negb (truthy (config s)) then
    log ERROR "Cannot setup async functions without configuration." ;;
    ret false
  else
    set_llm_model_func true ;;
    _ <- lift (py_getitem (config s) "EMBEDDING_DIM") ;;
    _ <- lift (py_getitem (config s) "EMBEDDING_MAX_TOKEN_SIZE") ;;
    set_embedding_func_wrapper true ;;
    log INFO "Async LLM and Embedding functions configured." ;;
    ret true.

Definition _initialize_rag_instance : M Operator bool :=
  s <- get ;;
  if negb (truthy (config s)) || negb (llm_model_func s) || negb (embedding_func_wrapper s)
  then
    log ERROR "Cannot initialize RAG: Missing config or async functions." ;;
    ret false
  else
    try_except
      (log INFO "Initializing LightRAG instance..." ;;
       working_dir <- lift (py_getitem (config s) "WORKING_DIR") ;;
       _ <- lift (py_getitem (config s) "EMBEDDING_BATCH_NUM") ;;
       emit (RagInit working_dir) ;;
       lift (lightrag_new w working_dir) ;;
       set_rag_instance (Some working_dir) ;;
       log INFO "LightRAG instance created. Initializing storages..." ;;
       lift (initialize_storages w) ;;
       log INFO "LightRAG storages initialized." ;;
       ret true)
      (fun e =>
         log ERROR "Failed to initialize LightRAG: {e}" ;;
         set_rag_instance None ;;
         ret false).

(** The insertion loop of [_insert_contexts_from_file]. *)
Fixpoint insert_loop (file_path : string) (max_retries retry_delay : pyval)
    (fuel : nat) (retries : Z) : option (res bool * trace) :=
  match fuel with
  | O => None
  | S fuel' =>
      match py_int_lt retries max_retries with
      | Raise e => Some (Raise e, [])
      | Ret false => Some (Ret false, [])
      | Ret true =>
          match insert w file_path retries with
          | Ret _ =>
              Some (Ret true,
                    [RagInsert file_path;
                     Log INFO "Successfully inserted contexts from {os.path.basename(file_path)}."])
          | Raise e =>
              let retries := (retries + 1)%Z in
              let t := [RagInsert file_path;
                        Log WARNING "Insertion failed for {os.path.basename(file_path)} (attempt {retries}/{max_retries}), error: {e}"] in
              match py_int_lt retries max_retries with
              | Raise e' => Some (Raise e', t)
              | Ret true =>
                  let t := t ++ [Log INFO "Retrying insertion in {retry_delay} seconds..."] in
                  match asyncio_sleep_py retry_delay with
                  | Raise e' => Some (Raise e', t)
                  | Ret ts =>
                      match insert_loop file_path max_retries retry_delay fuel' retries with
                      | Some (r, t') => Some (r, t ++ ts ++ t')
                      | None => None
                      end
                  end
              | Ret false =>
                  Some (Ret false,
                        t ++ [Log ERROR "Insertion failed for {os.path.basename(file_path)} after exceeding max retries."])
              end
          end
      end
  end.

Definition run_insert_loop (file_path : string) (max_retries retry_delay : pyval)
  : M Operator bool :=
  fun s =>
    let bound := match py_as_int max_retries with
                 | Some n => S (Z.to_nat n)
                 | None => 1%nat
                 end in
    match insert_loop file_path max_retries retry_delay bound 0%Z with
    | Some (r, t) => (r, s, t)
    | None => (Ret false, s, [])
    end.

Definition _insert_contexts_from_file (file_path : string) : M Operator bool :=
  s <- get ;;
  match rag_instance s with
  | None =>
      log ERROR "RAG instance not available for insertion." ;;
      ret false
  | Some _ =>
      log INFO "Processing context file: {file_path}" ;;
      try_except
        (unique_contexts <- lift (json_load w file_path) ;;
         match unique_contexts with
         | PList [] =>
             log INFO "Context file {file_path} is empty. Nothing to insert." ;;
             ret true
         | PList (_ :: _) =>
             log INFO "Attempting to insert {len(unique_contexts)} contexts from {os.path.basename(file_path)}." ;;
             max_retries <- lift (py_get (config s) "INSERT_MAX_RETRIES" (PInt 3)) ;;
             retry_delay <- lift (py_get (config s) "INSERT_RETRY_DELAY" (PInt 10)) ;;
             run_insert_loop file_path max_retries retry_delay
         | _ =>
             log ERROR "Expected a list of contexts in {file_path}, found {type(unique_contexts)}. Skipping." ;;
             ret false
         end)
        (fun e =>
           (if is_class "FileNotFoundError" e then
              log ERROR "Context file not found: {file_path}"
            else if is_class "JSONDecodeError" e then
              log ERROR "Error decoding JSON from {file_path}: {e}"
            else
              log ERROR "An unexpected error occurred while processing {file_path}: {e}") ;;
           ret false)
  end.

(** The [for file_path in context_files:] loop, left at the first failure. *)
Fixpoint insert_all (context_files : list string) : M Operator bool :=
  match context_files with
  | [] => ret true
  | file_path :: rest =>
      success <- _insert_contexts_from_file file_path ;;
      if negb success then
        log ERROR "Stopping indexing process due to failure in file: {os.path.basename(file_path)}" ;;
        ret false
      else insert_all rest
  end.

(** The coroutine [main_indexing_task] of [on_event]. *)
Definition main_indexing_task (input_data : pyval) : M Operator bool :=
  try_except
    (ready <- _initialize_rag_instance ;;
     if negb ready then ret false
     else
       let unique_contexts_dir := Envelope.load_node_result input_data in
       is_dir <- (if truthy unique_contexts_dir
                  then lift (os_path_isdir w unique_contexts_dir) else ret false) ;;
       if negb is_dir then
         log ERROR "Invalid input: Expected a valid directory path for 'unique_contexts_dir', got '{unique_contexts_dir}'. Stopping." ;;
         ret false
       else
         log INFO "Using unique contexts directory: {unique_contexts_dir}" ;;
         s <- get ;;
         file_pattern <- lift (py_getitem (config s) "INPUT_CONTEXTS_FILENAME_PATTERN") ;;
         context_files <- lift (glob w unique_contexts_dir file_pattern) ;;
         (match context_files with
          | [] => log WARNING "No context files found matching pattern '{file_pattern}' in {unique_contexts_dir}. Indexing will be empty."
          | _ => ret tt
          end) ;;
         all_insertions_successful <- insert_all context_files ;;
         if negb all_insertions_successful then ret false
         else
           log INFO "All context files processed successfully." ;;
           ret true)
    (fun e =>
       log ERROR "An unhandled error occurred during indexing task: {e}" ;;
       ret false).

(** [success = loop.run_until_complete(main_indexing_task())] inside
    [try: ... except RuntimeError].  [None] stands for the name [success]
    never having been assigned. *)
Definition run_until_complete (input_data : pyval) : M Operator (option bool) :=
  try_except
    (match loop_refuses w with
     | Some msg => throw (RuntimeError msg)
     | None => success <- main_indexing_task input_data ;; ret (Some success)
     end)
    (fun e =>
       if is_class "RuntimeError" e then
         log WARNING "Asyncio loop issue: {e}. Trying direct execution (might fail if not in async context)." ;;
         ret None
       else throw e).

Definition on_event (dora_event : event) : M Operator DoraStatus :=
  match dora_event with
  | INPUT event_id input_data metadata =>
      log DEBUG "Received input event on ID: {event_id}" ;;
      if String.eqb event_id "unique_contexts_dir" then
        s <- get ;;
        if processed s then
          log INFO "RAG indexing already processed. Ignoring further inputs." ;;
          ret CONTINUE
        else
          log INFO "Received unique contexts directory path. Starting RAG indexing..." ;;
          configured <- (if negb (truthy (config s)) then load_config else ret true) ;;
          if negb configured then
            log ERROR "Failed to load configuration. Stopping." ;;
            ret STOP
          else
            s <- get ;;
            set_up <- (if negb (llm_model_func s) || negb (embedding_func_wrapper s)
                       then _setup_async_funcs else ret true) ;;
            if negb set_up then
              log ERROR "Failed to setup async functions. Stopping." ;;
              ret STOP
            else
              success <- run_until_complete input_data ;;
              match success with
              | None =>
                  throw (UnboundLocalError
                           "cannot access local variable 'success' where it is not associated with a value")
              | Some true =>
                  log INFO "RAG indexing completed successfully." ;;
                  s <- get ;;
                  working_dir <- lift (py_getitem (config s) "WORKING_DIR") ;;
                  emit (SendOutput "rag_index_dir"
                          (Envelope.create_agent_output "rag_indexer" working_dir false)
                          metadata) ;;
                  log INFO "Sent RAG index directory path: {self.config['WORKING_DIR']}" ;;
                  set_processed true ;;
                  log INFO "RagIndexOperator processing finished." ;;
                  ret STOP
              | Some false =>
                  log ERROR "RAG indexing failed. No output sent." ;;
                  set_processed true ;;
                  ret STOP
              end
      else
        log DEBUG "Ignoring input from ID: {event_id}" ;;
        ret CONTINUE
  | STOP_EVENT =>
      log INFO "Received STOP event. Shutting down RagIndexOperator." ;;
      ret CONTINUE
  | ERROR_EVENT _ =>
      log ERROR "Received ERROR event: {dora_event['error']}" ;;
      ret CONTINUE
  | OTHER_EVENT _ =>
      log DEBUG "Received unknown event type: {dora_event['type']}" ;;
      ret CONTINUE
  end.

End Handlers.
End RagIndex.

(* ================================================================== *)
(** ** result_logger_operator.py: Operator *)
(* ================================================================== *)

Module ResultLogger.

Local Open Scope handler_scope.

Record Operator : Type := mkOperator {
  processed : bool
}.

(** [Operator.__init__]. *)
Definition init : Operator := {| processed := false |}.

Definition set_processed (v : bool) : M Operator unit :=
  fun _ => (Ret tt, mkOperator v, []).

Record world : Type := World {
  os_path_exists : pyval -> res bool
}.

Section Handlers.
Variable w : world.

(** The check of one of the two files named in the payload. *)
Definition check_file (file : pyval) (found missing absent : string) : M Operator unit :=
  if truthy file then
    there <- lift (os_path_exists w file) ;;
    if there : bool then log INFO found else log WARNING missing
  else log DEBUG absent.

Definition on_event (dora_event : event) : M Operator DoraStatus :=
  match dora_event with
  | INPUT event_id input_data metadata =>
      s <- get ;;
      if processed s then
        log INFO "Result already logged. Ignoring further inputs." ;;
        ret CONTINUE
      else
        log INFO "Received final pipeline output on input ID: {event_id}" ;;
        try_except
          (let final_payload := Envelope.load_node_result input_data in
           log INFO "---- Final Pipeline Payload Received ----" ;;
           log INFO "{json.dumps(final_payload, indent=2, ensure_ascii=False)}" ;;
           (match final_payload with
            | PDict items =>
                check_file (match dict_get "results_file" items with
                            | Some v => v | None => PNone end)
                  "  Results file exists: {results_file}"
                  "  Results file NOT FOUND: {results_file}"
                  "  No 'results_file' key found in payload." ;;
                check_file (match dict_get "errors_file" items with
                            | Some v => v | None => PNone end)
                  "  Errors file exists: {errors_file}"
                  "  Errors file NOT FOUND: {errors_file}"
                  "  No 'errors_file' key found in payload."
            | _ => ret tt
            end) ;;
           log INFO "---- End of LightRAG Pipeline Log ----" ;;
           set_processed true ;;
           log INFO "Result logger finished processing. Stopping node." ;;
           ret STOP)
          (fun e =>
             log ERROR "Error processing final output in logger node: {e}" ;;
             set_processed true ;;
             ret STOP)
  | STOP_EVENT =>
      log INFO "ResultLoggerOperator received STOP event." ;;
      ret CONTINUE
  | ERROR_EVENT _ | OTHER_EVENT _ =>
      log DEBUG "Ignoring event type: {dora_event['type']}" ;;
      ret CONTINUE
  end.

End Handlers.
End ResultLogger.

(** The join of the query stage, in the terms of its two inputs. *)
Module Barrier.

Definition questions_id : string := "generated_questions_file".
Definition index_id : string := "rag_index_dir".

(** An input event on an id outside the required set. *)
Definition foreign (ev : event) : bool :=
  match ev with
  | INPUT id _ _ => negb (String.eqb id questions_id) && negb (String.eqb id index_id)
  | _ => false
  end.

(** A delivery of the questions file whose payload passes the check of the
    stage and counts as present. *)
Definition valid_questions (w : RagQuery.world) (value : pyval) : Prop :=
  RagQuery.os_path_isfile w (Envelope.load_node_result value) = Ret true /\
  truthy (Envelope.load_node_result value) = true.

Definition valid_index (w : RagQuery.world) (value : pyval) : Prop :=
  RagQuery.os_path_isdir w (Envelope.load_node_result value) = Ret true /\
  truthy (Envelope.load_node_result value) = true.

(** Both inputs are recorded. *)
Definition complete (s : RagQuery.Operator) : bool :=
  truthy (RagQuery.questions_file_path s) && truthy (RagQuery.rag_index_dir s).

(** [self.questions_file_path = payload] and [self.rag_index_dir = payload]. *)
Definition with_questions (payload : pyval) (s : RagQuery.Operator) : RagQuery.Operator :=
  RagQuery.mkOperator (RagQuery.config s) (RagQuery.rag_instance s) (RagQuery.processed s)
    payload (RagQuery.rag_index_dir s) (RagQuery.llm_model_func s)
    (RagQuery.embedding_func_wrapper s).

Definition with_index (payload : pyval) (s : RagQuery.Operator) : RagQuery.Operator :=
  RagQuery.mkOperator (RagQuery.config s) (RagQuery.rag_instance s) (RagQuery.processed s)
    (RagQuery.questions_file_path s) payload (RagQuery.llm_model_func s)
    (RagQuery.embedding_func_wrapper s).

(** The fields once [on_event] has looked at the event [ev], at the point
    where it checks whether both inputs are there: an offer on one of the
    two ids is recorded when its payload passes the check and dropped when
    it does not; [None] when that point is not reached (an event of
    another kind or on another id, a check that raises). *)
Definition offered (w : RagQuery.world) (ev : event) (s : RagQuery.Operator)
  : option RagQuery.Operator :=
  match ev with
  | INPUT id value _ =>
      let payload := Envelope.load_node_result value in
      if String.eqb id questions_id then
        match RagQuery.os_path_isfile w payload with
        | Ret true => Some (with_questions payload s)
        | Ret false => Some s
        | Raise _ => None
        end
      else if String.eqb id index_id then
        match RagQuery.os_path_isdir w payload with
        | Ret true => Some (with_index payload s)
        | Ret false => Some s
        | Raise _ => None
        end
      else None
  | _ => None
  end.

(** An input event on the id [id]. *)
Definition offers (id : string) (ev : event) : bool :=
  match ev with
  | INPUT event_id _ _ => String.eqb event_id id
  | _ => false
  end.

(** The event releases the barrier: with it both inputs are recorded, and
    the processed flag is not set. *)
Definition releases (w : RagQuery.world) (ev : event) (s : RagQuery.Operator) : bool :=
  match offered w ev s with
  | Some s0 => complete s0 && negb (RagQuery.processed s0)
  | None => false
  end.

End Barrier.

(** The effects [t] put in front of those of an outcome. *)
Definition after {S A} (t : trace) (o : res A * S * trace) : res A * S * trace :=
  match o with (r, s, t') => (r, s, t ++ t') end.

(** [json.dump(data, f, ensure_ascii=False, ...)] on a file opened with
    [encoding="utf-8"]. *)
Module Json.



Fixpoint has_surrogate (s : string) : bool :=
  match s with
  | String a rest =>
      match rest with
      | String b _ =>
          (Nat.eqb (nat_of_ascii a) 237 && Nat.leb 160 (nat_of_ascii b)) || has_surrogate rest
      | EmptyString => false
      end
  | EmptyString => false
  end.

Definition unicode_encode_error : exn :=
  Exception "UnicodeEncodeError" "'utf-8' codec can't encode character: surrogates not allowed".

(** What stops the writing of [v], the values taken in the order in which
    they are written: an object when no [default] is given, a text that
    holds a lone surrogate. *)
Fixpoint first_problem (default_str : bool) (v : pyval) : option exn :=
  match v with
  | PObj cls =>
      if default_str then None
      else Some (TypeError (String.append "Object of type "
                              (String.append cls " is not JSON serializable")))
  | PStr text => if has_surrogate text then Some unicode_encode_error else None
  | PList items =>
      (fix go (l : list pyval) : option exn :=
         match l with
         | [] => None
         | x :: l' =>
             match first_problem default_str x with
             | Some e => Some e
             | None => go l'
             end
         end) items
  | PDict items =>
      (fix go (l : list (string * pyval)) : option exn :=
         match l with
         | [] => None
         | (key, x) :: l' =>
             if has_surrogate key then Some unicode_encode_error
             else match first_problem default_str x with
                  | Some e => Some e
                  | None => go l'
                  end
         end) items
  | _ => None
  end.

End Json.

(** A run of the query stage on two questions. *)
Module QuerySamples.

Definition yaml : pyval :=
  PDict [("RAG_QUERY",
          PDict [("QUERY_MODE", PStr "hybrid");
                 ("OUTPUT_RESULTS_FILE", PStr "out/results.json");
                 ("OUTPUT_ERRORS_FILE", PStr "out/errors.json");
                 ("LLM_API_KEY", PStr "k"); ("LLM_BASE_URL", PStr "u");
                 ("LLM_MODEL_NAME", PStr "m");
                 ("EMBEDDING_API_KEY", PStr "k"); ("EMBEDDING_BASE_URL", PStr "u");
                 ("EMBEDDING_MODEL_NAME", PStr "e");
                 ("EMBEDDING_DIM", PInt 1024);
                 ("EMBEDDING_MAX_TOKEN_SIZE", PInt 8192)])].

Definition questions : string :=
  Scenario.questions_text EmptyString EmptyString.

(** The file system holds the questions file and the index directory;
    [config_yaml] is the content of the configuration file, [answers] are
    those of the index to each query and attempt, [dumps] settles the
    writes. *)
Definition world_of (config_yaml : pyval) (answers : nat -> Z -> res pyval)
    (dumps : pyval -> pyval -> bool -> res unit) : RagQuery.world :=
  {| RagQuery.os_path_isfile := fun v => Ret (py_eq_str "/data/questions.txt" v);
     RagQuery.os_path_isdir := fun v => Ret (py_eq_str "/data/index" v);
     RagQuery.read_yaml := Ret config_yaml;
     RagQuery.join_script_dir_parent := fun rel => String.append "/app/" rel;
     RagQuery.path_parent := fun _ => PStr "/app/out";
     RagQuery.os_makedirs := fun _ => Ret tt;
     RagQuery.loop_refuses := None;
     RagQuery.lightrag_new := fun _ => Ret tt;
     RagQuery.initialize_storages := Ret tt;
     RagQuery.read_text := fun _ => Ret questions;
     RagQuery.aquery := answers;
     RagQuery.json_dump := dumps |}.

Definition world_with : (nat -> Z -> res pyval) -> (pyval -> pyval -> bool -> res unit)
                        -> RagQuery.world :=
  world_of yaml.

(** The first query is answered with a text, the second fails its only
    attempt. *)
Definition text_answers (i : nat) (r : Z) : res pyval :=
  match i with
  | O => Ret (PStr "X is a letter.")
  | _ => Raise (Exception "TimeoutError" "no answer")
  end.

(** Every write succeeds. *)
Definition world : RagQuery.world := world_with text_answers (fun _ _ _ => Ret tt).


(** [open(path, "w", encoding="utf-8")] with [json.dump] as the standard
    library has them, where the files [locked] cannot be opened for
    writing: the data is written unless it holds an object while no
    [default] is given, or a text that UTF-8 does not encode. *)
Definition json_dump (locked : pyval -> bool) (path data : pyval) (default_str : bool)
  : res unit :=
  if locked path then Raise (Exception "PermissionError" "[Errno 13] Permission denied")
  else match Json.first_problem default_str data with
       | Some e => Raise e
       | None => Ret tt
       end.








(** No configuration file. *)
Definition unconfigured : RagQuery.world :=
  {| RagQuery.os_path_isfile := fun v => Ret (py_eq_str "/data/questions.txt" v);
     RagQuery.os_path_isdir := fun v => Ret (py_eq_str "/data/index" v);
     RagQuery.read_yaml := Ret PNone;
     RagQuery.join_script_dir_parent := fun rel => rel;
     RagQuery.path_parent := fun _ => PNone;
     RagQuery.os_makedirs := fun _ => Ret tt;
     RagQuery.loop_refuses := None;
     RagQuery.lightrag_new := fun _ => Ret tt;
     RagQuery.initialize_storages := Ret tt;
     RagQuery.read_text := fun _ => Ret EmptyString;
     RagQuery.aquery := fun _ _ => Ret PNone;
     RagQuery.json_dump := fun _ _ _ => Ret tt |}.

Definition offer_questions : event :=
  INPUT "generated_questions_file"
    (Envelope.create_agent_output "question_generator" (PStr "/data/questions.txt") false)
    (PStr "meta").

Definition offer_index : event :=
  INPUT "rag_index_dir"
    (Envelope.create_agent_output "rag_indexer" (PStr "/data/index") false)
    (PStr "meta").

Definition offer_missing_questions : event :=
  INPUT "generated_questions_file"
    (Envelope.create_agent_output "question_generator" (PStr "/data/missing.txt") false)
    (PStr "meta").

Definition offer_other : event := INPUT "tick" PNone PNone.

End QuerySamples.

(** A configured data-preparation stage whose downloads all fail. *)
Module PrepSamples.

Definition section : pyval :=
  PDict [("DATASET_REPO_ID", PStr "org/set");
         ("DOWNLOAD_DIR", PStr "/app/data");
         ("OUTPUT_DIR", PStr "/app/contexts")].

Definition configured : DataPrep.Operator :=
  {| DataPrep.config := section; DataPrep.processed := false |}.

(** The downloads behave as [downloads]; the extraction succeeds. *)
Definition world_with (downloads : DataPrepDownload.world) (yaml : pyval) : DataPrep.world :=
  {| DataPrep.read_yaml := Ret yaml;
     DataPrep.join_script_dir := fun rel => String.append "/app/" rel;
     DataPrep.download := downloads;
     DataPrep.os_path_isdir := fun _ => Ret false;
     DataPrep.os_listdir := fun _ => Ret [];
     DataPrep.extract_unique_contexts := fun _ _ => Ret true |}.

Definition trigger : event := INPUT "tick" PNone (PStr "meta").

End PrepSamples.

(** An outcome of [on_event] that tells the host to stop, without an
    output, with the processed flag at [flag]. *)
Definition stops_without_output {S} (processed : S -> bool) (flag : bool)
    (o : res DoraStatus * S * trace) : Prop :=
  match o with
  | (r, s', t) => r = Ret STOP /\ processed s' = flag /\ outputs t = []
  end.

(** How the handling of an event by an operator whose flag was [False]
    can end: with [STOP] and the flag set; with [STOP], the flag as it was
    and no output; with an exception that leaves [on_event], the flag as
    it was and no output; with [CONTINUE], the flag as it was and no
    output.  An output goes with [STOP] and the flag set only. *)
Definition ending {S} (processed : S -> bool) (o : res DoraStatus * S * trace) : Prop :=
  match o with
  | (Ret STOP, s', t) => processed s' = true \/ outputs t = []
  | (Ret CONTINUE, s', t) => processed s' = false /\ outputs t = []
  | (Raise _, s', t) => processed s' = false /\ outputs t = []
  end.


Definition event_metadata (ev : event) : pyval :=
  match ev with INPUT _ _ metadata => metadata | _ => PNone end.

Definition event_value (ev : event) : pyval :=
  match ev with INPUT _ value _ => value | _ => PNone end.

Definition is_input (ev : event) : bool :=
  match ev with INPUT _ _ _ => true | _ => false end.


(** A question-generation stage whose tokenizer cannot be loaded. *)
Module GenSamples.

Definition yaml : pyval :=
  PDict [("QUESTION_GEN",
          PDict [("INPUT_CONTEXTS_FILENAME", PStr "mix_unique_contexts.json");
                 ("SUMMARY_TOTAL_TOKENS", PInt 2000);
                 ("OUTPUT_QUESTIONS_FILE", PStr "out/questions.txt");
                 ("LLM_API_KEY", PStr "k"); ("LLM_BASE_URL", PStr "u");
                 ("LLM_MODEL_NAME", PStr "m");
                 ("TOKENIZER_MODEL", PStr "gpt2")])].

Definition no_tokenizer : QuestionGen.world :=
  {| QuestionGen.read_yaml := Ret yaml;
     QuestionGen.join_script_dir_parent := fun rel => String.append "/app/" rel;
     QuestionGen.path_parent := fun _ => PStr "/app/out";
     QuestionGen.os_makedirs := fun _ => Ret tt;
     QuestionGen.tokenizer_from_pretrained :=
       fun _ => Raise (Exception "OSError" "gpt2 is not a local folder");
     QuestionGen.async_openai_new := Ret tt;
     QuestionGen.loop_refuses := None;
     QuestionGen.os_path_isdir := fun _ => Ret true;
     QuestionGen.os_path_join := fun d _ => Ret d;
     QuestionGen.os_path_exists := fun _ => Ret true;
     QuestionGen.json_load := fun _ => Ret (PList [PStr "a context"]);
     QuestionGen.build_prompt := fun _ _ => Ret "prompt";
     QuestionGen.chat_completion := fun _ => Raise Samples.offline;
     QuestionGen.write_text := fun _ _ => Ret tt |}.

(** The tokenizer loads, every completion request fails. *)
Definition no_llm : QuestionGen.world :=
  {| QuestionGen.read_yaml := Ret yaml;
     QuestionGen.join_script_dir_parent := fun rel => String.append "/app/" rel;
     QuestionGen.path_parent := fun _ => PStr "/app/out";
     QuestionGen.os_makedirs := fun _ => Ret tt;
     QuestionGen.tokenizer_from_pretrained := fun _ => Ret tt;
     QuestionGen.async_openai_new := Ret tt;
     QuestionGen.loop_refuses := None;
     QuestionGen.os_path_isdir := fun _ => Ret true;
     QuestionGen.os_path_join := fun d _ => Ret d;
     QuestionGen.os_path_exists := fun _ => Ret true;
     QuestionGen.json_load := fun _ => Ret (PList [PStr "a context"]);
     QuestionGen.build_prompt := fun _ _ => Ret "prompt";
     QuestionGen.chat_completion := fun _ => Raise Samples.offline;
     QuestionGen.write_text := fun _ _ => Ret tt |}.

Definition offer_contexts : event :=
  INPUT "unique_contexts_dir"
    (Envelope.create_agent_output "data_prep" (PStr "/app/contexts") false)
    (PStr "meta").




End GenSamples.

(** The query stage after a completed run, and a later delivery. *)
Module DoneSamples.

(** The operator after the index directory and the questions file have
    been delivered and the queries have run. *)
Definition done : RagQuery.Operator :=
  fst (deliver RagQuery.on_event
         [(QuerySamples.world, QuerySamples.offer_index);
          (QuerySamples.world, QuerySamples.offer_questions)]
         RagQuery.init).

(** A second questions file has appeared on disk. *)
Definition later : RagQuery.world :=
  {| RagQuery.os_path_isfile := fun v => Ret (py_eq_str "/data/questions_v2.txt" v);
     RagQuery.os_path_isdir := fun v => Ret (py_eq_str "/data/index" v);
     RagQuery.read_yaml := Ret QuerySamples.yaml;
     RagQuery.join_script_dir_parent := fun rel => String.append "/app/" rel;
     RagQuery.path_parent := fun _ => PStr "/app/out";
     RagQuery.os_makedirs := fun _ => Ret tt;
     RagQuery.loop_refuses := None;
     RagQuery.lightrag_new := fun _ => Ret tt;
     RagQuery.initialize_storages := Ret tt;
     RagQuery.read_text := fun _ => Ret QuerySamples.questions;
     RagQuery.aquery := fun _ _ => Ret (PStr "an answer");
     RagQuery.json_dump := fun _ _ _ => Ret tt |}.

Definition second_questions : event :=
  INPUT "generated_questions_file"
    (Envelope.create_agent_output "question_generator" (PStr "/data/questions_v2.txt") false)
    (PStr "meta").

End DoneSamples.

(** Environments for the properties beyond the claims. *)
Module Flaky.

(** An operation that fails twice and then answers. *)
Definition third_time {A} (a : A) (r : Z) : res A :=
  if (r <? 2)%Z then Raise Samples.offline else Ret a.

Definition download : DataPrepDownload.world :=
  {| DataPrepDownload.snapshot_download := third_time tt;
     DataPrepDownload.os_path_exists := Ret false;
     DataPrepDownload.os_listdir := Ret [] |}.

Definition retrying_config : pyval :=
  PDict [("QUERY_MAX_RETRIES", PInt 3); ("QUERY_RETRY_DELAY", PInt 0)].

End Flaky.

(** The single-shot contract of an operator, for one event: the processed
    flag is never cleared, and the event emits either nothing or exactly one
    envelope, on the output id [id], from the producer [name], with the
    is-final flag [flag] and the metadata of the event; in the latter case
    the operator had not processed before, has now, and tells the host to
    stop. *)
Definition single_shot {S} (processed : S -> bool) (id name : string) (flag : bool)
    (ev : event) (s : S) (o : res DoraStatus * S * trace) : Prop :=
  match o with
  | (r, s', t) =>
      (processed s = true -> processed s' = true) /\
      (outputs t = [] \/
       exists result,
         outputs t = [SendOutput id (Envelope.create_agent_output name result flag)
                        (event_metadata ev)] /\
         r = Ret STOP /\ processed s = false /\ processed s' = true)
  end.

(** Auxiliary views of the matcher, for the properties of [extract_queries]. *)
Module RegexFacts.

(** Every character of [s] satisfies [p]. *)
Fixpoint string_forall (p : ascii -> bool) (s : string) : bool :=
  match s with
  | String c s' => p c && string_forall p s'
  | EmptyString => true
  end.

(** The greedy repetition inside [Regex.match_here], with the rest of the
    pattern as a continuation [k]. *)
Definition greedy (a : Regex.atom) (k : string -> option (string * nat))
  : string -> option (string * nat) :=
  fix many (s : string) : option (string * nat) :=
    match s with
    | String c s' =>
        if Regex.cls a c then
          match Regex.keep a c (many s') with
          | Some m => Some m
          | None => k s
          end
        else k s
    | EmptyString => k s
    end.

(** [a] puts only characters that satisfy [p] into the group. *)
Definition group_in (p : ascii -> bool) (a : Regex.atom) : Prop :=
  Regex.grp a = true -> forall c, Regex.cls a c = true -> p c = true.

End RegexFacts.

(** An indexing stage with an instance and default retry settings. *)
Module IndexSamples.

Definition ready : RagIndex.Operator :=
  {| RagIndex.config := PDict [("WORKING_DIR", PStr "/app/index")];
     RagIndex.rag_instance := Some (PStr "/app/index");
     RagIndex.processed := false;
     RagIndex.llm_model_func := true;
     RagIndex.embedding_func_wrapper := true |}.

(** Every context file holds one context; insertions behave as [insert]. *)
Definition world_with (insert : string -> Z -> res unit) : RagIndex.world :=
  {| RagIndex.read_yaml := Ret PNone;
     RagIndex.join_script_dir_parent := fun rel => String.append "/app/" rel;
     RagIndex.os_makedirs := fun _ => Ret tt;
     RagIndex.loop_refuses := None;
     RagIndex.lightrag_new := fun _ => Ret tt;
     RagIndex.initialize_storages := Ret tt;
     RagIndex.os_path_isdir := fun _ => Ret true;
     RagIndex.glob := fun _ _ => Ret ["a.json"; "b.json"; "c.json"];
     RagIndex.json_load := fun _ => Ret (PList [PStr "a context"]);
     RagIndex.insert := insert |}.

(** Insertion works for every file but ["b.json"]. *)
Definition b_fails (file : string) (r : Z) : res unit :=
  if String.eqb file "b.json" then Raise Samples.offline else Ret tt.


Definition offer_contexts : event :=
  INPUT "unique_contexts_dir"
    (Envelope.create_agent_output "data_prep" (PStr "/app/contexts") false)
    (PStr "meta").

End IndexSamples.

(** What [_process_single_query] hands to the loop over the queries. *)
Module QueryFacts.

(** One of the two components is a record for [query_text], the other
    [None]. *)
Definition one_record (query_text : string) (r : res (pyval * pyval)) : Prop :=
  (exists v, r = Ret (RagQuerySingle.result_record query_text v, PNone)) \/
  (exists msg, r = Ret (PNone, RagQuerySingle.error_record query_text msg)).

(** A result record of one of [queries]. *)
Definition result_of (queries : list string) (v : pyval) : Prop :=
  exists q result, In q queries /\ v = RagQuerySingle.result_record q result.

(** An error record of one of [queries]. *)
Definition error_of (queries : list string) (v : pyval) : Prop :=
  exists q msg, In q queries /\ v = RagQuerySingle.error_record q msg.

End QueryFacts.

(** How the loop over the queries sorts the answers into its two lists. *)
Module Accounting.

(** What became of one query: an answer, or the text of its failure. *)
Inductive outcome : Type :=
| Answered (result : pyval)
| Failed (msg : string).

(** The pair [(result_data, error_data)] of a query with that outcome. *)
Definition record (query_text : string) (o : outcome) : pyval * pyval :=
  match o with
  | Answered result => (RagQuerySingle.result_record query_text result, PNone)
  | Failed msg => (PNone, RagQuerySingle.error_record query_text msg)
  end.

(** One outcome per query, in order: the records of the answered queries,
    in order, and the records of the failed ones, in order. *)
Fixpoint sort (queries : list string) (outcomes : list outcome)
  : list pyval * list pyval :=
  match queries, outcomes with
  | q :: queries', o :: outcomes' =>
      match sort queries' outcomes', o with
      | (results, errors), Answered result =>
          (RagQuerySingle.result_record q result :: results, errors)
      | (results, errors), Failed msg =>
          (results, RagQuerySingle.error_record q msg :: errors)
      end
  | _, _ => ([], [])
  end.

(** [outcomes] are the outcomes of the calls made for [queries], the
    first of which is the [i]-th query of the file: as many outcomes as
    queries, each the pair returned by [_process_single_query] for its
    query. *)
Fixpoint called (rag_instance : option pyval) (config : pyval)
    (aquery : nat -> Z -> res pyval) (i : nat)
    (queries : list string) (outcomes : list outcome) : Prop :=
  match queries, outcomes with
  | q :: queries', o :: outcomes' =>
      fst (RagQuerySingle._process_single_query rag_instance config (aquery i) q)
        = Ret (record q o) /\
      called rag_instance config aquery (S i) queries' outcomes'
  | [], [] => True
  | _, _ => False
  end.

End Accounting.

(* ================================================================== *)
(** ** question_gen_operator.py: get_summary *)
(* ================================================================== *)

Module Summary.

(** The index a slice bound stands for in a sequence of [len] items: a
    negative bound counts from the end, and bounds are clipped. *)
Definition clip (bound : Z) (len : nat) : nat :=
  if (bound <? 0)%Z then Z.to_nat (Z.max 0 (Z.of_nat len + bound))
  else Nat.min (Z.to_nat bound) len.

(** [l[:stop]] and [l[start:]] on a list. *)
Definition slice_to {A} (stop : Z) (l : list A) : list A :=
  firstn (clip stop (List.length l)) l.
Definition slice_from {A} (start : Z) (l : list A) : list A :=
  skipn (clip start (List.length l)) l.

(** [s[:stop]] on a string. *)
Definition str_slice_to (stop : Z) (s : string) : string :=
  String.substring 0 (clip stop (String.length s)) s.

(** The two methods of the tokenizer that [get_summary] calls. *)
Record tokenizer : Type := Tokenizer {
  tokenize : string -> res (list string);
  convert_tokens_to_string : list string -> res string
}.

(** The tokens kept for the summary, and the debug record of the
    overlapping case. *)
Definition summary_tokens (tokens : list string) (total_tokens : Z)
  : list string * trace :=
  let half_tokens := (total_tokens / 2)%Z in
  let len := Z.of_nat (List.length tokens) in
  let start_slice_end := Z.min half_tokens len in
  let end_slice_start := Z.max 0 (len - half_tokens) in
  let start_tokens := slice_to start_slice_end tokens in
  let end_tokens := slice_from end_slice_start tokens in
  if (end_slice_start <? start_slice_end)%Z then
    (slice_to (Z.min total_tokens len) tokens,
     [Log DEBUG "Token slices overlap, using combined slice."])
  else (start_tokens ++ end_tokens, []).

(** [get_summary(context, tokenizer, total_tokens, min_tokens_for_summary)]
    for a [str] context and [int] bounds: the summary and the log records. *)
Definition get_summary (tok : tokenizer) (context : string)
    (total_tokens min_tokens_for_summary : Z) : string * trace :=
  let fallback := str_slice_to (total_tokens * 5) context in
  let failed := Log ERROR "Error during tokenization/summary: {e}" in
  match tokenize tok context with
  | Raise _ => (fallback, [failed])
  | Ret tokens =>
      if (Z.of_nat (List.length tokens) <? min_tokens_for_summary)%Z then
        (fallback,
         [Log WARNING "Context too short ({len(tokens)} tokens) for meaningful summary. Returning original."])
      else
        match summary_tokens tokens total_tokens with
        | (kept, t) =>
            match convert_tokens_to_string tok kept with
            | Ret summary => (summary, t)
            | Raise _ => (fallback, t ++ [failed])
            end
        end
  end.

(** A tokenizer that splits at blanks and joins with blanks. *)
Fixpoint words (cur : string) (s : string) : list string :=
  match s with
  | EmptyString => match cur with EmptyString => [] | _ => [cur] end
  | String c s' =>
      if Ascii.eqb c " "%char then
        match cur with EmptyString => words EmptyString s' | _ => cur :: words EmptyString s' end
      else words (String.append cur (String c EmptyString)) s'
  end.

Definition blanks : tokenizer :=
  {| tokenize := fun s => Ret (words EmptyString s);
     convert_tokens_to_string := fun l => Ret (String.concat " " l) |}.

End Summary.

(** What a successful [load_config] leaves in [self.config]. *)
Module ConfigFacts.


End ConfigFacts.

(** A data preparation stage told to skip the download; the data is on
    disk and the extraction reports problems. *)
Module SkipSamples.

Definition on_disk : DataPrep.world :=
  {| DataPrep.read_yaml := Ret PNone;
     DataPrep.join_script_dir := fun rel => String.append "/app/" rel;
     DataPrep.download := Samples.no_copy;
     DataPrep.os_path_isdir := fun _ => Ret true;
     DataPrep.os_listdir := fun _ => Ret ["mix.jsonl"];
     DataPrep.extract_unique_contexts := fun _ _ => Ret false |}.

Definition skipping : DataPrep.Operator :=
  {| DataPrep.config :=
       PDict [("DATASET_REPO_ID", PStr "org/set");
              ("DOWNLOAD_DIR", PStr "/app/data");
              ("OUTPUT_DIR", PStr "/app/contexts");
              ("SKIP_DOWNLOAD", PBool true)];
     DataPrep.processed := false |}.

End SkipSamples.

(** What an output of the question generation stage stands for. *)
Module GenFacts.

(** The questions file [path], the one named by the configuration, was
    written, successfully, with the answer of the model: the non-empty
    content of the first completion request that succeeded, among the
    three attempts allowed, for the configured model and the prompt built
    from the contexts loaded from the configured file of the directory
    [unique_contexts_dir]. *)
Definition written (w : QuestionGen.world) (config unique_contexts_dir path : pyval)
    (t : trace) : Prop :=
  exists model prompt content attempt,
    py_getitem config "LLM_MODEL_NAME" = Ret model /\
    py_getitem config "OUTPUT_QUESTIONS_FILE" = Ret path /\
    (exists context_file_name context_file_path contexts summary_tokens,
       py_getitem config "INPUT_CONTEXTS_FILENAME" = Ret context_file_name /\
       QuestionGen.os_path_join w unique_contexts_dir context_file_name
         = Ret context_file_path /\
       QuestionGen.json_load w context_file_path = Ret contexts /\
       py_get config "SUMMARY_TOTAL_TOKENS" (PInt 2000) = Ret summary_tokens /\
       QuestionGen.build_prompt w contexts summary_tokens = Ret prompt) /\
    In (ChatCompletion model prompt) t /\
    (0 <= attempt < 3)%Z /\
    (forall r, (0 <= r < attempt)%Z -> exists e, QuestionGen.chat_completion w r = Raise e) /\
    QuestionGen.chat_completion w attempt = Ret content /\
    truthy content = true /\
    In (WriteText path content) t /\
    QuestionGen.write_text w path content = Ret tt.

End GenFacts.

(** What an output of the indexing stage stands for. *)
Module IndexFacts.

(** The payload names an existing directory, and each of its context files
    held a list that was empty or went into the index. *)
Definition indexed (w : RagIndex.world) (input_data : pyval) : Prop :=
  let unique_contexts_dir := Envelope.load_node_result input_data in
  truthy unique_contexts_dir = true /\
  RagIndex.os_path_isdir w unique_contexts_dir = Ret true /\
  exists file_pattern context_files,
    RagIndex.glob w unique_contexts_dir file_pattern = Ret context_files /\
    forall f, In f context_files ->
      exists l, RagIndex.json_load w f = Ret (PList l) /\
                (l = [] \/ exists r, RagIndex.insert w f r = Ret tt).

End IndexFacts.

(** What an output of the query stage stands for. *)
Module SavedFacts.

(** The two files named in [payload] were written, successfully, during
    [t].  At least one query was extracted from [questions_file]; every
    one of them was put to [_process_single_query] (with the instance and
    the configuration given) and has its one record, a result in the
    results file or an error in the errors file, in the order of the
    queries. *)
Definition saved (w : RagQuery.world) (rag_instance : option pyval) (config : pyval)
    (questions_file : pyval) (t : trace) (payload : pyval) : Prop :=
  exists results_path errors_path results errors,
    payload = PDict [("results_file", results_path); ("errors_file", errors_path)] /\
    (exists default_str,
       In (JsonDump results_path (PList results) default_str) t /\
       RagQuery.json_dump w results_path (PList results) default_str = Ret tt) /\
    In (JsonDump errors_path (PList errors) false) t /\
    RagQuery.json_dump w errors_path (PList errors) false = Ret tt /\
    let queries :=
      fst (RagQueryExtract.extract_queries (RagQuery.read_text w questions_file)) in
    queries <> [] /\
    exists outcomes,
      Accounting.called rag_instance config (RagQuery.aquery w) 0 queries outcomes /\
      (results, errors) = Accounting.sort queries outcomes.

End SavedFacts.

(** The outcome of a handler of the query stage either holds no output, or
    the one output that stands for saved answers. *)
Module QueryOutput.

Definition sound (w : RagQuery.world) (metadata : pyval)
    (o : res DoraStatus * RagQuery.Operator * trace) : Prop :=
  match o with
  | (_, s', t) =>
      outputs t = [] \/
      exists payload,
        outputs t = [SendOutput "query_results"
                       (Envelope.create_agent_output "rag_query_evaluator" payload true)
                       metadata] /\
        SavedFacts.saved w (RagQuery.rag_instance s') (RagQuery.config s')
          (RagQuery.questions_file_path s') t payload
  end.

End QueryOutput.

(** A handler that ends in one of these ways on every state whose flag is
    [False]. *)
Definition ends {S} (processed : S -> bool) (m : M S DoraStatus) : Prop :=
  forall s, processed s = false -> ending processed (m s).

(* ------------------------------------------------------------------ *)
(** * Properties *)
(* ------------------------------------------------------------------ *)

(** ** Retry loops *)

Lemma actions_app (t1 t2 : trace) : actions (t1 ++ t2) = actions t1 ++ actions t2.
Proof. unfold actions. apply filter_app. Qed.

Lemma retry_schedule_S (call : effect) (delay : Z) (n : nat) :
  retry_schedule call delay (S (S n)) =
  call :: Sleep delay :: retry_schedule call delay (S n).
Proof. reflexivity. Qed.

Lemma retry_schedule_invocations (call : effect) (delay : Z) (n : nat) :
  is_invocation call = true ->
  List.length (filter is_invocation (retry_schedule call delay n)) = n.
Proof.
  intros Hc. induction n as [|[|n] IH]; [reflexivity | cbn; now rewrite Hc |].
  rewrite retry_schedule_S. cbn [filter]. rewrite Hc. cbn [is_invocation List.length].
  now rewrite IH.
Qed.

Lemma retry_schedule_sleeps (call : effect) (delay : Z) (n : nat) :
  is_invocation call = true ->
  filter is_sleep (retry_schedule call delay n) = repeat (Sleep delay) (n - 1).
Proof.
  intros Hc.
  assert (Hs : is_sleep call = false) by (destruct call; easy).
  induction n as [|[|n] IH]; [reflexivity | cbn; now rewrite Hs |].
  rewrite retry_schedule_S. cbn [filter]. rewrite Hs. cbn [is_sleep].
  rewrite IH. cbn. now rewrite Nat.sub_0_r.
Qed.

Section DownloadFacts.
Import DataPrepDownload.
Variable w : world.
Variables (repo_id local_dir : pyval) (max_retries delay : Z).

Let loop := download_loop w repo_id local_dir max_retries delay.

(** The bound [S (Z.to_nat max_retries)] is enough: the loop answers. *)
Lemma download_loop_fuel (fuel : nat) (retries : Z) :
  (Z.to_nat (max_retries - retries) < fuel)%nat -> loop fuel retries <> None.
Proof.
  subst loop. revert retries.
  induction fuel as [|fuel IH]; intros retries Hf; [lia|].
  cbn [download_loop].
  destruct (retries <? max_retries)%Z eqn:Hlt; [|discriminate].
  destruct (snapshot_download w retries); [discriminate|].
  destruct (retries + 1 <? max_retries)%Z eqn:Hlt'.
  - destruct (time_sleep delay); [|discriminate].
    specialize (IH (retries + 1)%Z).
    destruct (download_loop w repo_id local_dir max_retries delay fuel (retries + 1)%Z)
      as [[r t]|]; [discriminate|].
    exfalso. apply IH; [|reflexivity].
    apply Z.ltb_lt in Hlt. lia.
  - destruct (os_path_exists w) as [[]|]; try discriminate.
    destruct (os_listdir w) as [[|]|]; discriminate.
Qed.

Hypothesis always_fails : forall r, exists e, snapshot_download w r = Raise e.
Hypothesis delay_nonneg : (0 <= delay)%Z.

Lemma download_loop_all_fail (k : nat) :
  forall (fuel : nat) (retries : Z),
    Z.to_nat (max_retries - retries) = S k ->
    (S k <= fuel)%nat ->
    exists t,
      loop fuel retries = Some (after_exhaustion w, t) /\
      actions t = retry_schedule (SnapshotDownload repo_id local_dir) delay (S k).
Proof.
  subst loop.
  induction k as [|k IH]; intros fuel retries Hk Hf;
    (destruct fuel as [|fuel]; [lia|]); cbn [download_loop];
    (assert (Hlt : (retries <? max_retries)%Z = true) by (apply Z.ltb_lt; lia));
    rewrite Hlt; destruct (always_fails retries) as [e ->].
  - assert (Hlt' : (retries + 1 <? max_retries)%Z = false) by (apply Z.ltb_ge; lia).
    rewrite Hlt'. unfold after_exhaustion.
    destruct (os_path_exists w) as [[]|]; try (eexists; split; reflexivity).
    destruct (os_listdir w) as [[|]|]; eexists; (split; [reflexivity|]);
      rewrite ?actions_app; reflexivity.
  - assert (Hlt' : (retries + 1 <? max_retries)%Z = true) by (apply Z.ltb_lt; lia).
    rewrite Hlt'. unfold time_sleep.
    assert (Hd : (delay <? 0)%Z = false) by (apply Z.ltb_ge; lia).
    rewrite Hd.
    destruct (IH fuel (retries + 1)%Z) as (t & -> & Ht); [lia | lia |].
    eexists; split; [reflexivity|].
    rewrite !actions_app, Ht. reflexivity.
Qed.

End DownloadFacts.

Section CallLLMFacts.
Import QuestionGenLLM.
Variable chat_completion : Z -> res pyval.
Variables (model : pyval) (prompt : string) (max_retries delay : Z).

Let loop := llm_loop chat_completion model prompt max_retries delay.

Lemma llm_loop_fuel (fuel : nat) (retries : Z) :
  (Z.to_nat (max_retries - retries) < fuel)%nat -> loop fuel retries <> None.
Proof.
  subst loop. revert retries.
  induction fuel as [|fuel IH]; intros retries Hf; [lia|].
  cbn [llm_loop].
  destruct (retries <? max_retries)%Z eqn:Hlt; [|discriminate].
  destruct (chat_completion retries); [discriminate|].
  destruct (retries + 1 <? max_retries)%Z eqn:Hlt'; [|discriminate].
  specialize (IH (retries + 1)%Z).
  destruct (llm_loop chat_completion model prompt max_retries delay fuel (retries + 1)%Z)
    as [[r t]|]; [discriminate|].
  exfalso. apply IH; [|reflexivity]. apply Z.ltb_lt in Hlt. lia.
Qed.

Hypothesis always_fails : forall r, exists e, chat_completion r = Raise e.

Lemma llm_loop_all_fail (k : nat) :
  forall (fuel : nat) (retries : Z),
    Z.to_nat (max_retries - retries) = S k ->
    (S k <= fuel)%nat ->
    exists t,
      loop fuel retries = Some (PNone, t) /\
      actions t = retry_schedule (ChatCompletion model prompt) delay (S k).
Proof.
  subst loop.
  induction k as [|k IH]; intros fuel retries Hk Hf;
    (destruct fuel as [|fuel]; [lia|]); cbn [llm_loop];
    (assert (Hlt : (retries <? max_retries)%Z = true) by (apply Z.ltb_lt; lia));
    rewrite Hlt; destruct (always_fails retries) as [e ->].
  - assert (Hlt' : (retries + 1 <? max_retries)%Z = false) by (apply Z.ltb_ge; lia).
    rewrite Hlt'. eexists; split; reflexivity.
  - assert (Hlt' : (retries + 1 <? max_retries)%Z = true) by (apply Z.ltb_lt; lia).
    rewrite Hlt'.
    destruct (IH fuel (retries + 1)%Z) as (t & -> & Ht); [lia | lia |].
    eexists; split; [reflexivity|].
    rewrite !actions_app, Ht. reflexivity.
Qed.

End CallLLMFacts.

Section SingleQueryFacts.
Import RagQuerySingle.
Variable aquery : Z -> res pyval.
Variable query_text : string.
Variables (max_retries retry_delay : Z).

Let loop := query_loop aquery query_text (PInt max_retries) (PInt retry_delay).

Lemma query_loop_fuel (fuel : nat) (retries : Z) :
  (Z.to_nat (max_retries - retries) < fuel)%nat -> loop fuel retries <> None.
Proof.
  subst loop. revert retries.
  induction fuel as [|fuel IH]; intros retries Hf; [lia|].
  cbn [query_loop py_int_lt py_as_int asyncio_sleep_py].
  destruct (retries <? max_retries)%Z eqn:Hlt; [|discriminate].
  destruct (aquery retries); [discriminate|].
  destruct (retries + 1 <? max_retries)%Z eqn:Hlt'; [|discriminate].
  specialize (IH (retries + 1)%Z).
  destruct (query_loop aquery query_text (PInt max_retries) (PInt retry_delay) fuel
              (retries + 1)%Z) as [[r t]|]; [discriminate|].
  exfalso. apply IH; [|reflexivity]. apply Z.ltb_lt in Hlt. lia.
Qed.

(** The exception each attempt raises. *)
Variable err : Z -> exn.
Hypothesis always_fails : forall r, aquery r = Raise (err r).

Lemma query_loop_all_fail (k : nat) :
  forall (fuel : nat) (retries : Z),
    Z.to_nat (max_retries - retries) = S k ->
    (S k <= fuel)%nat ->
    exists t,
      loop fuel retries =
        Some (Ret (PNone, error_record query_text (exn_str (err (max_retries - 1)))), t) /\
      actions t = retry_schedule (RagQuery query_text) retry_delay (S k).
Proof.
  subst loop.
  induction k as [|k IH]; intros fuel retries Hk Hf;
    (destruct fuel as [|fuel]; [lia|]);
    cbn [query_loop py_int_lt py_as_int asyncio_sleep_py];
    (assert (Hlt : (retries <? max_retries)%Z = true) by (apply Z.ltb_lt; lia));
    rewrite Hlt, always_fails.
  - assert (Hlt' : (retries + 1 <? max_retries)%Z = false) by (apply Z.ltb_ge; lia).
    rewrite Hlt'.
    replace (max_retries - 1)%Z with retries by lia.
    eexists; split; reflexivity.
  - assert (Hlt' : (retries + 1 <? max_retries)%Z = true) by (apply Z.ltb_lt; lia).
    rewrite Hlt'.
    destruct (IH fuel (retries + 1)%Z) as (t & -> & Ht); [lia | lia |].
    eexists; split; [reflexivity|].
    rewrite !actions_app, Ht. reflexivity.
Qed.

End SingleQueryFacts.

Lemma filter_actions (p : effect -> bool) (t : trace) :
  (forall e, p e = true -> is_log e = false) ->
  filter p (actions t) = filter p t.
Proof.
  intros Hp. unfold actions. induction t as [|e t IH]; [reflexivity|].
  cbn [filter]. destruct (is_log e) eqn:He; cbn [negb filter].
  - destruct (p e) eqn:Hpe; [|exact IH].
    apply Hp in Hpe. congruence.
  - now rewrite IH.
Qed.

Lemma retried_of_actions (call : effect) (delay : Z) (n : nat) (t : trace) :
  is_invocation call = true ->
  actions t = retry_schedule call delay n ->
  retried call delay n t.
Proof.
  intros Hc Ht. split; [exact Ht|]. split.
  - rewrite <- (filter_actions is_invocation) by (intros [] ?; easy).
    rewrite Ht. now apply retry_schedule_invocations.
  - rewrite <- (filter_actions is_sleep) by (intros [] ?; easy).
    rewrite Ht. now apply retry_schedule_sleeps.
Qed.

Lemma download_dataset_all_fail (w : DataPrepDownload.world) (repo_id : pyval)
    (local_dir : pyval) (max_retries delay : Z) :
  (1 <= max_retries)%Z -> (0 <= delay)%Z ->
  (forall r, exists e, DataPrepDownload.snapshot_download w r = Raise e) ->
  fst (DataPrepDownload.download_dataset w repo_id local_dir max_retries delay)
    = after_exhaustion w /\
  retried (SnapshotDownload repo_id local_dir) delay (Z.to_nat max_retries)
    (snd (DataPrepDownload.download_dataset w repo_id local_dir max_retries delay)).
Proof.
  intros HN Hd Hfail. unfold DataPrepDownload.download_dataset.
  destruct (download_loop_all_fail w repo_id local_dir max_retries delay Hfail Hd
              (Z.to_nat max_retries - 1) (S (Z.to_nat max_retries)) 0%Z)
    as (t & -> & Ht); [lia | lia |].
  cbn [fst snd]. split; [reflexivity|].
  apply retried_of_actions; [reflexivity|].
  change (actions (?x :: t)) with (actions t).
  rewrite Ht. f_equal. lia.
Qed.

Lemma call_llm_all_fail (chat_completion : Z -> res pyval) (model : pyval)
    (prompt : string) (max_retries delay : Z) :
  (1 <= max_retries)%Z ->
  (forall r, exists e, chat_completion r = Raise e) ->
  fst (QuestionGenLLM.call_llm_for_questions chat_completion model prompt max_retries delay)
    = PNone /\
  retried (ChatCompletion model prompt) delay (Z.to_nat max_retries)
    (snd (QuestionGenLLM.call_llm_for_questions chat_completion model prompt
            max_retries delay)).
Proof.
  intros HN Hfail. unfold QuestionGenLLM.call_llm_for_questions.
  destruct (llm_loop_all_fail chat_completion model prompt max_retries delay Hfail
              (Z.to_nat max_retries - 1) (S (Z.to_nat max_retries)) 0%Z)
    as (t & -> & Ht); [lia | lia |].
  cbn [fst snd]. split; [reflexivity|].
  apply retried_of_actions; [reflexivity|].
  rewrite Ht. f_equal. lia.
Qed.

Lemma process_single_query_all_fail (inst config : pyval) (aquery : Z -> res pyval)
    (err : Z -> exn) (query_text : string) (max_retries retry_delay : Z) :
  (1 <= max_retries)%Z ->
  py_get config "QUERY_MAX_RETRIES" (PInt 1) = Ret (PInt max_retries) ->
  py_get config "QUERY_RETRY_DELAY" (PInt 5) = Ret (PInt retry_delay) ->
  (forall r, aquery r = Raise (err r)) ->
  fst (RagQuerySingle._process_single_query (Some inst) config aquery query_text)
    = Ret (PNone,
           PDict [("query", PStr query_text);
                  ("error", PStr (exn_str (err (max_retries - 1)%Z)))]) /\
  retried (RagQuery query_text) retry_delay (Z.to_nat max_retries)
    (snd (RagQuerySingle._process_single_query (Some inst) config aquery query_text)).
Proof.
  intros HN Hm Hdl Hfail. unfold RagQuerySingle._process_single_query.
  rewrite Hm, Hdl. cbn [py_as_int].
  destruct (query_loop_all_fail aquery query_text max_retries retry_delay err Hfail
              (Z.to_nat max_retries - 1) (S (Z.to_nat max_retries)) 0%Z)
    as (t & -> & Ht); [lia | lia |].
  cbn [fst snd]. split; [reflexivity|].
  apply retried_of_actions; [reflexivity|].
  rewrite Ht. f_equal. lia.
Qed.

(** ** C2: the retry loops when every attempt fails *)

(** C2, as stated, fails for [download_dataset]: with one attempt allowed,
    every attempt failing and a non-empty target directory, the function
    answers [True], not a failure. *)
Lemma retry_exhausted_download_counterexample :
  (forall r, exists e,
     DataPrepDownload.snapshot_download Samples.stale_copy r = Raise e) /\
  fst (DataPrepDownload.download_dataset Samples.stale_copy (PStr "org/set") (PStr "data") 1 5)
    = Ret true /\
  List.length (filter is_invocation
     (snd (DataPrepDownload.download_dataset Samples.stale_copy (PStr "org/set") (PStr "data") 1 5)))
    = 1%nat.
Proof.
  split; [intros r; eexists; reflexivity|]. split; reflexivity.
Qed.

(** C2 (amended): for [max_attempts = N >= 1], a non-negative delay and an
    operation that raises on every attempt, each of the three loops invokes
    the operation exactly [N] times with one wait of [delay] between
    consecutive attempts ([N - 1] waits).  Then [download_dataset] answers
    by its directory check ([False] unless the target directory exists and
    is non-empty), [call_llm_for_questions] answers [None], and
    [_process_single_query], on an initialised instance, answers
    [(None, {query, error})] with the text of the last exception. *)
Theorem retry_exhausted
    (N delay : Z)
    (w : DataPrepDownload.world) (repo_id local_dir : pyval)
    (chat_completion : Z -> res pyval) (model : pyval) (prompt : string)
    (inst config : pyval) (aquery : Z -> res pyval) (err : Z -> exn)
    (query_text : string) :
  (1 <= N)%Z -> (0 <= delay)%Z ->
  (forall r, exists e, DataPrepDownload.snapshot_download w r = Raise e) ->
  (forall r, exists e, chat_completion r = Raise e) ->
  (forall r, aquery r = Raise (err r)) ->
  py_get config "QUERY_MAX_RETRIES" (PInt 1) = Ret (PInt N) ->
  py_get config "QUERY_RETRY_DELAY" (PInt 5) = Ret (PInt delay) ->
  let download := DataPrepDownload.download_dataset w repo_id local_dir N delay in
  let llm := QuestionGenLLM.call_llm_for_questions chat_completion model prompt N delay in
  let query := RagQuerySingle._process_single_query (Some inst) config aquery query_text in
  (fst download = after_exhaustion w /\
   retried (SnapshotDownload repo_id local_dir) delay (Z.to_nat N) (snd download)) /\
  (fst llm = PNone /\
   retried (ChatCompletion model prompt) delay (Z.to_nat N) (snd llm)) /\
  (fst query = Ret (PNone,
                    PDict [("query", PStr query_text);
                           ("error", PStr (exn_str (err (N - 1)%Z)))]) /\
   retried (RagQuery query_text) delay (Z.to_nat N) (snd query)).
Proof.
  intros HN Hd Hw Hc Hq Hm Hdl. cbv zeta. split; [|split].
  - now apply download_dataset_all_fail.
  - now apply call_llm_all_fail.
  - now apply process_single_query_all_fail.
Qed.

Lemma retry_exhausted_witness :
  let download := DataPrepDownload.download_dataset Samples.no_copy (PStr "org/set") (PStr "data") 2 1 in
  let llm := QuestionGenLLM.call_llm_for_questions
               (fun _ => Raise Samples.offline) (PStr "gpt") "prompt" 2 1 in
  let query := RagQuerySingle._process_single_query (Some (PStr "index"))
                 Samples.query_config (fun r => Raise (Samples.nth_failure r)) "What is X?" in
  (fst download = Ret false /\
   retried (SnapshotDownload (PStr "org/set") (PStr "data")) 1 2 (snd download)) /\
  (fst llm = PNone /\
   retried (ChatCompletion (PStr "gpt") "prompt") 1 2 (snd llm)) /\
  (fst query = Ret (PNone, PDict [("query", PStr "What is X?"); ("error", PStr "later")]) /\
   retried (RagQuery "What is X?") 1 2 (snd query)).
Proof.
  apply (retry_exhausted 2 1 Samples.no_copy (PStr "org/set") (PStr "data")
           (fun _ => Raise Samples.offline) (PStr "gpt") "prompt"
           (PStr "index") Samples.query_config
           (fun r => Raise (Samples.nth_failure r)) Samples.nth_failure "What is X?").
  - lia.
  - lia.
  - intros r; eexists; reflexivity.
  - intros r; eexists; reflexivity.
  - reflexivity.
  - reflexivity.
  - reflexivity.
Defined.

(** ** C4, C10: the output envelope *)

Lemma dict_get_smaller (key : string) (items : list (string * pyval)) (r : pyval) :
  dict_get key items = Some r -> (pysize r < pysize (PDict items))%nat.
Proof.
  cbn [pysize]. induction items as [|[k x] rest IH]; cbn [dict_get]; [discriminate|].
  cbn [fold_right snd]. destruct (String.eqb key k).
  - intros [= ->]. lia.
  - intros H. specialize (IH H). lia.
Qed.

Lemma load_node_result_no_key (v : pyval) :
  Envelope.has_agent_result v = false -> Envelope.load_node_result v = v.
Proof.
  destruct v as [| | | | |items|]; try reflexivity.
  cbn. unfold dict_has. now destruct (dict_get "agent_result" items).
Qed.

Lemma load_node_result_key (items : list (string * pyval)) (r : pyval) :
  dict_get "agent_result" items = Some r ->
  Envelope.load_node_result (PDict items) = r.
Proof. intros H. cbn. now rewrite H. Qed.

(** C4, as stated, fails on a dict that has a result field but neither a
    producer name nor an is-final flag: it is not an envelope, and it is
    not returned unchanged. *)
Lemma envelope_round_trip_counterexample :
  Envelope.envelope_shaped (PDict [("agent_result", PInt 1)]) = false /\
  Envelope.load_node_result (PDict [("agent_result", PInt 1)]) = PInt 1 /\
  Envelope.load_node_result (PDict [("agent_result", PInt 1)])
    <> PDict [("agent_result", PInt 1)].
Proof. repeat split. discriminate. Qed.

(** C4 (amended): unwrapping a wrapped result gives back the result,
    whatever its structure, producer name and flag; and a value that is not
    a dict with the key "agent_result" is returned unchanged. *)
Theorem envelope_round_trip (name : string) (r : pyval) (flag : bool) (v : pyval) :
  Envelope.has_agent_result v = false ->
  Envelope.load_node_result (Envelope.create_agent_output name r flag) = r /\
  Envelope.load_node_result v = v.
Proof.
  intros Hv. split; [reflexivity|]. now apply load_node_result_no_key.
Qed.

Lemma envelope_round_trip_witness :
  let nested := PDict [("results_file", PStr "out/results.json");
                       ("tags", PList [PInt 1; PDict [("agent_result", PNone)]])] in
  Envelope.has_agent_result (PList [PStr "agent_result"]) = false /\
  Envelope.load_node_result (Envelope.create_agent_output "stageX" nested false) = nested /\
  Envelope.load_node_result (PList [PStr "agent_result"]) = PList [PStr "agent_result"].
Proof.
  split; [reflexivity|].
  apply (envelope_round_trip "stageX"
           (PDict [("results_file", PStr "out/results.json");
                   ("tags", PList [PInt 1; PDict [("agent_result", PNone)]])])
           false (PList [PStr "agent_result"])).
  reflexivity.
Defined.

(** C10: [load_node_result] looks at nothing but the key "agent_result" of
    a dict.  A value is changed by it exactly when it is a dict with that
    key, and then the answer is the value stored under the key, also when
    the dict has no "agent_name" and no "dataflow_status". *)
Theorem unwrap_decides_by_key (v : pyval) :
  (Envelope.has_agent_result v = true <-> Envelope.load_node_result v <> v) /\
  (forall items r,
     v = PDict items -> dict_get "agent_result" items = Some r ->
     Envelope.load_node_result v = r /\ r <> v).
Proof.
  assert (Hkey : forall items r,
             v = PDict items -> dict_get "agent_result" items = Some r ->
             Envelope.load_node_result v = r /\ r <> v).
  { intros items r -> Hr. split; [now apply load_node_result_key|].
    intros ->. apply dict_get_smaller in Hr. lia. }
  split; [|exact Hkey]. split.
  - destruct v as [| | | | |items|]; try discriminate.
    cbn [Envelope.has_agent_result]. unfold dict_has.
    destruct (dict_get "agent_result" items) as [r|] eqn:Hr; [|discriminate].
    intros _. destruct (Hkey items r eq_refl Hr) as [-> Hne]. exact Hne.
  - intros Hne. destruct (Envelope.has_agent_result v) eqn:Hv; [reflexivity|].
    exfalso. apply Hne. now apply load_node_result_no_key.
Qed.

Lemma unwrap_decides_by_key_witness :
  let d := PDict [("note", PStr "not from wrap"); ("agent_result", PList [PInt 7])] in
  Envelope.envelope_shaped d = false /\
  Envelope.load_node_result d = PList [PInt 7] /\
  PList [PInt 7] <> d.
Proof.
  split; [reflexivity|].
  apply (proj2 (unwrap_decides_by_key
                  (PDict [("note", PStr "not from wrap"); ("agent_result", PList [PInt 7])]))
           [("note", PStr "not from wrap"); ("agent_result", PList [PInt 7])]
           (PList [PInt 7])); reflexivity.
Defined.

(** ** C7: question extraction *)

Section ExtractFacts.
Import Regex Scenario.

Lemma nocase_dash (c : ascii) : nocase "-"%char c = true -> c = "-"%char.
Proof.
  destruct c as [[] [] [] [] [] [] [] []]; vm_compute; congruence.
Qed.

Lemma match_here_one_fail (a : atom) (pat : list atom) (c : ascii) (s : string) :
  rep a = One -> cls a c = false -> match_here (a :: pat) (String c s) = None.
Proof. intros Hr Hc. cbn [match_here]. now rewrite Hr, Hc. Qed.

Lemma no_match_without_dash (c : ascii) (s : string) :
  Ascii.eqb c "-"%char = false -> match_here question_pattern (String c s) = None.
Proof.
  intros Hc. unfold question_pattern. cbn [app].
  apply match_here_one_fail; [reflexivity|].
  cbn [lit cls]. destruct (nocase "-"%char c) eqn:Hn; [|reflexivity].
  apply nocase_dash in Hn. subst c. discriminate.
Qed.

Lemma findall_skip_dashless (pre rest : string) :
  no_dash pre = true ->
  findall_from question_pattern 0 (String.append pre rest) =
  findall_from question_pattern 0 rest.
Proof.
  induction pre as [|c pre IH]; intros H; [reflexivity|].
  cbn [no_dash] in H. apply andb_prop in H as [Hc Hpre].
  apply negb_true_iff in Hc.
  cbn [String.append findall_from]. rewrite no_match_without_dash by exact Hc.
  now apply IH.
Qed.


Lemma findall_from_cons (pat : list atom) (c : ascii) (s : string) :
  findall_from pat 0 (String c s) =
  match match_here pat (String c s) with
  | Some (g, n) => g :: findall_from pat (n - 1) s
  | None => findall_from pat 0 s
  end.
Proof. reflexivity. Qed.

Lemma findall_from_skip (pat : list atom) (s1 s2 : string) :
  findall_from pat (String.length s1) (String.append s1 s2) = findall_from pat 0 s2.
Proof. induction s1 as [|c s1 IH]; [reflexivity|]. exact IH. Qed.


Lemma match_line1 (rest : string) :
  match_here question_pattern (String "-"%char (String.append tail1 (String "010"%char rest)))
  = Some ("What is X?", 24%nat).
Proof. vm_compute. reflexivity. Qed.

Lemma match_line2 (rest : string) :
  ends_line rest = true ->
  match_here question_pattern (String "-"%char (String.append tail2 rest))
  = Some ("How does Y work?", 30%nat).
Proof.
  destruct rest as [|c rest]; [intros _; vm_compute; reflexivity|].
  cbn [ends_line]. intros Hc. apply Ascii.eqb_eq in Hc. subst c.
  vm_compute. reflexivity.
Qed.

Lemma append_empty (s : string) : String.append s EmptyString = s.
Proof. induction s as [|c s IH]; [reflexivity|]. cbn [String.append]. now rewrite IH. Qed.

Lemma findall_empty : findall_from question_pattern 0 EmptyString = [].
Proof. vm_compute. reflexivity. Qed.

Lemma findall_dashless (s : string) :
  no_dash s = true -> findall_from question_pattern 0 s = [].
Proof.
  intros H. rewrite <- (append_empty s).
  rewrite (findall_skip_dashless s EmptyString H). exact findall_empty.
Qed.

Lemma findall_questions (before after : string) :
  no_dash before = true -> no_dash after = true -> ends_line after = true ->
  findall question_pattern (questions_text before after)
  = ["What is X?"; "How does Y work?"].
Proof.
  intros Hb Ha He. unfold findall, questions_text.
  rewrite findall_skip_dashless by exact Hb.
  change (String.append line1 ?z) with (String "-"%char (String.append tail1 z)).
  change (String.append newline ?z) with (String "010"%char z).
  rewrite findall_from_cons, match_line1.
  change (24 - 1)%nat with (String.length tail1).
  rewrite findall_from_skip.
  rewrite findall_from_cons, no_match_without_dash by reflexivity.
  change (String.append line2 after) with (String "-"%char (String.append tail2 after)).
  rewrite findall_from_cons, match_line2 by exact He.
  change (30 - 1)%nat with (String.length tail2).
  rewrite findall_from_skip, findall_dashless by exact Ha.
  reflexivity.
Qed.

Lemma remove_double_star_cons (c : ascii) (s : string) :
  remove_double_star (String c s) =
  match s with
  | String d s' =>
      if Ascii.eqb c "*"%char && Ascii.eqb d "*"%char then remove_double_star s'
      else String c (remove_double_star s)
  | EmptyString => String c EmptyString
  end.
Proof.
  destruct (Ascii.eqb_spec c "*"%char) as [->|Hc].
  - destruct s as [|d s']; [reflexivity|].
    destruct (Ascii.eqb_spec d "*"%char) as [->|Hd]; [reflexivity|].
    cbn [andb]. destruct d as [[] [] [] [] [] [] [] []]; try reflexivity. congruence.
  - cbn [andb]. destruct s as [|d s'];
      destruct c as [[] [] [] [] [] [] [] []]; try reflexivity; congruence.
Qed.

Lemma remove_double_star_other (c : ascii) (s : string) :
  Ascii.eqb c "*"%char = false ->
  remove_double_star (String c s) = String c (remove_double_star s).
Proof.
  intros Hc. rewrite remove_double_star_cons, Hc. now destruct s.
Qed.

Lemma remove_double_star_before (n : nat) :
  forall (before : string) (c : ascii) (s : string),
    (String.length before <= n)%nat ->
    Ascii.eqb c "*"%char = false ->
    remove_double_star (String.append before (String c s))
    = String.append (remove_double_star before) (remove_double_star (String c s)).
Proof.
  induction n as [|n IH]; intros before c s Hn Hc.
  - destruct before; [reflexivity | cbn in Hn; lia].
  - destruct before as [|a [|b r]]; [reflexivity | |].
    + cbn [String.append]. rewrite (remove_double_star_cons a (String c s)), Hc.
      rewrite (remove_double_star_cons a EmptyString).
      now rewrite andb_false_r.
    + cbn [String.append String.length] in *.
      rewrite (remove_double_star_cons a (String b (String.append r (String c s)))).
      rewrite (remove_double_star_cons a (String b r)).
      destruct (Ascii.eqb a "*"%char && Ascii.eqb b "*"%char).
      * apply IH; [lia | exact Hc].
      * cbn [String.append]. f_equal.
        apply (IH (String b r) c s); [cbn; lia | exact Hc].
Qed.

Lemma remove_double_star_no_dash (n : nat) :
  forall s, (String.length s <= n)%nat -> no_dash s = true ->
            no_dash (remove_double_star s) = true.
Proof.
  induction n as [|n IH]; intros s Hn Hs.
  - destruct s; [reflexivity | cbn in Hn; lia].
  - destruct s as [|a [|b r]];
      [reflexivity | now rewrite remove_double_star_cons |].
    rewrite remove_double_star_cons.
    cbn [no_dash String.length] in *.
    apply andb_prop in Hs as [Ha Hs].
    destruct (Ascii.eqb a "*"%char && Ascii.eqb b "*"%char).
    + apply IH; [lia|]. now apply andb_prop in Hs.
    + cbn [no_dash]. rewrite Ha. cbn [andb]. apply IH; [cbn; lia | exact Hs].
Qed.

Lemma remove_double_star_ends_line (s : string) :
  ends_line s = true -> ends_line (remove_double_star s) = true.
Proof.
  destruct s as [|c s]; [reflexivity|]. cbn [ends_line]. intros Hc.
  apply Ascii.eqb_eq in Hc. subst c.
  now rewrite remove_double_star_other.
Qed.

Lemma remove_double_star_questions (before after : string) :
  remove_double_star (questions_text before after)
  = questions_text (remove_double_star before) (remove_double_star after).
Proof.
  unfold questions_text.
  change (String.append line1 ?z) with (String "-"%char (String.append tail1 z)).
  rewrite (remove_double_star_before (String.length before)) by (auto; reflexivity).
  reflexivity.
Qed.

(** C7: on a text that holds the lines [- Question 1: What is X?] and
    [- Question 2: How does Y work?], one after the other, [extract_queries]
    answers exactly ["What is X?"; "How does Y work?"], in that order.  The
    text around the two lines may be anything without a hyphen (every match
    of the pattern starts at one); what follows them starts a new line. *)
Theorem extract_two_questions (before after : string) :
  no_dash before = true -> no_dash after = true -> ends_line after = true ->
  fst (RagQueryExtract.extract_queries (Ret (questions_text before after)))
  = ["What is X?"; "How does Y work?"].
Proof.
  intros Hb Ha He. unfold RagQueryExtract.extract_queries. cbn [fst].
  rewrite remove_double_star_questions.
  rewrite findall_questions.
  - reflexivity.
  - now apply (remove_double_star_no_dash (String.length before)).
  - now apply (remove_double_star_no_dash (String.length after)).
  - now apply remove_double_star_ends_line.
Qed.

Lemma extract_two_questions_witness :
  no_dash (String.append "Generated questions:" newline) = true /\
  no_dash EmptyString = true /\ ends_line EmptyString = true /\
  fst (RagQueryExtract.extract_queries
         (Ret (questions_text (String.append "Generated questions:" newline) EmptyString)))
  = ["What is X?"; "How does Y work?"].
Proof.
  split; [reflexivity|]. split; [reflexivity|]. split; [reflexivity|].
  apply (extract_two_questions (String.append "Generated questions:" newline) EmptyString);
    reflexivity.
Defined.

End ExtractFacts.

(** ** Effects a handler never performs *)

Section Avoids.
Context {S : Type}.
Variable p : effect -> bool.

Lemma avoids_ret {A} (a : A) : avoids p (@ret S A a).
Proof. intros s. reflexivity. Qed.

Lemma avoids_lift {A} (r : res A) : avoids p (@lift S A r).
Proof. intros s. reflexivity. Qed.

Lemma avoids_throw {A} (e : exn) : avoids p (@throw S A e).
Proof. intros s. reflexivity. Qed.

Lemma avoids_get : avoids p (@get S).
Proof. intros s. reflexivity. Qed.

Lemma avoids_put (s' : S) : avoids p (put s').
Proof. intros s. reflexivity. Qed.

Lemma avoids_emit (e : effect) : p e = false -> avoids p (@emit S e).
Proof. intros He s. cbn. now rewrite He. Qed.

Lemma avoids_emits (t : trace) : filter p t = [] -> avoids p (@emits S t).
Proof. intros Ht s. exact Ht. Qed.

Lemma avoids_bind {A B} (m : M S A) (k : A -> M S B) :
  avoids p m -> (forall a, avoids p (k a)) -> avoids p (bind m k).
Proof.
  intros Hm Hk s. unfold bind. specialize (Hm s).
  destruct (m s) as [[[a|e] s'] t]; cbn [snd] in *; [|exact Hm].
  specialize (Hk a s'). destruct (k a s') as [[r s''] t']. cbn [snd] in *.
  now rewrite filter_app, Hm, Hk.
Qed.

Lemma avoids_try {A} (m : M S A) (h : exn -> M S A) :
  avoids p m -> (forall e, avoids p (h e)) -> avoids p (try_except m h).
Proof.
  intros Hm Hh s. unfold try_except. specialize (Hm s).
  destruct (m s) as [[[a|e] s'] t]; cbn [snd] in *; [exact Hm|].
  specialize (Hh e s'). destruct (h e s') as [[r s''] t']. cbn [snd] in *.
  now rewrite filter_app, Hm, Hh.
Qed.

End Avoids.

Ltac avoid_step :=
  lazymatch goal with
  | |- avoids _ (bind _ _) => apply avoids_bind; [| intros ?]
  | |- avoids _ (try_except _ _) => apply avoids_try; [| intros ?]
  | |- avoids _ (ret _) => apply avoids_ret
  | |- avoids _ (lift _) => apply avoids_lift
  | |- avoids _ (throw _) => apply avoids_throw
  | |- avoids _ get => apply avoids_get
  | |- avoids _ (log _ _) =>
      apply avoids_emit;
      first [ reflexivity | match goal with H : _ |- _ => apply H; discriminate end ]
  | |- avoids _ (emit _) =>
      apply avoids_emit;
      first [ reflexivity | match goal with H : _ |- _ => apply H; reflexivity end ]
  | |- avoids _ (if ?b then _ else _) => destruct b
  | |- avoids _ (match ?x with _ => _ end) => destruct x
  | |- avoids _ _ => first [ assumption | solve [ intros ?; reflexivity ] | solve [ auto with avoids ] ]
  end.

Create HintDb avoids.

Lemma is_start_silent : silent is_start.
Proof.
  split.
  - intros l m H. destruct l; try reflexivity. cbn. now apply String.eqb_neq.
  - intros e. destruct e; easy.
Qed.

Lemma is_output_silent : silent is_output.
Proof. split; [reflexivity | auto]. Qed.

#[export] Hint Resolve is_start_silent is_output_silent : avoids.

Section QueryLoopAvoids.
Variable p : effect -> bool.
Hypothesis p_silent : silent p.

Let p_log : forall l m, m <> start_template -> p (Log l m) = false := proj1 p_silent.
Let p_quiet : forall e, is_log e = false -> is_output e = false -> p e = false :=
  proj2 p_silent.

Lemma filter_none_app (t1 t2 : trace) :
  filter p t1 = [] -> filter p t2 = [] -> filter p (t1 ++ t2) = [].
Proof. intros H1 H2. now rewrite filter_app, H1, H2. Qed.

Lemma query_loop_avoids (aquery : Z -> res pyval) (q : string) (mr rd : pyval) :
  forall fuel retries r t,
    RagQuerySingle.query_loop aquery q mr rd fuel retries = Some (r, t) ->
    filter p t = [].
Proof.
  assert (Hq : forall x, p (RagQuery x) = false) by (intros; now apply p_quiet).
  assert (Hs : forall d, p (Sleep d) = false) by (intros; now apply p_quiet).
  induction fuel as [|fuel IH]; intros retries r t H; cbn [RagQuerySingle.query_loop] in H;
    [discriminate|].
  unfold asyncio_sleep_py, asyncio_sleep in H. destruct (py_as_int rd).
  all: repeat match type of H with
         | context [match ?x with _ => _ end] => destruct x eqn:?
         end;
    try discriminate; injection H as <- <-;
    repeat rewrite filter_app; cbn [filter app];
    rewrite ?Hq, ?Hs; repeat (rewrite p_log by discriminate);
    try reflexivity.
  eapply IH. eassumption.
Qed.

Lemma process_single_query_avoids (inst : option pyval) (cfg : pyval)
    (aquery : Z -> res pyval) (q : string) :
  filter p (snd (RagQuerySingle._process_single_query inst cfg aquery q)) = [].
Proof.
  unfold RagQuerySingle._process_single_query.
  destruct inst; [|reflexivity].
  destruct (py_get cfg "QUERY_MAX_RETRIES" (PInt 1)) as [mr|]; [|reflexivity].
  destruct (py_get cfg "QUERY_RETRY_DELAY" (PInt 5)) as [rd|]; [|reflexivity].
  match goal with |- context [RagQuerySingle.query_loop ?a ?q ?m ?d ?f ?r] =>
    destruct (RagQuerySingle.query_loop a q m d f r) as [[r' t']|] eqn:Hl end;
    [|reflexivity].
  cbn [snd]. eapply query_loop_avoids. exact Hl.
Qed.

Lemma extract_queries_avoids (rd : res string) :
  filter p (snd (RagQueryExtract.extract_queries rd)) = [].
Proof.
  unfold RagQueryExtract.extract_queries. destruct rd as [data|e]; cbn [snd].
  - match goal with |- context [match ?l with [] => _ | _ => _ end] => destruct l end;
      cbn; rewrite !p_log by discriminate; reflexivity.
  - destruct (is_class "FileNotFoundError" e); cbn; rewrite !p_log by discriminate;
      reflexivity.
Qed.

Section WithWorld.
Import RagQuery.
Variable w : world.

Lemma load_config_avoids : avoids p (load_config w).
Proof. unfold load_config, resolve_path, make_parent_dir. repeat avoid_step. Qed.

Lemma setup_async_funcs_avoids : avoids p _setup_async_funcs.
Proof. unfold _setup_async_funcs. repeat avoid_step. Qed.

Lemma initialize_rag_instance_avoids (d : pyval) : avoids p (_initialize_rag_instance w d).
Proof. unfold _initialize_rag_instance. repeat avoid_step. Qed.

Lemma process_single_query_m_avoids (i : nat) (q : string) :
  avoids p (_process_single_query w i q).
Proof.
  intros s. unfold _process_single_query.
  pose proof (process_single_query_avoids (rag_instance s) (config s) (aquery w i) q) as H.
  destruct (RagQuerySingle._process_single_query (rag_instance s) (config s) (aquery w i) q).
  exact H.
Qed.

Lemma run_queries_avoids (queries : list string) :
  forall i results errors, avoids p (run_queries w i queries results errors).
Proof.
  induction queries as [|q rest IH]; intros i results errors; cbn [run_queries].
  - apply avoids_ret.
  - pose proof (process_single_query_m_avoids i q). repeat avoid_step.
Qed.

Lemma save_results_avoids (path : pyval) (l : list pyval) : avoids p (save_results w path l).
Proof. unfold save_results, dump. repeat avoid_step. Qed.

Lemma save_errors_avoids (path : pyval) (l : list pyval) : avoids p (save_errors w path l).
Proof. unfold save_errors, dump. repeat avoid_step. Qed.

Lemma run_queries_and_save_task_avoids (qf rd : pyval) :
  avoids p (_run_queries_and_save_task w qf rd).
Proof.
  unfold _run_queries_and_save_task.
  pose proof (initialize_rag_instance_avoids rd).
  pose proof (extract_queries_avoids (read_text w qf)).
  pose proof run_queries_avoids. pose proof save_results_avoids.
  pose proof save_errors_avoids.
  repeat avoid_step; try (apply avoids_emits; assumption); auto.
Qed.

Lemma run_main_query_task_avoids : avoids p (run_main_query_task w).
Proof.
  unfold run_main_query_task. pose proof run_queries_and_save_task_avoids.
  repeat avoid_step; auto.
Qed.

End WithWorld.
End QueryLoopAvoids.

#[export] Hint Resolve load_config_avoids setup_async_funcs_avoids
  initialize_rag_instance_avoids run_queries_avoids save_results_avoids
  save_errors_avoids run_queries_and_save_task_avoids run_main_query_task_avoids
  : avoids.

(** ** Fields a handler leaves alone *)

Section Keeps.
Context {S B : Type}.
Variable f : S -> B.

Lemma keeps_bind {A C} (m : M S A) (k : A -> M S C) :
  keeps f m -> (forall a, keeps f (k a)) -> keeps f (bind m k).
Proof.
  intros Hm Hk s. unfold bind. specialize (Hm s).
  destruct (m s) as [[[a|e] s'] t]; cbn [fst snd] in *; [|exact Hm].
  specialize (Hk a s'). destruct (k a s') as [[r s''] t']. cbn [fst snd] in *.
  congruence.
Qed.

Lemma keeps_try {A} (m : M S A) (h : exn -> M S A) :
  keeps f m -> (forall e, keeps f (h e)) -> keeps f (try_except m h).
Proof.
  intros Hm Hh s. unfold try_except. specialize (Hm s).
  destruct (m s) as [[[a|e] s'] t]; cbn [fst snd] in *; [exact Hm|].
  specialize (Hh e s'). destruct (h e s') as [[r s''] t']. cbn [fst snd] in *.
  congruence.
Qed.

End Keeps.

Ltac keep_step :=
  lazymatch goal with
  | |- keeps _ (bind _ _) => apply keeps_bind; [| intros ?]
  | |- keeps _ (try_except _ _) => apply keeps_try; [| intros ?]
  | |- keeps _ (if ?b then _ else _) => destruct b
  | |- keeps _ (match ?x with _ => _ end) => destruct x
  | |- keeps _ _ => first [ assumption | solve [ intros ?; reflexivity ] ]
  end.

Section RagQueryKeeps.
Import RagQuery.
Variable w : world.



End RagQueryKeeps.

(** ** Running a handler step by step *)

Section Run.
Context {S : Type}.

Lemma after_nil {A} (o : res A * S * trace) : after [] o = o.
Proof. now destruct o as [[r s] t]. Qed.

Lemma after_after {A} (t1 t2 : trace) (o : res A * S * trace) :
  after t1 (after t2 o) = after (t1 ++ t2) o.
Proof. destruct o as [[r s] t]. cbn. now rewrite app_assoc. Qed.

Lemma run_bind {A B} (m : M S A) (k : A -> M S B) (s s' : S) (a : A) (t : trace) :
  m s = (Ret a, s', t) -> bind m k s = after t (k a s').
Proof. intros H. unfold bind. rewrite H. reflexivity. Qed.

Lemma run_bind_raise {A B} (m : M S A) (k : A -> M S B) (s s' : S) (e : exn) (t : trace) :
  m s = (Raise e, s', t) -> bind m k s = (Raise e, s', t).
Proof. intros H. unfold bind. now rewrite H. Qed.

Lemma run_log {B} (l : level) (msg : string) (k : unit -> M S B) (s : S) :
  bind (log l msg) k s = after [Log l msg] (k tt s).
Proof. reflexivity. Qed.

Lemma run_emit {B} (e : effect) (k : unit -> M S B) (s : S) :
  bind (emit e) k s = after [e] (k tt s).
Proof. reflexivity. Qed.

Lemma run_ret {A B} (a : A) (k : A -> M S B) (s : S) : bind (ret a) k s = k a s.
Proof. unfold bind, ret. now destruct (k a s) as [[r s'] t]. Qed.

Lemma run_get {B} (k : S -> M S B) (s : S) : bind get k s = k s s.
Proof. unfold bind, get. now destruct (k s s) as [[r s'] t]. Qed.

Lemma run_lift {A B} (a : A) (k : A -> M S B) (s : S) : bind (lift (Ret a)) k s = k a s.
Proof. unfold bind, lift. now destruct (k a s) as [[r s'] t]. Qed.

Lemma run_lift_raise {A B} (e : exn) (k : A -> M S B) (s : S) :
  bind (lift (Raise e)) k s = (Raise e, s, []).
Proof. reflexivity. Qed.

Lemma run_assoc {A B C} (m : M S A) (f : A -> M S B) (g : B -> M S C) (s : S) :
  bind (bind m f) g s = bind m (fun a => bind (f a) g) s.
Proof.
  unfold bind. destruct (m s) as [[[a|e] s1] t1]; [|reflexivity].
  destruct (f a s1) as [[[b|e] s2] t2]; [|reflexivity].
  destruct (g b s2) as [[r s3] t3]. now rewrite app_assoc.
Qed.

End Run.

Section RagQueryEvents.
Import RagQuery Barrier.
Variable w : world.

Lemma on_event_foreign (ev : event) (s : Operator) :
  foreign ev = true ->
  on_event w ev s =
    (Ret CONTINUE, s,
     [Log DEBUG "Received input event on ID: {event_id}";
      Log DEBUG "Ignoring input from unexpected ID: {event_id}"]).
Proof.
  destruct ev as [id v md| | |]; try discriminate. cbn [foreign].
  unfold questions_id, index_id. intros H. apply andb_prop in H as [H1 H2].
  apply negb_true_iff in H1, H2. unfold on_event. rewrite H1, H2. reflexivity.
Qed.

Lemma on_event_questions (v md : pyval) (s : Operator) (b : bool) :
  os_path_isfile w (Envelope.load_node_result v) = Ret b ->
  on_event w (INPUT questions_id v md) s =
    after [Log DEBUG "Received input event on ID: {event_id}";
           if b then Log INFO "Received questions file path: {self.questions_file_path}"
           else Log ERROR "Received invalid path for questions file: {payload}"]
      (check_inputs w md
         (if b then with_questions (Envelope.load_node_result v) s else s)).
Proof.
  intros H. unfold on_event. cbn [questions_id String.eqb Ascii.eqb Bool.eqb].
  rewrite run_log, H, run_lift. destruct b.
  - rewrite run_assoc.
    rewrite (run_bind _ _ s (with_questions (Envelope.load_node_result v) s) tt [] eq_refl).
    rewrite run_log, !after_after. reflexivity.
  - rewrite run_log, after_after. reflexivity.
Qed.

Lemma on_event_index (v md : pyval) (s : Operator) (b : bool) :
  os_path_isdir w (Envelope.load_node_result v) = Ret b ->
  on_event w (INPUT index_id v md) s =
    after [Log DEBUG "Received input event on ID: {event_id}";
           if b then Log INFO "Received RAG index directory path: {self.rag_index_dir}"
           else Log ERROR "Received invalid path for RAG index directory: {payload}"]
      (check_inputs w md
         (if b then with_index (Envelope.load_node_result v) s else s)).
Proof.
  intros H. unfold on_event. cbn [index_id String.eqb Ascii.eqb Bool.eqb].
  rewrite run_log, H, run_lift. destruct b.
  - rewrite run_assoc.
    rewrite (run_bind _ _ s (with_index (Envelope.load_node_result v) s) tt [] eq_refl).
    rewrite run_log, !after_after. reflexivity.
  - rewrite run_log, after_after. reflexivity.
Qed.

(** [check_inputs] in its three cases. *)
Lemma check_inputs_start (md : pyval) (s : Operator) :
  complete s = true -> processed s = false ->
  check_inputs w md s = start_processing w md s.
Proof.
  unfold complete, check_inputs. intros Hc Hp. rewrite run_get, Hc, Hp. reflexivity.
Qed.

Lemma check_inputs_done (md : pyval) (s : Operator) :
  processed s = true ->
  check_inputs w md s =
    (Ret CONTINUE, s, [Log INFO "RAG querying already processed. Ignoring further inputs."]).
Proof.
  unfold check_inputs. intros Hp. rewrite run_get, Hp, andb_false_r. reflexivity.
Qed.

Lemma check_inputs_waiting (md : pyval) (s : Operator) :
  complete s = false -> processed s = false ->
  check_inputs w md s =
    (Ret CONTINUE, s,
     [Log INFO "Waiting for all required inputs (questions file path and RAG index dir)..."]).
Proof.
  unfold complete, check_inputs. intros Hc Hp. rewrite run_get, Hc, Hp. reflexivity.
Qed.

End RagQueryEvents.

(** ** The query stage: start of processing *)

Lemma snd_bind_log {S A} (l : level) (msg : string) (k : unit -> M S A) (s : S) :
  snd (bind (log l msg) k s) = Log l msg :: snd (k tt s).
Proof. unfold bind, log, emit. now destruct (k tt s) as [[? ?] ?]. Qed.

Section RagQueryStart.
Import RagQuery.
Variable w : world.

Lemma start_processing_started (metadata : pyval) (s : Operator) :
  started (snd (start_processing w metadata s)) = 1%nat.
Proof.
  unfold start_processing. rewrite snd_bind_log.
  match goal with |- context [snd (?k s)] => assert (Hk : avoids is_start k) end.
  { repeat avoid_step. }
  unfold started. cbn [filter].
  change (Log INFO "Both inputs received. Starting RAG query process...")
    with (Log INFO start_template).
  replace (is_start (Log INFO start_template)) with true by reflexivity.
  cbn [List.length]. now rewrite Hk.
Qed.

End RagQueryStart.

(** ** C6: an offer that fails its validity check *)

Section InvalidOffer.
Import RagQuery Barrier.

Lemma check_inputs_not_start (w : world) (md : pyval) (s : Operator) :
  complete s = false ->
  exists msg,
    check_inputs w md s = (Ret CONTINUE, s, [Log INFO msg]).
Proof.
  intros Hc. destruct (processed s) eqn:Hp.
  - eexists. now apply check_inputs_done.
  - eexists. now apply check_inputs_waiting.
Qed.

Lemma complete_with_questions (payload : pyval) (s : Operator) :
  complete (with_questions payload s) = truthy payload && truthy (rag_index_dir s).
Proof. reflexivity. Qed.

Lemma complete_with_index (payload : pyval) (s : Operator) :
  complete (with_index payload s) = truthy (questions_file_path s) && truthy payload.
Proof. reflexivity. Qed.

(** C6: while the barrier of the query stage has not released, an offer
    whose payload is not an existing file (questions) or directory (index)
    is logged as an error and not recorded: the fields of the operator are
    unchanged, nothing but log records is produced and the status is
    [CONTINUE].  A later valid delivery on the same id is recorded as if
    the rejected one had never come, and releases the barrier when the
    other input is there. *)
Theorem invalid_offer_keeps_waiting
    (w w' : world) (s : Operator) (bad_file good_file bad_dir good_dir md md' : pyval) :
  complete s = false ->
  os_path_isfile w (Envelope.load_node_result bad_file) = Ret false ->
  os_path_isdir w (Envelope.load_node_result bad_dir) = Ret false ->
  os_path_isfile w' (Envelope.load_node_result good_file) = Ret true ->
  os_path_isdir w' (Envelope.load_node_result good_dir) = Ret true ->
  (* the questions file *)
  (let '(r, s1, t) := on_event w (INPUT questions_id bad_file md) s in
   r = Ret CONTINUE /\ s1 = s /\ actions t = [] /\
   In (Log ERROR "Received invalid path for questions file: {payload}") t /\
   let '(r', s2, t') := on_event w' (INPUT questions_id good_file md') s1 in
   if complete (with_questions (Envelope.load_node_result good_file) s)
      && negb (processed s)
   then started t' = 1%nat
   else r' = Ret CONTINUE /\
        s2 = with_questions (Envelope.load_node_result good_file) s) /\
  (* the index directory *)
  (let '(r, s1, t) := on_event w (INPUT index_id bad_dir md) s in
   r = Ret CONTINUE /\ s1 = s /\ actions t = [] /\
   In (Log ERROR "Received invalid path for RAG index directory: {payload}") t /\
   let '(r', s2, t') := on_event w' (INPUT index_id good_dir md') s1 in
   if complete (with_index (Envelope.load_node_result good_dir) s)
      && negb (processed s)
   then started t' = 1%nat
   else r' = Ret CONTINUE /\
        s2 = with_index (Envelope.load_node_result good_dir) s).
Proof.
  intros Hc Hf Hd Hf' Hd'. split.
  - rewrite (on_event_questions w bad_file md s false Hf).
    destruct (check_inputs_not_start w md s Hc) as [msg ->]. cbn [after app].
    repeat split; [cbn; auto|].
    rewrite (on_event_questions w' good_file md' s true Hf').
    set (s' := with_questions (Envelope.load_node_result good_file) s).
    destruct (complete s') eqn:Hc'; [destruct (processed s) eqn:Hp|]; cbn [andb negb].
    + rewrite check_inputs_done by exact Hp. cbn. now split.
    + rewrite check_inputs_start by (exact Hc' || exact Hp).
      pose proof (start_processing_started w' md' s') as Hs.
      destruct (start_processing w' md' s') as [[r' s2] t']. cbn [after snd] in *.
      unfold started in *. rewrite filter_app. cbn. exact Hs.
    + destruct (check_inputs_not_start w' md' s' Hc') as [msg' ->]. cbn. now split.
  - rewrite (on_event_index w bad_dir md s false Hd).
    destruct (check_inputs_not_start w md s Hc) as [msg ->]. cbn [after app].
    repeat split; [cbn; auto|].
    rewrite (on_event_index w' good_dir md' s true Hd').
    set (s' := with_index (Envelope.load_node_result good_dir) s).
    destruct (complete s') eqn:Hc'; [destruct (processed s) eqn:Hp|]; cbn [andb negb].
    + rewrite check_inputs_done by exact Hp. cbn. now split.
    + rewrite check_inputs_start by (exact Hc' || exact Hp).
      pose proof (start_processing_started w' md' s') as Hs.
      destruct (start_processing w' md' s') as [[r' s2] t']. cbn [after snd] in *.
      unfold started in *. rewrite filter_app. cbn. exact Hs.
    + destruct (check_inputs_not_start w' md' s' Hc') as [msg' ->]. cbn. now split.
Qed.

Lemma invalid_offer_keeps_waiting_witness :
  let s := with_index (PStr "/data/index") init in
  let bad := PStr "/data/missing.txt" in
  let good := PStr "/data/questions.txt" in
  complete s = false /\
  (let '(r, s1, t) := on_event QuerySamples.world (INPUT questions_id bad PNone) s in
   r = Ret CONTINUE /\ s1 = s /\ actions t = [] /\
   In (Log ERROR "Received invalid path for questions file: {payload}") t /\
   let '(r', s2, t') := on_event QuerySamples.world (INPUT questions_id good PNone) s1 in
   started t' = 1%nat).
Proof.
  split; [reflexivity|].
  exact (proj1 (invalid_offer_keeps_waiting QuerySamples.world QuerySamples.world
                  (with_index (PStr "/data/index") init)
                  (PStr "/data/missing.txt") (PStr "/data/questions.txt")
                  (PStr "/data/nothing") (PStr "/data/index") PNone PNone
                  eq_refl eq_refl eq_refl eq_refl eq_refl)).
Defined.

End InvalidOffer.
(** ** C3: the join of the two inputs *)

Section JoinBarrier.
Import RagQuery Barrier.

Lemma started_app (t1 t2 : trace) : started (t1 ++ t2) = (started t1 + started t2)%nat.
Proof. unfold started. now rewrite filter_app, length_app. Qed.

Lemma deliver_app {S W} (h : W -> event -> M S DoraStatus) (l1 l2 : list (W * event)) (s : S) :
  deliver h (l1 ++ l2) s =
  (fst (deliver h l2 (fst (deliver h l1 s))),
   snd (deliver h l1 s) ++ snd (deliver h l2 (fst (deliver h l1 s)))).
Proof.
  revert s. induction l1 as [|[w ev] l1 IH]; intros s; cbn [app deliver].
  - cbn [fst snd app]. now destruct (deliver h l2 s).
  - destruct (h w ev s) as [[r s'] t]. rewrite IH.
    destruct (deliver h l1 s') as [s1 t1]. cbn [fst snd].
    destruct (deliver h l2 s1) as [s2 t2]. cbn [fst snd]. now rewrite app_assoc.
Qed.

(** Inputs on other ids leave the operator as it is and start nothing. *)
Lemma deliver_foreign (l : list (world * event)) (s : Operator) :
  Forall (fun we => foreign (snd we) = true) l ->
  fst (deliver on_event l s) = s /\ started (snd (deliver on_event l s)) = 0%nat.
Proof.
  induction 1 as [|[w ev] l Hev _ IH]; [now split|].
  cbn [deliver]. cbn [snd] in Hev. rewrite (on_event_foreign w ev s Hev).
  destruct (deliver on_event l s) as [s' t']. cbn [fst snd] in *.
  destruct IH as [-> Ht]. split; [reflexivity|]. exact Ht.
Qed.

Lemma deliver_app_fst {S W} (h : W -> event -> M S DoraStatus)
    (l1 l2 : list (W * event)) (s : S) :
  fst (deliver h (l1 ++ l2) s) = fst (deliver h l2 (fst (deliver h l1 s))).
Proof. now rewrite deliver_app. Qed.

Lemma deliver_app_snd {S W} (h : W -> event -> M S DoraStatus)
    (l1 l2 : list (W * event)) (s : S) :
  snd (deliver h (l1 ++ l2) s) =
  snd (deliver h l1 s) ++ snd (deliver h l2 (fst (deliver h l1 s))).
Proof. now rewrite deliver_app. Qed.

Lemma deliver_one (w : world) (ev : event) (s : Operator) :
  fst (deliver on_event [(w, ev)] s) = snd (fst (on_event w ev s)) /\
  snd (deliver on_event [(w, ev)] s) = snd (on_event w ev s).
Proof.
  cbn [deliver]. destruct (on_event w ev s) as [[r s'] t]. cbn. now rewrite app_nil_r.
Qed.

(** A first valid offer, on either id, only waits. *)
Lemma first_offer_waits (w : world) (v md : pyval) :
  (valid_questions w v ->
   on_event w (INPUT questions_id v md) init =
     (Ret CONTINUE, with_questions (Envelope.load_node_result v) init,
      [Log DEBUG "Received input event on ID: {event_id}";
       Log INFO "Received questions file path: {self.questions_file_path}";
       Log INFO "Waiting for all required inputs (questions file path and RAG index dir)..."])) /\
  (valid_index w v ->
   on_event w (INPUT index_id v md) init =
     (Ret CONTINUE, with_index (Envelope.load_node_result v) init,
      [Log DEBUG "Received input event on ID: {event_id}";
       Log INFO "Received RAG index directory path: {self.rag_index_dir}";
       Log INFO "Waiting for all required inputs (questions file path and RAG index dir)..."])).
Proof.
  split; intros [Hv Ht].
  - rewrite (on_event_questions w v md init true Hv).
    rewrite check_inputs_waiting; [reflexivity | | reflexivity].
    rewrite complete_with_questions. apply andb_false_r.
  - rewrite (on_event_index w v md init true Hv).
    rewrite check_inputs_waiting; reflexivity.
Qed.

(** The second valid offer starts processing, once. *)
Lemma second_offer_starts (w : world) (v v0 md : pyval) :
  truthy (Envelope.load_node_result v0) = true ->
  (valid_questions w v ->
   started (snd (on_event w (INPUT questions_id v md)
                   (with_index (Envelope.load_node_result v0) init))) = 1%nat) /\
  (valid_index w v ->
   started (snd (on_event w (INPUT index_id v md)
                   (with_questions (Envelope.load_node_result v0) init))) = 1%nat).
Proof.
  intros H0. split; intros [Hv Ht].
  - rewrite (on_event_questions w v md _ true Hv).
    rewrite check_inputs_start; [| | reflexivity].
    + pose proof (start_processing_started w md
                    (with_questions (Envelope.load_node_result v)
                       (with_index (Envelope.load_node_result v0) init))) as Hs.
      destruct (start_processing w md _) as [[r s'] t]. cbn [after snd] in *.
      now rewrite started_app.
    + rewrite complete_with_questions. cbn [with_index rag_index_dir]. now rewrite Ht, H0.
  - rewrite (on_event_index w v md _ true Hv).
    rewrite check_inputs_start; [| | reflexivity].
    + pose proof (start_processing_started w md
                    (with_index (Envelope.load_node_result v)
                       (with_questions (Envelope.load_node_result v0) init))) as Hs.
      destruct (start_processing w md _) as [[r s'] t]. cbn [after snd] in *.
      now rewrite started_app.
    + rewrite complete_with_index. cbn [with_questions questions_file_path].
      now rewrite Ht, H0.
Qed.

End JoinBarrier.
(** ** C8: saving the results and the errors *)

Section ErrorRecords.
Import RagQuerySingle.
Variable rag_instance : option pyval.
Variable config : pyval.
Variable aquery : Z -> res pyval.
Variable query_text : string.



End ErrorRecords.

Section DegradedWrite.
Import RagQuery.
Variable w : world.




End DegradedWrite.



(** ** C9: a failed download next to an existing copy *)

Lemma run_try_ret {S A} (m : M S A) (h : exn -> M S A) (s s' : S) (a : A) (t : trace) :
  m s = (Ret a, s', t) -> try_except m h s = (Ret a, s', t).
Proof. intros H. unfold try_except. now rewrite H. Qed.

Lemma run_try_raise {S A} (m : M S A) (h : exn -> M S A) (s s' : S) (e : exn) (t : trace) :
  m s = (Raise e, s', t) -> try_except m h s = after t (h e s').
Proof. intros H. unfold try_except. now rewrite H. Qed.

Lemma outputs_app (t1 t2 : trace) : outputs (t1 ++ t2) = outputs t1 ++ outputs t2.
Proof. apply filter_app. Qed.

Lemma getitem_truthy (c : pyval) (key : string) (v : pyval) :
  py_getitem c key = Ret v -> truthy c = true.
Proof.
  destruct c as [| | | | |[|kv items]|]; cbn; try discriminate. reflexivity.
Qed.

Section DownloadAssumed.
Import DataPrep.
Variable w : world.

Lemma retried_outputs (call : effect) (delay : Z) (n : nat) (t : trace) :
  is_invocation call = true -> retried call delay n t -> outputs t = [].
Proof.
  intros Hc [Ha _]. unfold outputs.
  rewrite <- (filter_actions is_output) by (intros [] ?; easy).
  rewrite Ha. clear Ha. induction n as [|[|n] IH]; [reflexivity | |].
  - cbn. destruct call; try discriminate; reflexivity.
  - rewrite retry_schedule_S. cbn [filter is_output].
    destruct call; try discriminate; cbn; exact IH.
Qed.

(** C9: with at least one attempt allowed, a non-negative delay and every
    attempt failing, [download_dataset] answers [True] when the target
    directory exists and is non-empty; in [on_event], called with its
    defaults on a configured stage, the extraction then runs on the
    download directory and the output directory is emitted, as after a
    download. *)
Theorem download_assumed_present
    (repo_id local_dir : pyval) (max_retries delay : Z) (name : string) (names : list string)
    (s : Operator) (download_dir output_dir dataset skip : pyval) (extracted : bool)
    (event_id : string) (value metadata : pyval) :
  (1 <= max_retries)%Z -> (0 <= delay)%Z ->
  (forall r, exists e, DataPrepDownload.snapshot_download (download w) r = Raise e) ->
  DataPrepDownload.os_path_exists (download w) = Ret true ->
  DataPrepDownload.os_listdir (download w) = Ret (name :: names) ->
  processed s = false ->
  py_getitem (config s) "DOWNLOAD_DIR" = Ret download_dir ->
  py_getitem (config s) "OUTPUT_DIR" = Ret output_dir ->
  py_getitem (config s) "DATASET_REPO_ID" = Ret dataset ->
  py_get (config s) "SKIP_DOWNLOAD" (PBool false) = Ret skip ->
  truthy skip = false ->
  extract_unique_contexts w download_dir output_dir = Ret extracted ->
  fst (DataPrepDownload.download_dataset (download w) repo_id local_dir max_retries delay)
    = Ret true /\
  retried (SnapshotDownload repo_id local_dir) delay (Z.to_nat max_retries)
    (snd (DataPrepDownload.download_dataset (download w) repo_id local_dir
            max_retries delay)) /\
  let '(r, s', t) := on_event w (INPUT event_id value metadata) s in
  r = Ret STOP /\ s' = mkOperator (config s) true /\
  List.length (filter is_invocation t) = 3%nat /\
  In (ExtractContexts download_dir output_dir) t /\
  outputs t = [SendOutput "unique_contexts_dir"
                 (Envelope.create_agent_output "data_prep" output_dir false) metadata].
Proof.
  intros HN Hd Hfail Hex Hls Hp Hdd Hod Hds Hsk Hskip Hext.
  assert (Hafter : after_exhaustion (download w) = Ret true)
    by (unfold after_exhaustion; now rewrite Hex, Hls).
  destruct (download_dataset_all_fail (download w) repo_id local_dir max_retries delay
              HN Hd Hfail) as [Hr Ht].
  rewrite Hafter in Hr. split; [exact Hr|]. split; [exact Ht|].
  destruct (download_dataset_all_fail (download w) dataset download_dir 3 5
              ltac:(lia) ltac:(lia) Hfail) as [Hr3 Ht3].
  rewrite Hafter in Hr3.
  assert (Hdl : download_dataset w dataset download_dir s
                = (Ret true, s,
                   snd (DataPrepDownload.download_dataset (download w) dataset download_dir 3 5))).
  { unfold download_dataset.
    destruct (DataPrepDownload.download_dataset (download w) dataset download_dir 3 5)
      as [r t]. cbn [fst snd] in *. now rewrite Hr3. }
  set (t3 := snd (DataPrepDownload.download_dataset (download w) dataset download_dir 3 5))
    in *.
  assert (Hmain : exists t,
             main_logic w metadata s = (Ret STOP, mkOperator (config s) true, t3 ++ t) /\
             filter is_invocation t = [] /\
             In (ExtractContexts download_dir output_dir) t /\
             outputs t = [SendOutput "unique_contexts_dir"
                            (Envelope.create_agent_output "data_prep" output_dir false)
                            metadata]).
  { unfold main_logic.
    rewrite run_get, Hdd, run_lift, Hod, run_lift, Hds, run_lift, Hsk, run_lift, Hskip.
    cbn [negb]. rewrite (run_bind _ _ _ _ _ _ Hdl).
    rewrite run_log, run_emit, Hext, run_lift.
    destruct extracted; cbn; eexists; (split; [reflexivity|]); cbn; auto 10. }
  destruct Hmain as (t & Hmain & Hinv & Hin & Hout).
  unfold on_event. rewrite run_get, Hp, run_log.
  rewrite (getitem_truthy _ _ _ Hdd). cbn [negb]. rewrite run_ret. cbn [negb].
  rewrite (run_try_ret _ _ _ _ _ _ Hmain). cbn [after].
  split; [reflexivity|]. split; [reflexivity|]. split; [|split].
  - cbn [app filter is_invocation]. rewrite filter_app, Hinv, app_nil_r.
    destruct Ht3 as (_ & Hn & _). exact Hn.
  - cbn [app]. right. apply in_or_app. right. exact Hin.
  - cbn [app]. change (outputs (Log ?a ?b :: ?l)) with (outputs l).
    rewrite outputs_app, Hout.
    now rewrite (retried_outputs (SnapshotDownload dataset download_dir) 5 _ t3 eq_refl Ht3).
Qed.

End DownloadAssumed.

Lemma download_assumed_present_witness :
  fst (DataPrepDownload.download_dataset Samples.stale_copy (PStr "org/set")
         (PStr "/app/data") 3 5) = Ret true /\
  retried (SnapshotDownload (PStr "org/set") (PStr "/app/data")) 5 3
    (snd (DataPrepDownload.download_dataset Samples.stale_copy (PStr "org/set")
            (PStr "/app/data") 3 5)) /\
  let '(r, s', t) :=
    DataPrep.on_event (PrepSamples.world_with Samples.stale_copy PNone)
      PrepSamples.trigger PrepSamples.configured in
  r = Ret STOP /\ s' = DataPrep.mkOperator PrepSamples.section true /\
  List.length (filter is_invocation t) = 3%nat /\
  In (ExtractContexts (PStr "/app/data") (PStr "/app/contexts")) t /\
  outputs t = [SendOutput "unique_contexts_dir"
                 (Envelope.create_agent_output "data_prep" (PStr "/app/contexts") false)
                 (PStr "meta")].
Proof.
  exact (download_assumed_present (PrepSamples.world_with Samples.stale_copy PNone)
           (PStr "org/set") (PStr "/app/data") 3 5 "data.jsonl" []
           PrepSamples.configured (PStr "/app/data") (PStr "/app/contexts")
           (PStr "org/set") (PBool false) true "tick" PNone (PStr "meta")
           ltac:(lia) ltac:(lia) (fun r => ex_intro _ Samples.offline eq_refl)
           eq_refl eq_refl eq_refl eq_refl eq_refl eq_refl eq_refl eq_refl eq_refl).
Defined.

(** ** The other stages: effects and fields *)

Section StageAvoids.
Variable p : effect -> bool.
Hypothesis p_silent : silent p.

Let p_log : forall l m, m <> start_template -> p (Log l m) = false := proj1 p_silent.
Let p_quiet : forall e, is_log e = false -> is_output e = false -> p e = false :=
  proj2 p_silent.

Lemma download_loop_avoids (dw : DataPrepDownload.world) (repo dir : pyval) (m d : Z) :
  forall fuel retries r t,
    DataPrepDownload.download_loop dw repo dir m d fuel retries = Some (r, t) ->
    filter p t = [].
Proof.
  assert (Hq : forall x y, p (SnapshotDownload x y) = false) by (intros; now apply p_quiet).
  assert (Hs : forall x, p (Sleep x) = false) by (intros; now apply p_quiet).
  induction fuel as [|fuel IH]; intros retries r t H;
    cbn [DataPrepDownload.download_loop] in H; [discriminate|].
  unfold time_sleep in H. destruct (d <? 0)%Z.
  all: repeat match type of H with
         | context [match ?x with _ => _ end] => destruct x eqn:?
         | context [if ?x then _ else _] => destruct x eqn:?
         end;
    try discriminate; injection H as <- <-;
    repeat rewrite filter_app; cbn [filter app];
    rewrite ?Hq, ?Hs; repeat (rewrite p_log by discriminate);
    try reflexivity.
  eapply IH. eassumption.
Qed.

Lemma download_dataset_avoids (dw : DataPrepDownload.world) (repo dir : pyval) (m d : Z) :
  filter p (snd (DataPrepDownload.download_dataset dw repo dir m d)) = [].
Proof.
  unfold DataPrepDownload.download_dataset.
  destruct (DataPrepDownload.download_loop dw repo dir m d (S (Z.to_nat m)) 0)
    as [[r t]|] eqn:Hl; [|reflexivity].
  cbn [snd filter]. rewrite p_log by discriminate. eapply download_loop_avoids, Hl.
Qed.

Lemma llm_loop_avoids (chat : Z -> res pyval) (model : pyval) (prompt : string) (m d : Z) :
  forall fuel retries r t,
    QuestionGenLLM.llm_loop chat model prompt m d fuel retries = Some (r, t) ->
    filter p t = [].
Proof.
  assert (Hq : forall x y, p (ChatCompletion x y) = false) by (intros; now apply p_quiet).
  assert (Hs : forall x, p (Sleep x) = false) by (intros; now apply p_quiet).
  induction fuel as [|fuel IH]; intros retries r t H;
    cbn [QuestionGenLLM.llm_loop] in H; [discriminate|].
  unfold asyncio_sleep in H.
  repeat match type of H with
         | context [match ?x with _ => _ end] => destruct x eqn:?
         | context [if ?x then _ else _] => destruct x eqn:?
         end;
    try discriminate; injection H as <- <-;
    repeat rewrite filter_app; cbn [filter app];
    rewrite ?Hq, ?Hs; repeat (rewrite p_log by discriminate);
    try reflexivity.
  eapply IH. eassumption.
Qed.

Lemma call_llm_avoids (chat : Z -> res pyval) (model : pyval) (prompt : string) (m d : Z) :
  filter p (snd (QuestionGenLLM.call_llm_for_questions chat model prompt m d)) = [].
Proof.
  unfold QuestionGenLLM.call_llm_for_questions.
  destruct (QuestionGenLLM.llm_loop chat model prompt m d (S (Z.to_nat m)) 0)
    as [[r t]|] eqn:Hl; [|reflexivity].
  eapply llm_loop_avoids, Hl.
Qed.

Section PrepAvoids.
Import DataPrep.
Variable w : world.

Lemma prep_load_config_avoids : avoids p (load_config w).
Proof. unfold load_config, resolve_path. repeat avoid_step. Qed.

Lemma prep_download_dataset_avoids (repo dir : pyval) : avoids p (download_dataset w repo dir).
Proof.
  intros s. unfold download_dataset.
  pose proof (download_dataset_avoids (download w) repo dir 3 5) as H.
  now destruct (DataPrepDownload.download_dataset (download w) repo dir 3 5).
Qed.

Lemma prep_check_existing_avoids (dir : pyval) : avoids p (check_existing w dir).
Proof. unfold check_existing. repeat avoid_step. Qed.

End PrepAvoids.

Section GenAvoids.
Import QuestionGen.
Variable w : world.

Lemma gen_load_config_avoids : avoids p (load_config w).
Proof. unfold load_config, resolve_path, make_parent_dir. repeat avoid_step. Qed.

Lemma gen_setup_dependencies_avoids : avoids p (_setup_dependencies w).
Proof. unfold _setup_dependencies. repeat avoid_step. Qed.

Lemma gen_call_llm_avoids (model : pyval) (prompt : string) :
  avoids p (call_llm_for_questions w model prompt).
Proof.
  intros s. unfold call_llm_for_questions.
  pose proof (call_llm_avoids (chat_completion w) model prompt 3 5) as H.
  now destruct (QuestionGenLLM.call_llm_for_questions (chat_completion w) model prompt 3 5).
Qed.

Lemma gen_generate_questions_task_avoids (dir : pyval) :
  avoids p (_generate_questions_task w dir).
Proof.
  unfold _generate_questions_task. pose proof gen_call_llm_avoids.
  repeat avoid_step; auto.
Qed.

Lemma gen_run_until_complete_avoids (input : pyval) : avoids p (run_until_complete w input).
Proof.
  unfold run_until_complete, run_main_task. pose proof gen_generate_questions_task_avoids.
  repeat avoid_step; auto.
Qed.

End GenAvoids.

Section IndexAvoids.
Import RagIndex.
Variable w : world.

Lemma index_load_config_avoids : avoids p (load_config w).
Proof. unfold load_config, resolve_path. repeat avoid_step. Qed.

Lemma index_setup_async_funcs_avoids : avoids p _setup_async_funcs.
Proof. unfold _setup_async_funcs. repeat avoid_step. Qed.

Lemma index_initialize_avoids : avoids p (_initialize_rag_instance w).
Proof. unfold _initialize_rag_instance. repeat avoid_step. Qed.

Lemma insert_loop_avoids (file : string) (mr rd : pyval) :
  forall fuel retries r t,
    insert_loop w file mr rd fuel retries = Some (r, t) -> filter p t = [].
Proof.
  assert (Hq : forall x, p (RagInsert x) = false) by (intros; now apply p_quiet).
  assert (Hs : forall x, p (Sleep x) = false) by (intros; now apply p_quiet).
  induction fuel as [|fuel IH]; intros retries r t H; cbn [insert_loop] in H;
    [discriminate|].
  unfold asyncio_sleep_py, asyncio_sleep in H. destruct (py_as_int rd).
  all: repeat match type of H with
         | context [match ?x with _ => _ end] => destruct x eqn:?
         end;
    try discriminate; injection H as <- <-;
    repeat rewrite filter_app; cbn [filter app];
    rewrite ?Hq, ?Hs; repeat (rewrite p_log by discriminate);
    try reflexivity.
  eapply IH. eassumption.
Qed.

Lemma run_insert_loop_avoids (file : string) (mr rd : pyval) :
  avoids p (run_insert_loop w file mr rd).
Proof.
  intros s. unfold run_insert_loop.
  match goal with |- context [insert_loop w file mr rd ?f ?r] =>
    destruct (insert_loop w file mr rd f r) as [[r' t']|] eqn:Hl end; [|reflexivity].
  cbn [snd]. eapply insert_loop_avoids, Hl.
Qed.

Lemma insert_contexts_avoids (file : string) : avoids p (_insert_contexts_from_file w file).
Proof.
  unfold _insert_contexts_from_file. pose proof run_insert_loop_avoids.
  repeat avoid_step; auto.
Qed.

Lemma insert_all_avoids (files : list string) : avoids p (insert_all w files).
Proof.
  induction files as [|f files IH]; cbn [insert_all]; [apply avoids_ret|].
  pose proof (insert_contexts_avoids f). repeat avoid_step.
Qed.

Lemma main_indexing_task_avoids (input : pyval) : avoids p (main_indexing_task w input).
Proof.
  unfold main_indexing_task. pose proof index_initialize_avoids.
  pose proof insert_all_avoids. repeat avoid_step; auto.
Qed.

Lemma index_run_until_complete_avoids (input : pyval) :
  avoids p (run_until_complete w input).
Proof.
  unfold run_until_complete. pose proof main_indexing_task_avoids.
  repeat avoid_step; auto.
Qed.

End IndexAvoids.
End StageAvoids.

Section StageKeeps.






End StageKeeps.

(** ** C5: fatal failures *)

Lemma outputs_after {S A} (t : trace) (o : res A * S * trace) :
  outputs (snd (after t o)) = outputs t ++ outputs (snd o).
Proof. destruct o as [[r s] t']. cbn. apply filter_app. Qed.


Section PrepFailures.
Import DataPrep.
Variable w : world.


Lemma prep_step_avoids (skip dataset download_dir : pyval) :
  avoids is_output
    (if negb (truthy skip) then download_dataset w dataset download_dir
     else check_existing w download_dir).
Proof.
  destruct (negb (truthy skip)).
  - apply prep_download_dataset_avoids, is_output_silent.
  - apply prep_check_existing_avoids, is_output_silent.
Qed.

(** When the body of the [try] raises, nothing has been emitted. *)
Lemma prep_main_logic_raise (md : pyval) (s : Operator) :
  match main_logic w md s with
  | (Raise _, _, t) => outputs t = []
  | (Ret _, _, _) => True
  end.
Proof.
  unfold main_logic. rewrite run_get.
  destruct (py_getitem (config s) "DOWNLOAD_DIR") as [dd|e1];
    [rewrite run_lift | now rewrite run_lift_raise].
  destruct (py_getitem (config s) "OUTPUT_DIR") as [od|e1];
    [rewrite run_lift | now rewrite run_lift_raise].
  destruct (py_getitem (config s) "DATASET_REPO_ID") as [ds|e1];
    [rewrite run_lift | now rewrite run_lift_raise].
  destruct (py_get (config s) "SKIP_DOWNLOAD" (PBool false)) as [skip|e1];
    [rewrite run_lift | now rewrite run_lift_raise].
  pose proof (prep_step_avoids skip ds dd s) as Ho.
  destruct ((if negb (truthy skip) then download_dataset w ds dd else check_existing w dd) s)
    as [[[b|e1] s1] t1] eqn:E; cbn [snd] in Ho.
  - rewrite (run_bind _ _ _ _ _ _ E). destruct b; [|now cbn].
    rewrite run_log, run_emit.
    destruct (extract_unique_contexts w dd od) as [[]|e2]; cbn; trivial.
    unfold outputs. rewrite filter_app. fold (outputs t1).
    unfold outputs. now rewrite Ho.
  - rewrite (run_bind_raise _ _ _ _ _ _ E). exact Ho.
Qed.




End PrepFailures.
Section GenFailures.
Import QuestionGen.
Variable w : world.

Lemma gen_config_step_avoids (s : Operator) :
  outputs (snd ((if negb (truthy (config s)) then load_config w else ret true) s)) = [].
Proof.
  destruct (negb (truthy (config s))); [|reflexivity].
  apply gen_load_config_avoids, is_output_silent.
Qed.


Lemma gen_setup_step_avoids (s : Operator) :
  outputs (snd ((if negb (tokenizer s) || negb (llm_client s)
                 then _setup_dependencies w else ret true) s)) = [].
Proof.
  destruct (negb (tokenizer s) || negb (llm_client s)); [|reflexivity].
  apply gen_setup_dependencies_avoids, is_output_silent.
Qed.





End GenFailures.

Section IndexFailures.
Import RagIndex.
Variable w : world.

Lemma index_config_step_avoids (s : Operator) :
  outputs (snd ((if negb (truthy (config s)) then load_config w else ret true) s)) = [].
Proof.
  destruct (negb (truthy (config s))); [|reflexivity].
  apply index_load_config_avoids, is_output_silent.
Qed.


Lemma index_setup_step_avoids (s : Operator) :
  outputs (snd ((if negb (llm_model_func s) || negb (embedding_func_wrapper s)
                 then _setup_async_funcs else ret true) s)) = [].
Proof.
  destruct (negb (llm_model_func s) || negb (embedding_func_wrapper s)); [|reflexivity].
  apply index_setup_async_funcs_avoids, is_output_silent.
Qed.



End IndexFailures.
Section QueryFailures.
Import RagQuery.
Variable w : world.

Lemma query_config_step_avoids (s : Operator) :
  outputs (snd ((if negb (truthy (config s)) then load_config w else ret true) s)) = [].
Proof.
  destruct (negb (truthy (config s))); [|reflexivity].
  apply load_config_avoids, is_output_silent.
Qed.


Lemma query_setup_step_avoids (s : Operator) :
  outputs (snd ((if negb (llm_model_func s) || negb (embedding_func_wrapper s)
                 then _setup_async_funcs else ret true) s)) = [].
Proof.
  destruct (negb (llm_model_func s) || negb (embedding_func_wrapper s)); [|reflexivity].
  apply setup_async_funcs_avoids, is_output_silent.
Qed.





End QueryFailures.

Section LoggerFailures.
Import ResultLogger.
Variable w : world.

(** The result logger never emits an output. *)
Lemma logger_avoids (ev : event) : avoids is_output (on_event w ev).
Proof.
  destruct ev; unfold on_event, check_file; repeat avoid_step.
Qed.

Lemma logger_stage_failure (ev : event) (s : Operator) (items : list (string * pyval))
    (file : pyval) (e : exn) :
  is_input ev = true -> processed s = false ->
  Envelope.load_node_result (event_value ev) = PDict items ->
  dict_get "results_file" items = Some file -> truthy file = true ->
  os_path_exists w file = Raise e ->
  stops_without_output processed true (on_event w ev s).
Proof.
  destruct ev as [id v md| | |]; try discriminate. cbn [event_value].
  intros _ Hp Hv Hf Ht He.
  pose proof (logger_avoids (INPUT id v md) s) as Ho.
  unfold on_event in *. rewrite run_get, Hp, run_log in *.
  rewrite Hv, Hf in *. unfold check_file in *. rewrite Ht, He in *.
  cbn in *. repeat split; exact Ho.
Qed.

End LoggerFailures.

(** How the handling of an input ends, for the five operators. *)

Section Ends.
Context {S : Type}.
Variable processed : S -> bool.

Lemma ends_bind {A} (m : M S A) (k : A -> M S DoraStatus) :
  avoids is_output m -> keeps processed m -> (forall a, ends processed (k a)) ->
  ends processed (bind m k).
Proof.
  intros Hav Hk Hend s Hp. unfold bind. specialize (Hav s). specialize (Hk s).
  destruct (m s) as [[[a|e] s1] t1]; cbn [fst snd] in *.
  - assert (Hp1 : processed s1 = false) by congruence.
    specialize (Hend a s1 Hp1). destruct (k a s1) as [[[[]|e] s2] t2]; cbn in *;
      unfold outputs in *; rewrite filter_app, Hav; exact Hend.
  - cbn. split; [congruence | exact Hav].
Qed.

Lemma ends_try (m : M S DoraStatus) (h : exn -> M S DoraStatus) :
  ends processed m -> (forall e, ends processed (h e)) -> ends processed (try_except m h).
Proof.
  intros Hm Hh s Hp. unfold try_except. specialize (Hm s Hp).
  destruct (m s) as [[[r|e] s1] t1]; [exact Hm|].
  cbn in Hm. destruct Hm as [Hp1 Ho].
  specialize (Hh e s1 Hp1). destruct (h e s1) as [[[[]|e'] s2] t2]; cbn in *;
    unfold outputs in *; rewrite filter_app, Ho; exact Hh.
Qed.

Lemma ends_throw (e : exn) : ends processed (throw e).
Proof. intros s Hp. cbn. now split. Qed.

Lemma ends_continue : ends processed (ret CONTINUE).
Proof. intros s Hp. cbn. now split. Qed.

Lemma ends_stop : ends processed (ret STOP).
Proof. intros s Hp. cbn. now right. Qed.

End Ends.

Ltac end_step :=
  lazymatch goal with
  | |- ends _ (bind (emit (SendOutput _ _ _)) _) => intros ? ?; cbn; left; reflexivity
  | |- ends _ (bind (_ true) _) => intros ? ?; cbn; left; reflexivity
  | |- ends _ (bind _ _) =>
      apply ends_bind;
      [ repeat avoid_step; auto using is_output_silent
      | repeat keep_step; auto
      | intros ? ]
  | |- ends _ (try_except _ _) => apply ends_try; [| intros ?]
  | |- ends _ (throw _) => apply ends_throw
  | |- ends _ (ret CONTINUE) => apply ends_continue
  | |- ends _ (ret STOP) => apply ends_stop
  | |- ends _ (if ?b then _ else _) => destruct b
  | |- ends _ (match ?x with _ => _ end) => destruct x
  end.

Section TaskKeeps.





End TaskKeeps.

Section TaskKeeps2.










End TaskKeeps2.

Section StageEnds.





Lemma logger_ends (w : ResultLogger.world) (ev : event) :
  ends ResultLogger.processed (ResultLogger.on_event w ev).
Proof.
  destruct ev; unfold ResultLogger.on_event, ResultLogger.check_file; repeat end_step.
Qed.

End StageEnds.

Section AlwaysStops.





End AlwaysStops.

Section Escapes.




End Escapes.




(** ** C1: input events after the processed flag is set *)

Lemma prep_done_ignores (w : DataPrep.world) (ev : event) (s : DataPrep.Operator) :
  is_input ev = true -> DataPrep.processed s = true ->
  DataPrep.on_event w ev s =
    (Ret CONTINUE, s,
     [Log INFO "Data preparation already processed. Ignoring further inputs."]).
Proof.
  destruct ev; try discriminate. intros _ Hp.
  unfold DataPrep.on_event. now rewrite run_get, Hp.
Qed.

Lemma gen_done_ignores (w : QuestionGen.world) (ev : event) (s : QuestionGen.Operator) :
  is_input ev = true -> QuestionGen.processed s = true ->
  exists t,
    QuestionGen.on_event w ev s = (Ret CONTINUE, s, t) /\ actions t = [].
Proof.
  destruct ev as [id v md| | |]; try discriminate. intros _ Hp.
  unfold QuestionGen.on_event. rewrite run_log.
  destruct (String.eqb id "unique_contexts_dir").
  - rewrite run_get, Hp. eexists; split; reflexivity.
  - eexists; split; reflexivity.
Qed.

Lemma index_done_ignores (w : RagIndex.world) (ev : event) (s : RagIndex.Operator) :
  is_input ev = true -> RagIndex.processed s = true ->
  exists t,
    RagIndex.on_event w ev s = (Ret CONTINUE, s, t) /\ actions t = [].
Proof.
  destruct ev as [id v md| | |]; try discriminate. intros _ Hp.
  unfold RagIndex.on_event. rewrite run_log.
  destruct (String.eqb id "unique_contexts_dir").
  - rewrite run_get, Hp. eexists; split; reflexivity.
  - eexists; split; reflexivity.
Qed.

Lemma logger_done_ignores (w : ResultLogger.world) (ev : event) (s : ResultLogger.Operator) :
  is_input ev = true -> ResultLogger.processed s = true ->
  ResultLogger.on_event w ev s =
    (Ret CONTINUE, s, [Log INFO "Result already logged. Ignoring further inputs."]).
Proof.
  destruct ev; try discriminate. intros _ Hp.
  unfold ResultLogger.on_event. now rewrite run_get, Hp.
Qed.

(** The query stage, once processed, answers [CONTINUE] without output and
    without starting again, provided the check of the payload answers at
    all; the path fields are the only ones that can change. *)
Lemma query_done_continues (w : RagQuery.world) (id : string) (v md : pyval)
    (s : RagQuery.Operator) (is_file is_dir : bool) :
  RagQuery.processed s = true ->
  RagQuery.os_path_isfile w (Envelope.load_node_result v) = Ret is_file ->
  RagQuery.os_path_isdir w (Envelope.load_node_result v) = Ret is_dir ->
  let '(r, s', t) := RagQuery.on_event w (INPUT id v md) s in
  r = Ret CONTINUE /\ actions t = [] /\ started t = 0%nat /\
  RagQuery.processed s' = true /\ RagQuery.config s' = RagQuery.config s /\
  RagQuery.rag_instance s' = RagQuery.rag_instance s.
Proof.
  intros Hp Hf Hd.
  destruct (String.eqb id Barrier.questions_id) eqn:Eq;
    [apply String.eqb_eq in Eq; subst id|
     destruct (String.eqb id Barrier.index_id) eqn:Ei;
     [apply String.eqb_eq in Ei; subst id|]].
  - rewrite (on_event_questions w v md s is_file Hf).
    rewrite check_inputs_done by (now destruct is_file).
    destruct is_file; cbn; repeat split; auto.
  - rewrite (on_event_index w v md s is_dir Hd).
    rewrite check_inputs_done by (now destruct is_dir).
    destruct is_dir; cbn; repeat split; auto.
  - rewrite (on_event_foreign w (INPUT id v md) s)
      by (cbn [Barrier.foreign]; now rewrite Eq, Ei).
    cbn. repeat split; auto.
Qed.

(** C1 fails in the query stage: after a completed run (processed flag
    set), a further input on the questions id whose payload is an existing
    file is answered with [CONTINUE] and without output, but the operator
    records the new path in [questions_file_path]; the guard is tested
    after the assignment. *)
Theorem query_stage_records_after_done :
  RagQuery.processed DoneSamples.done = true /\
  RagQuery.questions_file_path DoneSamples.done = PStr "/data/questions.txt" /\
  let '(r, s', t) :=
    RagQuery.on_event DoneSamples.later DoneSamples.second_questions DoneSamples.done in
  r = Ret CONTINUE /\ outputs t = [] /\
  In (Log INFO "RAG querying already processed. Ignoring further inputs.") t /\
  RagQuery.questions_file_path s' = PStr "/data/questions_v2.txt" /\
  s' <> DoneSamples.done.
Proof.
  vm_compute. repeat split; auto. discriminate.
Qed.

(** * Further properties of the code *)

(** ** Retry loops: success after failures *)

Section DownloadSucceeds.
Import DataPrepDownload.
Variable w : world.
Variables (repo_id local_dir : pyval) (max_retries delay : Z).
Hypothesis delay_nonneg : (0 <= delay)%Z.

Lemma download_loop_succeeds (j : nat) :
  forall (fuel : nat) (retries : Z),
    (forall r, (retries <= r < retries + Z.of_nat j)%Z ->
               exists e, snapshot_download w r = Raise e) ->
    snapshot_download w (retries + Z.of_nat j)%Z = Ret tt ->
    (retries + Z.of_nat j < max_retries)%Z ->
    (j < fuel)%nat ->
    exists t,
      download_loop w repo_id local_dir max_retries delay fuel retries = Some (Ret true, t) /\
      actions t = retry_schedule (SnapshotDownload repo_id local_dir) delay (S j).
Proof.
  induction j as [|j IH]; intros fuel retries Hfail Hok Hlt Hf;
    (destruct fuel as [|fuel]; [lia|]); cbn [download_loop];
    (assert (Hlt0 : (retries <? max_retries)%Z = true) by (apply Z.ltb_lt; lia));
    rewrite Hlt0.
  - replace (retries + Z.of_nat 0)%Z with retries in Hok by lia. rewrite Hok.
    eexists; split; reflexivity.
  - destruct (Hfail retries ltac:(lia)) as [e ->].
    assert (Hlt' : (retries + 1 <? max_retries)%Z = true) by (apply Z.ltb_lt; lia).
    rewrite Hlt'. unfold time_sleep.
    assert (Hd : (delay <? 0)%Z = false) by (apply Z.ltb_ge; lia). rewrite Hd.
    destruct (IH fuel (retries + 1)%Z) as (t & -> & Ht).
    + intros r Hr. apply Hfail. lia.
    + replace (retries + 1 + Z.of_nat j)%Z with (retries + Z.of_nat (S j))%Z by lia.
      exact Hok.
    + lia.
    + lia.
    + eexists; split; [reflexivity|]. rewrite !actions_app, Ht. reflexivity.
Qed.

End DownloadSucceeds.

(** [download_dataset]: when attempts 1..k-1 raise and attempt k succeeds
    (k <= max_retries, non-negative delay), the function returns [True]
    after exactly k invocations and k-1 waits of [delay]. *)
Theorem download_dataset_succeeds_at
    (w : DataPrepDownload.world) (repo_id local_dir : pyval) (max_retries delay : Z)
    (k : nat) :
  (0 <= delay)%Z -> (Z.of_nat (S k) <= max_retries)%Z ->
  (forall r, (0 <= r < Z.of_nat k)%Z ->
             exists e, DataPrepDownload.snapshot_download w r = Raise e) ->
  DataPrepDownload.snapshot_download w (Z.of_nat k) = Ret tt ->
  fst (DataPrepDownload.download_dataset w repo_id local_dir max_retries delay) = Ret true /\
  retried (SnapshotDownload repo_id local_dir) delay (S k)
    (snd (DataPrepDownload.download_dataset w repo_id local_dir max_retries delay)).
Proof.
  intros Hd Hk Hfail Hok. unfold DataPrepDownload.download_dataset.
  destruct (download_loop_succeeds w repo_id local_dir max_retries delay Hd k
              (S (Z.to_nat max_retries)) 0%Z) as (t & -> & Ht);
    [exact Hfail | exact Hok | lia | lia |].
  cbn [fst snd]. split; [reflexivity|].
  apply retried_of_actions; [reflexivity|].
  change (actions (?x :: t)) with (actions t). exact Ht.
Qed.

Lemma download_dataset_succeeds_at_witness :
  fst (DataPrepDownload.download_dataset Flaky.download (PStr "org/set") (PStr "data") 3 5)
    = Ret true /\
  retried (SnapshotDownload (PStr "org/set") (PStr "data")) 5 3
    (snd (DataPrepDownload.download_dataset Flaky.download (PStr "org/set") (PStr "data") 3 5)).
Proof.
  apply (download_dataset_succeeds_at Flaky.download (PStr "org/set") (PStr "data") 3 5 2).
  - lia.
  - lia.
  - intros r Hr. exists Samples.offline. unfold Flaky.download, Flaky.third_time. cbn.
    destruct (r <? 2)%Z eqn:E; [reflexivity|]. apply Z.ltb_ge in E. lia.
  - reflexivity.
Defined.

Section LLMSucceeds.
Import QuestionGenLLM.
Variable chat_completion : Z -> res pyval.
Variables (model : pyval) (prompt : string) (max_retries delay : Z).

Lemma llm_loop_succeeds (content : pyval) (j : nat) :
  forall (fuel : nat) (retries : Z),
    (forall r, (retries <= r < retries + Z.of_nat j)%Z ->
               exists e, chat_completion r = Raise e) ->
    chat_completion (retries + Z.of_nat j)%Z = Ret content ->
    (retries + Z.of_nat j < max_retries)%Z ->
    (j < fuel)%nat ->
    exists t,
      llm_loop chat_completion model prompt max_retries delay fuel retries
        = Some (content, t) /\
      actions t = retry_schedule (ChatCompletion model prompt) delay (S j).
Proof.
  induction j as [|j IH]; intros fuel retries Hfail Hok Hlt Hf;
    (destruct fuel as [|fuel]; [lia|]); cbn [llm_loop];
    (assert (Hlt0 : (retries <? max_retries)%Z = true) by (apply Z.ltb_lt; lia));
    rewrite Hlt0.
  - replace (retries + Z.of_nat 0)%Z with retries in Hok by lia. rewrite Hok.
    eexists; split; reflexivity.
  - destruct (Hfail retries ltac:(lia)) as [e ->].
    assert (Hlt' : (retries + 1 <? max_retries)%Z = true) by (apply Z.ltb_lt; lia).
    rewrite Hlt'.
    destruct (IH fuel (retries + 1)%Z) as (t & -> & Ht).
    + intros r Hr. apply Hfail. lia.
    + replace (retries + 1 + Z.of_nat j)%Z with (retries + Z.of_nat (S j))%Z by lia.
      exact Hok.
    + lia.
    + lia.
    + eexists; split; [reflexivity|]. rewrite !actions_app, Ht. reflexivity.
Qed.

End LLMSucceeds.

(** [call_llm_for_questions]: when attempts 1..k-1 raise and attempt k
    answers (k <= max_retries), the function returns that answer after
    exactly k requests and k-1 waits of [delay]. *)
Theorem call_llm_succeeds_at
    (chat_completion : Z -> res pyval) (model : pyval) (prompt : string)
    (max_retries delay : Z) (k : nat) (content : pyval) :
  (Z.of_nat (S k) <= max_retries)%Z ->
  (forall r, (0 <= r < Z.of_nat k)%Z -> exists e, chat_completion r = Raise e) ->
  chat_completion (Z.of_nat k) = Ret content ->
  fst (QuestionGenLLM.call_llm_for_questions chat_completion model prompt max_retries delay)
    = content /\
  retried (ChatCompletion model prompt) delay (S k)
    (snd (QuestionGenLLM.call_llm_for_questions chat_completion model prompt
            max_retries delay)).
Proof.
  intros Hk Hfail Hok. unfold QuestionGenLLM.call_llm_for_questions.
  destruct (llm_loop_succeeds chat_completion model prompt max_retries delay content k
              (S (Z.to_nat max_retries)) 0%Z) as (t & -> & Ht);
    [exact Hfail | exact Hok | lia | lia |].
  cbn [fst snd]. split; [reflexivity|].
  apply retried_of_actions; [reflexivity | exact Ht].
Qed.

Lemma call_llm_succeeds_at_witness :
  let chat := Flaky.third_time (PStr "- Question 1: What is X?") in
  fst (QuestionGenLLM.call_llm_for_questions chat (PStr "m") "prompt" 3 5)
    = PStr "- Question 1: What is X?" /\
  retried (ChatCompletion (PStr "m") "prompt") 5 3
    (snd (QuestionGenLLM.call_llm_for_questions chat (PStr "m") "prompt" 3 5)).
Proof.
  apply (call_llm_succeeds_at (Flaky.third_time (PStr "- Question 1: What is X?"))
           (PStr "m") "prompt" 3 5 2 (PStr "- Question 1: What is X?")).
  - lia.
  - intros r Hr. exists Samples.offline. unfold Flaky.third_time.
    destruct (r <? 2)%Z eqn:E; [reflexivity|]. apply Z.ltb_ge in E. lia.
  - reflexivity.
Defined.

Section QuerySucceeds.
Import RagQuerySingle.
Variable aquery : Z -> res pyval.
Variable query_text : string.
Variables (max_retries retry_delay : Z).

Lemma query_loop_succeeds (result : pyval) (j : nat) :
  forall (fuel : nat) (retries : Z),
    (forall r, (retries <= r < retries + Z.of_nat j)%Z -> exists e, aquery r = Raise e) ->
    aquery (retries + Z.of_nat j)%Z = Ret result ->
    (retries + Z.of_nat j < max_retries)%Z ->
    (j < fuel)%nat ->
    exists t,
      query_loop aquery query_text (PInt max_retries) (PInt retry_delay) fuel retries
        = Some (Ret (result_record query_text result, PNone), t) /\
      actions t = retry_schedule (RagQuery query_text) retry_delay (S j).
Proof.
  induction j as [|j IH]; intros fuel retries Hfail Hok Hlt Hf;
    (destruct fuel as [|fuel]; [lia|]);
    cbn [query_loop py_int_lt py_as_int asyncio_sleep_py];
    (assert (Hlt0 : (retries <? max_retries)%Z = true) by (apply Z.ltb_lt; lia));
    rewrite Hlt0.
  - replace (retries + Z.of_nat 0)%Z with retries in Hok by lia. rewrite Hok.
    eexists; split; reflexivity.
  - destruct (Hfail retries ltac:(lia)) as [e ->].
    assert (Hlt' : (retries + 1 <? max_retries)%Z = true) by (apply Z.ltb_lt; lia).
    rewrite Hlt'.
    destruct (IH fuel (retries + 1)%Z) as (t & -> & Ht).
    + intros r Hr. apply Hfail. lia.
    + replace (retries + 1 + Z.of_nat j)%Z with (retries + Z.of_nat (S j))%Z by lia.
      exact Hok.
    + lia.
    + lia.
    + eexists; split; [reflexivity|]. rewrite !actions_app, Ht. reflexivity.
Qed.

End QuerySucceeds.

(** [_process_single_query], on an initialised instance: when attempts
    1..k-1 raise and attempt k answers (k <= QUERY_MAX_RETRIES), the
    function returns [({query, result}, None)] after exactly k queries and
    k-1 waits of QUERY_RETRY_DELAY. *)
Theorem process_single_query_succeeds_at
    (inst config : pyval) (aquery : Z -> res pyval) (query_text : string)
    (max_retries retry_delay : Z) (k : nat) (result : pyval) :
  py_get config "QUERY_MAX_RETRIES" (PInt 1) = Ret (PInt max_retries) ->
  py_get config "QUERY_RETRY_DELAY" (PInt 5) = Ret (PInt retry_delay) ->
  (Z.of_nat (S k) <= max_retries)%Z ->
  (forall r, (0 <= r < Z.of_nat k)%Z -> exists e, aquery r = Raise e) ->
  aquery (Z.of_nat k) = Ret result ->
  fst (RagQuerySingle._process_single_query (Some inst) config aquery query_text)
    = Ret (PDict [("query", PStr query_text); ("result", result)], PNone) /\
  retried (RagQuery query_text) retry_delay (S k)
    (snd (RagQuerySingle._process_single_query (Some inst) config aquery query_text)).
Proof.
  intros Hm Hdl Hk Hfail Hok. unfold RagQuerySingle._process_single_query.
  rewrite Hm, Hdl. cbn [py_as_int].
  destruct (query_loop_succeeds aquery query_text max_retries retry_delay result k
              (S (Z.to_nat max_retries)) 0%Z) as (t & -> & Ht);
    [exact Hfail | exact Hok | lia | lia |].
  cbn [fst snd]. split; [reflexivity|].
  apply retried_of_actions; [reflexivity | exact Ht].
Qed.

Lemma process_single_query_succeeds_at_witness :
  let aquery := Flaky.third_time (PStr "X is a letter.") in
  fst (RagQuerySingle._process_single_query (Some (PStr "/data/index"))
         Flaky.retrying_config aquery "What is X?")
    = Ret (PDict [("query", PStr "What is X?"); ("result", PStr "X is a letter.")], PNone) /\
  retried (RagQuery "What is X?") 0 3
    (snd (RagQuerySingle._process_single_query (Some (PStr "/data/index"))
            Flaky.retrying_config aquery "What is X?")).
Proof.
  apply (process_single_query_succeeds_at (PStr "/data/index") Flaky.retrying_config
           (Flaky.third_time (PStr "X is a letter.")) "What is X?" 3 0 2
           (PStr "X is a letter.")).
  - reflexivity.
  - reflexivity.
  - lia.
  - intros r Hr. exists Samples.offline. unfold Flaky.third_time.
    destruct (r <? 2)%Z eqn:E; [reflexivity|]. apply Z.ltb_ge in E. lia.
  - reflexivity.
Defined.

(** ** One output per operator *)

Lemma single_shot_after {S} (processed : S -> bool) (id name : string) (flag : bool)
    (ev : event) (s s0 : S) (t0 : trace) (o : res DoraStatus * S * trace) :
  outputs t0 = [] -> processed s0 = processed s ->
  single_shot processed id name flag ev s0 o ->
  single_shot processed id name flag ev s (after t0 o).
Proof.
  destruct o as [[r s'] t]. cbn. intros H0 Hp [Hm Ho]. rewrite Hp in *.
  split; [exact Hm|]. unfold outputs in *. rewrite filter_app, H0. exact Ho.
Qed.

Lemma single_shot_quiet {S} (processed : S -> bool) (id name : string) (flag : bool)
    (ev : event) (s s' : S) (r : res DoraStatus) (t : trace) :
  outputs t = [] -> (processed s = true -> processed s' = true) ->
  single_shot processed id name flag ev s (r, s', t).
Proof. intros Ho Hm. split; [exact Hm | now left]. Qed.

(** Over any sequence of events, whatever the outside answers: at most one
    output, and none once the flag is set. *)
Lemma deliver_single_shot {S W} (processed : S -> bool) (id name : string) (flag : bool)
    (on_event : W -> event -> M S DoraStatus) :
  (forall w ev s, single_shot processed id name flag ev s (on_event w ev s)) ->
  forall events s,
    (processed s = true -> outputs (snd (deliver on_event events s)) = []) /\
    (List.length (outputs (snd (deliver on_event events s))) <= 1)%nat /\
    (processed s = true -> processed (fst (deliver on_event events s)) = true).
Proof.
  intros Hev. induction events as [|[w ev] events IH]; intros s; [cbn; auto|].
  cbn [deliver]. specialize (Hev w ev s).
  destruct (on_event w ev s) as [[r s'] t]. destruct Hev as [Hm Ho].
  specialize (IH s'). destruct (deliver on_event events s') as [s'' t'].
  cbn [fst snd] in *. destruct IH as (I1 & I2 & I3).
  unfold outputs in *. rewrite filter_app.
  split; [|split].
  - intros Hp. destruct Ho as [-> | (x & _ & _ & Hf & _)]; [|congruence].
    cbn [app]. auto.
  - destruct Ho as [-> | (x & -> & _ & _ & Hp')]; [exact I2|].
    rewrite (I1 Hp'). cbn. lia.
  - auto.
Qed.

Section PrepSingleShot.
Import DataPrep.
Variable w : world.

Lemma prep_main_logic_outputs (md : pyval) (s : Operator) :
  match main_logic w md s with
  | (r, s', t) =>
      outputs t = [] \/
      exists result,
        outputs t = [SendOutput "unique_contexts_dir"
                       (Envelope.create_agent_output "data_prep" result false) md] /\
        r = Ret STOP /\ processed s' = true
  end.
Proof.
  unfold main_logic. rewrite run_get.
  destruct (py_getitem (config s) "DOWNLOAD_DIR") as [dd|e1];
    [rewrite run_lift | rewrite run_lift_raise; now left].
  destruct (py_getitem (config s) "OUTPUT_DIR") as [od|e1];
    [rewrite run_lift | rewrite run_lift_raise; now left].
  destruct (py_getitem (config s) "DATASET_REPO_ID") as [ds|e1];
    [rewrite run_lift | rewrite run_lift_raise; now left].
  destruct (py_get (config s) "SKIP_DOWNLOAD" (PBool false)) as [skip|e1];
    [rewrite run_lift | rewrite run_lift_raise; now left].
  pose proof (prep_step_avoids w skip ds dd s) as Ho.
  destruct ((if negb (truthy skip) then download_dataset w ds dd else check_existing w dd) s)
    as [[[b|e1] s1] t1] eqn:E; cbn [snd] in Ho.
  - rewrite (run_bind _ _ _ _ _ _ E). destruct b.
    + rewrite run_log, run_emit.
      destruct (extract_unique_contexts w dd od) as [[]|e2]; cbn;
        unfold outputs in *; rewrite ?filter_app, ?Ho; cbn;
        first [ now left | right; exists od; now repeat split ].
    + cbn. left. unfold outputs in *. now rewrite filter_app, Ho.
  - rewrite (run_bind_raise _ _ _ _ _ _ E). now left.
Qed.

Lemma prep_single_shot (ev : event) (s : Operator) :
  single_shot processed "unique_contexts_dir" "data_prep" false ev s (on_event w ev s).
Proof.
  destruct ev as [id v md| | |]; try (apply single_shot_quiet; [reflexivity | auto]).
  destruct (processed s) eqn:Hp.
  - rewrite prep_done_ignores by (reflexivity || exact Hp).
    apply single_shot_quiet; [reflexivity | auto].
  - unfold on_event. rewrite run_get, Hp, run_log.
    pose proof (prep_load_config_avoids is_output is_output_silent w s) as Ho.
    destruct ((if negb (truthy (config s)) then load_config w else ret true) s)
      as [[[b|e] s1] t1] eqn:E.
    + assert (Ho1 : outputs t1 = []).
      { destruct (negb (truthy (config s))); [now rewrite E in Ho|].
        now injection E as _ _ <-. }
      rewrite (run_bind _ _ _ _ _ _ E). rewrite after_after.
      destruct b; cbn [negb].
      * pose proof (prep_main_logic_outputs md s1) as Hm.
        pose proof (prep_main_logic_raise w md s1) as Hr.
        destruct (main_logic w md s1) as [[[r|e] s2] t2] eqn:Em.
        -- rewrite (run_try_ret _ _ _ _ _ _ Em). cbn [after].
           split; [congruence|]. unfold outputs in *.
           rewrite !filter_app, Ho1. cbn [filter is_output app].
           destruct Hm as [Hm | (x & Hm & -> & Hp2)]; [now left|].
           right. exists x. rewrite Hm. now repeat split.
        -- rewrite (run_try_raise _ _ _ _ _ _ Em). cbn.
           split; [congruence|]. left. unfold outputs in *.
           now rewrite !filter_app, Ho1, Hr.
      * cbn. split; [congruence|]. left. unfold outputs in *.
        now rewrite filter_app, Ho1.
    + assert (Ho1 : outputs t1 = []).
      { destruct (negb (truthy (config s))); [now rewrite E in Ho|]. discriminate. }
      rewrite (run_bind_raise _ _ _ _ _ _ E). cbn. split; [congruence|]. left.
      unfold outputs in *. now rewrite Ho1.
Qed.

End PrepSingleShot.
Section GenSingleShot.
Import QuestionGen.
Variable w : world.

Lemma gen_single_shot (ev : event) (s : Operator) :
  single_shot processed "generated_questions_file" "question_generator" false ev s
    (on_event w ev s).
Proof.
  destruct ev as [id v md| | |]; try (apply single_shot_quiet; [reflexivity | auto]).
  destruct (processed s) eqn:Hp.
  - destruct (gen_done_ignores w (INPUT id v md) s eq_refl Hp) as (t & -> & Ht).
    apply single_shot_quiet; [|auto].
    unfold outputs. rewrite <- (filter_actions is_output) by (intros [] ?; easy).
    now rewrite Ht.
  - unfold on_event. rewrite run_log.
    destruct (String.eqb id "unique_contexts_dir");
      [|apply single_shot_quiet; [reflexivity | congruence]].
    rewrite run_get, Hp, run_log, after_after.
    pose proof (gen_config_step_avoids w s) as Ho1.
    destruct ((if negb (truthy (config s)) then load_config w else ret true) s)
      as [[[b|e] s1] t1] eqn:E1; cbn [snd] in Ho1;
      [rewrite (run_bind _ _ _ _ _ _ E1)
      |rewrite (run_bind_raise _ _ _ _ _ _ E1); cbn; split; [congruence|]; left;
       unfold outputs in *; now rewrite Ho1].
    rewrite after_after.
    destruct b; cbn [negb];
      [|cbn; split; [congruence|]; left; unfold outputs in *; now rewrite filter_app, Ho1].
    rewrite run_get.
    pose proof (gen_setup_step_avoids w s1) as Ho2.
    destruct ((if negb (tokenizer s1) || negb (llm_client s1)
               then _setup_dependencies w else ret true) s1)
      as [[[b|e] s2] t2] eqn:E2; cbn [snd] in Ho2;
      [rewrite (run_bind _ _ _ _ _ _ E2)
      |rewrite (run_bind_raise _ _ _ _ _ _ E2); cbn; split; [congruence|]; left;
       unfold outputs in *; now rewrite !filter_app, Ho1, Ho2].
    rewrite after_after.
    destruct b; cbn [negb];
      [|cbn; split; [congruence|]; left; unfold outputs in *;
        now rewrite !filter_app, Ho1, Ho2].
    pose proof (gen_run_until_complete_avoids is_output is_output_silent w v s2) as Ho3.
    destruct (run_until_complete w v s2) as [[[path|e] s3] t3] eqn:E3; cbn [snd] in Ho3;
      [rewrite (run_bind _ _ _ _ _ _ E3)
      |rewrite (run_bind_raise _ _ _ _ _ _ E3); cbn; split; [congruence|]; left;
       unfold outputs in *; now rewrite !filter_app, Ho1, Ho2, Ho3].
    destruct (truthy path); cbn; (split; [congruence|]); unfold outputs in *;
      rewrite !filter_app, Ho1, Ho2, Ho3; cbn.
    + right. exists path. now repeat split.
    + now left.
Qed.

End GenSingleShot.

Section IndexSingleShot.
Import RagIndex.
Variable w : world.

Lemma index_single_shot (ev : event) (s : Operator) :
  single_shot processed "rag_index_dir" "rag_indexer" false ev s (on_event w ev s).
Proof.
  destruct ev as [id v md| | |]; try (apply single_shot_quiet; [reflexivity | auto]).
  destruct (processed s) eqn:Hp.
  - destruct (index_done_ignores w (INPUT id v md) s eq_refl Hp) as (t & -> & Ht).
    apply single_shot_quiet; [|auto].
    unfold outputs. rewrite <- (filter_actions is_output) by (intros [] ?; easy).
    now rewrite Ht.
  - unfold on_event. rewrite run_log.
    destruct (String.eqb id "unique_contexts_dir");
      [|apply single_shot_quiet; [reflexivity | congruence]].
    rewrite run_get, Hp, run_log, after_after.
    pose proof (index_config_step_avoids w s) as Ho1.
    destruct ((if negb (truthy (config s)) then load_config w else ret true) s)
      as [[[b|e] s1] t1] eqn:E1; cbn [snd] in Ho1;
      [rewrite (run_bind _ _ _ _ _ _ E1)
      |rewrite (run_bind_raise _ _ _ _ _ _ E1); cbn; split; [congruence|]; left;
       unfold outputs in *; now rewrite Ho1].
    rewrite after_after.
    destruct b; cbn [negb];
      [|cbn; split; [congruence|]; left; unfold outputs in *; now rewrite filter_app, Ho1].
    rewrite run_get.
    pose proof (index_setup_step_avoids s1) as Ho2.
    destruct ((if negb (llm_model_func s1) || negb (embedding_func_wrapper s1)
               then _setup_async_funcs else ret true) s1)
      as [[[b|e] s2] t2] eqn:E2; cbn [snd] in Ho2;
      [rewrite (run_bind _ _ _ _ _ _ E2)
      |rewrite (run_bind_raise _ _ _ _ _ _ E2); cbn; split; [congruence|]; left;
       unfold outputs in *; now rewrite !filter_app, Ho1, Ho2].
    rewrite after_after.
    destruct b; cbn [negb];
      [|cbn; split; [congruence|]; left; unfold outputs in *;
        now rewrite !filter_app, Ho1, Ho2].
    pose proof (index_run_until_complete_avoids is_output is_output_silent w v s2) as Ho3.
    destruct (run_until_complete w v s2) as [[[success|e] s3] t3] eqn:E3; cbn [snd] in Ho3;
      [rewrite (run_bind _ _ _ _ _ _ E3)
      |rewrite (run_bind_raise _ _ _ _ _ _ E3); cbn; split; [congruence|]; left;
       unfold outputs in *; now rewrite !filter_app, Ho1, Ho2, Ho3].
    destruct success as [[]|].
    + rewrite run_log, run_get.
      destruct (py_getitem (config s3) "WORKING_DIR") as [wd|e];
        [rewrite run_lift | rewrite run_lift_raise]; cbn; (split; [congruence|]);
        unfold outputs in *; rewrite !filter_app, Ho1, Ho2, Ho3; cbn.
      * right. exists wd. now repeat split.
      * now left.
    + cbn. split; [congruence|]. left. unfold outputs in *.
      now rewrite !filter_app, Ho1, Ho2, Ho3.
    + cbn. split; [congruence|]. left. unfold outputs in *.
      now rewrite !filter_app, Ho1, Ho2, Ho3.
Qed.

End IndexSingleShot.
Section QuerySingleShot.
Import RagQuery.
Variable w : world.

Lemma start_processing_single_shot (ev : event) (s : Operator) :
  processed s = false ->
  single_shot processed "query_results" "rag_query_evaluator" true ev s
    (start_processing w (event_metadata ev) s).
Proof.
  intros Hp. unfold start_processing. rewrite run_log, run_get.
  pose proof (query_config_step_avoids w s) as Ho1.
  destruct ((if negb (truthy (config s)) then load_config w else ret true) s)
    as [[[b|e] s1] t1] eqn:E1; cbn [snd] in Ho1;
    [rewrite (run_bind _ _ _ _ _ _ E1)
    |rewrite (run_bind_raise _ _ _ _ _ _ E1); cbn; split; [congruence|]; left;
     unfold outputs in *; now rewrite Ho1].
  rewrite after_after.
  destruct b; cbn [negb];
    [|cbn; split; [congruence|]; left; unfold outputs in *; now rewrite filter_app, Ho1].
  rewrite run_get.
  pose proof (query_setup_step_avoids s1) as Ho2.
  destruct ((if negb (llm_model_func s1) || negb (embedding_func_wrapper s1)
             then _setup_async_funcs else ret true) s1)
    as [[[b|e] s2] t2] eqn:E2; cbn [snd] in Ho2;
    [rewrite (run_bind _ _ _ _ _ _ E2)
    |rewrite (run_bind_raise _ _ _ _ _ _ E2); cbn; split; [congruence|]; left;
     unfold outputs in *; now rewrite !filter_app, Ho1, Ho2].
  rewrite after_after.
  destruct b; cbn [negb];
    [|cbn; split; [congruence|]; left; unfold outputs in *;
      now rewrite !filter_app, Ho1, Ho2].
  pose proof (run_main_query_task_avoids is_output is_output_silent w s2) as Ho3.
  destruct (run_main_query_task w s2) as [[[paths|e] s3] t3] eqn:E3; cbn [snd] in Ho3;
    [rewrite (run_bind _ _ _ _ _ _ E3)
    |rewrite (run_bind_raise _ _ _ _ _ _ E3); cbn; split; [congruence|]; left;
     unfold outputs in *; now rewrite !filter_app, Ho1, Ho2, Ho3].
  destruct (negb (is_none (fst paths)) && negb (is_none (snd paths))); cbn;
    (split; [congruence|]); unfold outputs in *;
    rewrite !filter_app, Ho1, Ho2, Ho3; cbn.
  - right. eexists. now repeat split.
  - now left.
Qed.

Lemma check_inputs_single_shot (ev : event) (s : Operator) :
  single_shot processed "query_results" "rag_query_evaluator" true ev s
    (check_inputs w (event_metadata ev) s).
Proof.
  destruct (processed s) eqn:Hp.
  - rewrite check_inputs_done by exact Hp. apply single_shot_quiet; [reflexivity | auto].
  - destruct (Barrier.complete s) eqn:Hc.
    + rewrite check_inputs_start by (exact Hc || exact Hp).
      now apply start_processing_single_shot.
    + rewrite check_inputs_waiting by (exact Hc || exact Hp).
      apply single_shot_quiet; [reflexivity | auto].
Qed.

Lemma query_single_shot (ev : event) (s : Operator) :
  single_shot processed "query_results" "rag_query_evaluator" true ev s (on_event w ev s).
Proof.
  destruct ev as [id v md| | |]; try (apply single_shot_quiet; [reflexivity | auto]).
  destruct (String.eqb id Barrier.questions_id) eqn:Eq;
    [apply String.eqb_eq in Eq; subst id|
     destruct (String.eqb id Barrier.index_id) eqn:Ei;
     [apply String.eqb_eq in Ei; subst id|]].
  - destruct (os_path_isfile w (Envelope.load_node_result v)) as [b|e] eqn:Hf.
    + rewrite (on_event_questions w v md s b Hf).
      apply single_shot_after with
        (s0 := if b then Barrier.with_questions (Envelope.load_node_result v) s else s);
        [now destruct b | now destruct b |].
      apply (check_inputs_single_shot (INPUT Barrier.questions_id v md)).
    + unfold on_event. cbn [Barrier.questions_id String.eqb Ascii.eqb Bool.eqb].
      rewrite run_log, Hf, run_lift_raise. apply single_shot_quiet; [reflexivity | auto].
  - destruct (os_path_isdir w (Envelope.load_node_result v)) as [b|e] eqn:Hd.
    + rewrite (on_event_index w v md s b Hd).
      apply single_shot_after with
        (s0 := if b then Barrier.with_index (Envelope.load_node_result v) s else s);
        [now destruct b | now destruct b |].
      apply (check_inputs_single_shot (INPUT Barrier.index_id v md)).
    + unfold on_event. cbn [Barrier.index_id String.eqb Ascii.eqb Bool.eqb].
      rewrite run_log, Hd, run_lift_raise. apply single_shot_quiet; [reflexivity | auto].
  - rewrite (on_event_foreign w (INPUT id v md) s)
      by (cbn [Barrier.foreign]; now rewrite Eq, Ei).
    apply single_shot_quiet; [reflexivity | auto].
Qed.

End QuerySingleShot.

Section LoggerSingleShot.
Import ResultLogger.
Variable w : world.

(** The result logger: the first input, whatever it carries and whatever
    the file system answers, is logged, sets the flag and stops the node;
    no event ever makes it emit an output. *)
Lemma logger_first_input (ev : event) (s : Operator) :
  is_input ev = true -> processed s = false ->
  let '(r, s', t) := on_event w ev s in
  r = Ret STOP /\ processed s' = true /\ actions t = [].
Proof.
  destruct ev as [id v md| | |]; try discriminate. intros _ Hp.
  unfold on_event. rewrite run_get, Hp, run_log. unfold check_file.
  destruct (Envelope.load_node_result v) as [| | | | |items|]; try (cbn; now repeat split).
  destruct (truthy match dict_get "results_file" items with Some x => x | None => PNone end);
    [destruct (os_path_exists w _) as [[]|e]|];
    (destruct (truthy match dict_get "errors_file" items with Some x => x | None => PNone end);
     [destruct (os_path_exists w _) as [[]|e']|]); cbn; now repeat split.
Qed.

End LoggerSingleShot.

(** ** What [extract_queries] returns *)

Section ExtractShape.
Import Regex RegexFacts.

Lemma match_here_cons (a : atom) (pat : list atom) (s : string) :
  match_here (a :: pat) s =
  match rep a with
  | One =>
      match s with
      | String c s' => if cls a c then keep a c (match_here pat s') else None
      | EmptyString => None
      end
  | Many0 => greedy a (match_here pat) s
  | Many1 =>
      match s with
      | String c s' => if cls a c then keep a c (greedy a (match_here pat) s') else None
      | EmptyString => None
      end
  end.
Proof. reflexivity. Qed.

Variable p : ascii -> bool.

Lemma keep_group (a : atom) (c : ascii) (m : option (string * nat)) (g : string) (n : nat) :
  group_in p a -> cls a c = true ->
  keep a c m = Some (g, n) ->
  (forall g' n', m = Some (g', n') -> string_forall p g' = true) ->
  string_forall p g = true.
Proof.
  intros Ha Hc. destruct m as [[g' n']|]; [|discriminate]. cbn [keep].
  intros [= <- <-] Hm. specialize (Hm g' n' eq_refl).
  destruct (grp a) eqn:Hg; [|exact Hm].
  cbn [string_forall]. now rewrite (Ha Hg c Hc), Hm.
Qed.

Lemma greedy_group (a : atom) (k : string -> option (string * nat)) :
  group_in p a ->
  (forall s g n, k s = Some (g, n) -> string_forall p g = true) ->
  forall s g n, greedy a k s = Some (g, n) -> string_forall p g = true.
Proof.
  intros Ha Hk. induction s as [|c s IH]; intros g n; [apply Hk|].
  change (greedy a k (String c s)) with
    (if cls a c then
       match keep a c (greedy a k s) with
       | Some m => Some m
       | None => k (String c s)
       end
     else k (String c s)).
  destruct (cls a c) eqn:Hc; [|apply Hk].
  destruct (keep a c (greedy a k s)) as [m|] eqn:Hkeep; [|apply Hk].
  intros [= ->]. eapply keep_group; eauto.
Qed.

Lemma match_here_group (pat : list atom) :
  Forall (group_in p) pat ->
  forall s g n, match_here pat s = Some (g, n) -> string_forall p g = true.
Proof.
  induction 1 as [|a pat Ha _ IH]; intros s g n.
  - intros [= <- <-]. reflexivity.
  - rewrite match_here_cons. destruct (rep a).
    + destruct s as [|c s]; [discriminate|].
      destruct (cls a c) eqn:Hc; [|discriminate].
      intros Hk. eapply keep_group; eauto.
    + apply greedy_group; assumption.
    + destruct s as [|c s]; [discriminate|].
      destruct (cls a c) eqn:Hc; [|discriminate].
      intros Hk. eapply keep_group; eauto.
      intros g' n'. apply greedy_group; assumption.
Qed.

Lemma findall_from_group (pat : list atom) :
  Forall (group_in p) pat ->
  forall s skip g, In g (findall_from pat skip s) -> string_forall p g = true.
Proof.
  intros Hpat. induction s as [|c s IH]; intros skip g; cbn [findall_from].
  - destruct skip; [|contradiction].
    destruct (match_here pat EmptyString) as [[g' n]|] eqn:Hm; [|contradiction].
    intros [<- | []]. eapply match_here_group; eauto.
  - destruct skip; [|apply IH].
    destruct (match_here pat (String c s)) as [[g' n]|] eqn:Hm; [|apply IH].
    intros [<- | Hin]; [eapply match_here_group; eauto | eapply IH; eauto].
Qed.

End ExtractShape.
Section StripFacts.
Import Regex RegexFacts.

Lemma rstrip_cons (c : ascii) (s : string) :
  rstrip (String c s) =
  match rstrip s with
  | EmptyString => if is_space c then EmptyString else String c EmptyString
  | r => String c r
  end.
Proof. reflexivity. Qed.

Lemma rstrip_idem (s : string) : rstrip (rstrip s) = rstrip s.
Proof.
  induction s as [|c s IH]; [reflexivity|].
  rewrite rstrip_cons. destruct (rstrip s) as [|d r] eqn:Hr.
  - destruct (is_space c) eqn:Hc; [reflexivity|].
    rewrite rstrip_cons. cbn [rstrip]. now rewrite Hc.
  - rewrite rstrip_cons, IH. reflexivity.
Qed.

Lemma rstrip_head (c : ascii) (s : string) :
  is_space c = false -> exists r, rstrip (String c s) = String c r.
Proof.
  intros Hc. rewrite rstrip_cons, Hc. destruct (rstrip s); eauto.
Qed.

Lemma lstrip_strip (s : string) : lstrip (strip s) = strip s.
Proof.
  unfold strip. induction s as [|c s IH]; [reflexivity|].
  cbn [lstrip]. destruct (is_space c) eqn:Hc; [exact IH|].
  destruct (rstrip_head c s Hc) as [r ->]. cbn [lstrip]. now rewrite Hc.
Qed.

Lemma rstrip_strip (s : string) : rstrip (strip s) = strip s.
Proof. apply rstrip_idem. Qed.

Variable p : ascii -> bool.

Lemma lstrip_forall (s : string) :
  string_forall p s = true -> string_forall p (lstrip s) = true.
Proof.
  induction s as [|c s IH]; [trivial|]. cbn [lstrip].
  destruct (is_space c); [|trivial].
  cbn [string_forall]. intros [_ H]%andb_prop. auto.
Qed.

Lemma rstrip_forall (s : string) :
  string_forall p s = true -> string_forall p (rstrip s) = true.
Proof.
  induction s as [|c s IH]; [trivial|].
  cbn [string_forall]. intros [Hc Hs]%andb_prop. specialize (IH Hs).
  rewrite rstrip_cons. destruct (rstrip s) as [|d r].
  - destruct (is_space c); [reflexivity|]. cbn [string_forall]. now rewrite Hc.
  - change (string_forall p (String c (String d r)))
      with (p c && string_forall p (String d r)). now rewrite Hc, IH.
Qed.

Lemma strip_forall (s : string) :
  string_forall p s = true -> string_forall p (strip s) = true.
Proof. intros H. apply rstrip_forall, lstrip_forall, H. Qed.

End StripFacts.

Lemma question_pattern_group :
  Forall (RegexFacts.group_in Regex.is_dot) Regex.question_pattern.
Proof.
  repeat constructor; intros Hg; try discriminate Hg; intros c Hc; exact Hc.
Qed.

(** [extract_queries]: whatever the questions file holds, every query [extract_queries]
    returns is non-empty, has no white space at either end and lies within
    one line (it contains no newline character). *)
Theorem extract_queries_shape (read_file : res string) (q : string) :
  In q (fst (RagQueryExtract.extract_queries read_file)) ->
  q <> EmptyString /\
  Regex.lstrip q = q /\ Regex.rstrip q = q /\
  RegexFacts.string_forall Regex.is_dot q = true.
Proof.
  unfold RagQueryExtract.extract_queries.
  destruct read_file as [data | e]; [|destruct (is_class "FileNotFoundError" e); intros []].
  cbn [fst]. intros Hin. apply in_map_iff in Hin as (g & <- & Hg).
  apply filter_In in Hg as [Hfound Hne].
  split; [|split; [|split]].
  - intros Hq. rewrite Hq in Hne. discriminate.
  - apply lstrip_strip.
  - apply rstrip_strip.
  - apply strip_forall.
    eapply findall_from_group; [exact question_pattern_group | exact Hfound].
Qed.

Lemma extract_queries_shape_witness :
  In "What is X?"
     (fst (RagQueryExtract.extract_queries (Ret Scenario.line1))) /\
  ("What is X?" <> EmptyString /\
   Regex.lstrip "What is X?" = "What is X?" /\
   Regex.rstrip "What is X?" = "What is X?" /\
   RegexFacts.string_forall Regex.is_dot "What is X?" = true).
Proof.
  assert (H : In "What is X?"
                (fst (RagQueryExtract.extract_queries (Ret Scenario.line1))))
    by (vm_compute; left; reflexivity).
  split; [exact H | exact (extract_queries_shape _ _ H)].
Defined.

(** ** Event sequences *)

Lemma deliver_single_shot_form {S W} (processed : S -> bool) (id name : string)
    (flag : bool) (on_event : W -> event -> M S DoraStatus) :
  (forall w ev s, single_shot processed id name flag ev s (on_event w ev s)) ->
  forall events s,
    outputs (snd (deliver on_event events s)) = [] \/
    exists w ev result,
      In (w, ev) events /\
      outputs (snd (deliver on_event events s)) =
        [SendOutput id (Envelope.create_agent_output name result flag) (event_metadata ev)] /\
      processed s = false /\
      processed (fst (deliver on_event events s)) = true.
Proof.
  intros Hev. induction events as [|[w ev] events IH]; intros s; [now left|].
  pose proof (deliver_single_shot processed id name flag on_event Hev events) as Hrest.
  cbn [deliver]. pose proof (Hev w ev s) as H.
  destruct (on_event w ev s) as [[r s'] t]. destruct H as [Hm Ho].
  specialize (IH s'). specialize (Hrest s').
  destruct (deliver on_event events s') as [s'' t'].
  cbn [fst snd] in *. destruct Hrest as (R1 & _ & R3).
  unfold outputs in *. rewrite filter_app.
  destruct Ho as [-> | (x & -> & _ & Hf & Hp')].
  - cbn [app]. destruct IH as [-> | (w' & ev' & x & Hin & -> & Hf & Hp')]; [now left|].
    right. exists w', ev', x. repeat split; auto.
    + now right.
    + destruct (processed s); [|reflexivity]. now rewrite Hm in Hf.
  - right. exists w, ev, x. rewrite (R1 Hp'). repeat split; auto. now left.
Qed.

Lemma deliver_ignored {S W} (processed : S -> bool)
    (on_event : W -> event -> M S DoraStatus) :
  (forall w ev s, processed s = true ->
     exists r t, on_event w ev s = (r, s, t) /\ actions t = []) ->
  forall events s, processed s = true ->
    fst (deliver on_event events s) = s /\
    actions (snd (deliver on_event events s)) = [].
Proof.
  intros Hev. induction events as [|[w ev] events IH]; intros s Hp; [now split|].
  cbn [deliver]. destruct (Hev w ev s Hp) as (r & t & -> & Ht).
  destruct (IH s Hp) as [I1 I2]. destruct (deliver on_event events s) as [s'' t'].
  cbn [fst snd] in *. split; [exact I1|].
  now rewrite actions_app, Ht, I2.
Qed.

(** [data_prep_operator.py]: over any sequence of events, from any state
    and whatever the outside answers, [on_event] sends at most one output;
    if it sends one, it is on [unique_contexts_dir], an envelope of
    [data_prep] that is not final, with the metadata of one of the
    delivered events, the stage was not yet processed and is afterwards. *)
Theorem prep_sends_once (events : list (DataPrep.world * event)) (s : DataPrep.Operator) :
  let t := snd (deliver DataPrep.on_event events s) in
  (List.length (outputs t) <= 1)%nat /\
  (outputs t = [] \/
   exists w ev result,
     In (w, ev) events /\
     outputs t =
       [SendOutput "unique_contexts_dir"
          (Envelope.create_agent_output "data_prep" result false) (event_metadata ev)] /\
     DataPrep.processed s = false /\
     DataPrep.processed (fst (deliver DataPrep.on_event events s)) = true).
Proof.
  split.
  - apply (deliver_single_shot DataPrep.processed _ _ _ DataPrep.on_event prep_single_shot).
  - apply (deliver_single_shot_form DataPrep.processed _ _ _ DataPrep.on_event
             prep_single_shot).
Qed.

(** [question_gen_operator.py]: over any sequence of events, from any state
    and whatever the outside answers, [on_event] sends at most one output;
    if it sends one, it is on [generated_questions_file], an envelope of
    [question_generator] that is not final, with the metadata of one of the
    delivered events, the stage was not yet processed and is afterwards. *)
Theorem gen_sends_once (events : list (QuestionGen.world * event))
    (s : QuestionGen.Operator) :
  let t := snd (deliver QuestionGen.on_event events s) in
  (List.length (outputs t) <= 1)%nat /\
  (outputs t = [] \/
   exists w ev result,
     In (w, ev) events /\
     outputs t =
       [SendOutput "generated_questions_file"
          (Envelope.create_agent_output "question_generator" result false)
          (event_metadata ev)] /\
     QuestionGen.processed s = false /\
     QuestionGen.processed (fst (deliver QuestionGen.on_event events s)) = true).
Proof.
  split.
  - apply (deliver_single_shot QuestionGen.processed _ _ _ QuestionGen.on_event
             gen_single_shot).
  - apply (deliver_single_shot_form QuestionGen.processed _ _ _ QuestionGen.on_event
             gen_single_shot).
Qed.

(** [rag_index_operator.py]: over any sequence of events, from any state
    and whatever the outside answers, [on_event] sends at most one output;
    if it sends one, it is on [rag_index_dir], an envelope of [rag_indexer]
    that is not final, with the metadata of one of the delivered events,
    the stage was not yet processed and is afterwards. *)
Theorem index_sends_once (events : list (RagIndex.world * event)) (s : RagIndex.Operator) :
  let t := snd (deliver RagIndex.on_event events s) in
  (List.length (outputs t) <= 1)%nat /\
  (outputs t = [] \/
   exists w ev result,
     In (w, ev) events /\
     outputs t =
       [SendOutput "rag_index_dir"
          (Envelope.create_agent_output "rag_indexer" result false) (event_metadata ev)] /\
     RagIndex.processed s = false /\
     RagIndex.processed (fst (deliver RagIndex.on_event events s)) = true).
Proof.
  split.
  - apply (deliver_single_shot RagIndex.processed _ _ _ RagIndex.on_event
             index_single_shot).
  - apply (deliver_single_shot_form RagIndex.processed _ _ _ RagIndex.on_event
             index_single_shot).
Qed.

(** [rag_query_operator.py]: over any sequence of events, from any state
    and whatever the outside answers, [on_event] sends at most one output;
    if it sends one, it is on [query_results], an envelope of
    [rag_query_evaluator] marked final, with the metadata of one of the
    delivered events, the stage was not yet processed and is afterwards. *)
Theorem query_sends_once (events : list (RagQuery.world * event)) (s : RagQuery.Operator) :
  let t := snd (deliver RagQuery.on_event events s) in
  (List.length (outputs t) <= 1)%nat /\
  (outputs t = [] \/
   exists w ev result,
     In (w, ev) events /\
     outputs t =
       [SendOutput "query_results"
          (Envelope.create_agent_output "rag_query_evaluator" result true)
          (event_metadata ev)] /\
     RagQuery.processed s = false /\
     RagQuery.processed (fst (deliver RagQuery.on_event events s)) = true).
Proof.
  split.
  - apply (deliver_single_shot RagQuery.processed _ _ _ RagQuery.on_event
             query_single_shot).
  - apply (deliver_single_shot_form RagQuery.processed _ _ _ RagQuery.on_event
             query_single_shot).
Qed.
(** ** After the flag is set *)

Lemma prep_done_quiet (w : DataPrep.world) (ev : event) (s : DataPrep.Operator) :
  DataPrep.processed s = true ->
  exists r t, DataPrep.on_event w ev s = (r, s, t) /\ actions t = [].
Proof.
  intros Hp. destruct ev as [id v md| | |];
    [rewrite (prep_done_ignores w (INPUT id v md) s eq_refl Hp)| | |];
    do 2 eexists; split; reflexivity.
Qed.

Lemma gen_done_quiet (w : QuestionGen.world) (ev : event) (s : QuestionGen.Operator) :
  QuestionGen.processed s = true ->
  exists r t, QuestionGen.on_event w ev s = (r, s, t) /\ actions t = [].
Proof.
  intros Hp. destruct ev as [id v md| | |];
    [destruct (gen_done_ignores w (INPUT id v md) s eq_refl Hp) as (t & -> & Ht); eauto| | |];
    do 2 eexists; split; reflexivity.
Qed.

Lemma index_done_quiet (w : RagIndex.world) (ev : event) (s : RagIndex.Operator) :
  RagIndex.processed s = true ->
  exists r t, RagIndex.on_event w ev s = (r, s, t) /\ actions t = [].
Proof.
  intros Hp. destruct ev as [id v md| | |];
    [destruct (index_done_ignores w (INPUT id v md) s eq_refl Hp) as (t & -> & Ht); eauto| | |];
    do 2 eexists; split; reflexivity.
Qed.

Lemma logger_done_quiet (w : ResultLogger.world) (ev : event) (s : ResultLogger.Operator) :
  ResultLogger.processed s = true ->
  exists r t, ResultLogger.on_event w ev s = (r, s, t) /\ actions t = [].
Proof.
  intros Hp. destruct ev as [id v md| | |];
    [rewrite (logger_done_ignores w (INPUT id v md) s eq_refl Hp)| | |];
    do 2 eexists; split; reflexivity.
Qed.

(** [data_prep_operator.py]: once [processed] is set, no sequence of events
    changes the operator or makes it do anything but write log records,
    whatever the events carry and whatever the outside answers. *)
Theorem prep_done_is_final (events : list (DataPrep.world * event)) (s : DataPrep.Operator) :
  DataPrep.processed s = true ->
  fst (deliver DataPrep.on_event events s) = s /\
  actions (snd (deliver DataPrep.on_event events s)) = [].
Proof. apply (deliver_ignored DataPrep.processed DataPrep.on_event prep_done_quiet). Qed.

Lemma prep_done_is_final_witness :
  let done := {| DataPrep.config := PrepSamples.section; DataPrep.processed := true |} in
  let events := [ (PrepSamples.world_with Flaky.download PNone, PrepSamples.trigger);
                  (PrepSamples.world_with Samples.no_copy PNone, STOP_EVENT);
                  (PrepSamples.world_with Samples.stale_copy PNone, PrepSamples.trigger) ] in
  DataPrep.processed done = true /\
  fst (deliver DataPrep.on_event events done) = done /\
  actions (snd (deliver DataPrep.on_event events done)) = [].
Proof.
  cbv zeta. split; [reflexivity|]. apply prep_done_is_final. reflexivity.
Defined.

(** [question_gen_operator.py]: once [processed] is set, no sequence of
    events changes the operator or makes it do anything but write log
    records, whatever the events carry and whatever the outside answers. *)
Theorem gen_done_is_final (events : list (QuestionGen.world * event))
    (s : QuestionGen.Operator) :
  QuestionGen.processed s = true ->
  fst (deliver QuestionGen.on_event events s) = s /\
  actions (snd (deliver QuestionGen.on_event events s)) = [].
Proof. apply (deliver_ignored QuestionGen.processed QuestionGen.on_event gen_done_quiet). Qed.

Lemma gen_done_is_final_witness :
  let done := snd (fst (QuestionGen.set_processed true QuestionGen.init)) in
  let events := [ (GenSamples.no_llm, GenSamples.offer_contexts);
                  (GenSamples.no_tokenizer, ERROR_EVENT (PStr "boom"));
                  (GenSamples.no_tokenizer, GenSamples.offer_contexts) ] in
  QuestionGen.processed done = true /\
  fst (deliver QuestionGen.on_event events done) = done /\
  actions (snd (deliver QuestionGen.on_event events done)) = [].
Proof.
  cbv zeta. split; [reflexivity|]. apply gen_done_is_final. reflexivity.
Defined.

(** [rag_index_operator.py]: once [processed] is set, no sequence of events
    changes the operator or makes it do anything but write log records,
    whatever the events carry and whatever the outside answers. *)
Theorem index_done_is_final (events : list (RagIndex.world * event)) (s : RagIndex.Operator) :
  RagIndex.processed s = true ->
  fst (deliver RagIndex.on_event events s) = s /\
  actions (snd (deliver RagIndex.on_event events s)) = [].
Proof. apply (deliver_ignored RagIndex.processed RagIndex.on_event index_done_quiet). Qed.

Lemma index_done_is_final_witness :
  let done := snd (fst (RagIndex.set_processed true RagIndex.init)) in
  let w := {| RagIndex.read_yaml := Ret PNone;
              RagIndex.join_script_dir_parent := fun rel => String.append "/app/" rel;
              RagIndex.os_makedirs := fun _ => Ret tt;
              RagIndex.loop_refuses := None;
              RagIndex.lightrag_new := fun _ => Ret tt;
              RagIndex.initialize_storages := Ret tt;
              RagIndex.os_path_isdir := fun _ => Ret true;
              RagIndex.glob := fun _ _ => Ret ["/app/contexts/mix_unique_contexts.json"];
              RagIndex.json_load := fun _ => Ret (PList [PStr "a context"]);
              RagIndex.insert := fun _ _ => Ret tt |} in
  let events := [ (w, GenSamples.offer_contexts); (w, STOP_EVENT);
                  (w, GenSamples.offer_contexts) ] in
  RagIndex.processed done = true /\
  fst (deliver RagIndex.on_event events done) = done /\
  actions (snd (deliver RagIndex.on_event events done)) = [].
Proof.
  cbv zeta. split; [reflexivity|]. apply index_done_is_final. reflexivity.
Defined.

Lemma logger_flag_set (events : list (ResultLogger.world * event)) :
  forall s : ResultLogger.Operator,
    ResultLogger.processed s = true \/
    (exists w ev, In (w, ev) events /\ is_input ev = true) ->
    ResultLogger.processed (fst (deliver ResultLogger.on_event events s)) = true.
Proof.
  induction events as [|[w ev] events IH]; intros s H.
  - destruct H as [H | (w & ev & [] & _)]. exact H.
  - cbn [deliver].
    destruct (ResultLogger.processed s) eqn:Hp.
    + destruct (logger_done_quiet w ev s Hp) as (r & t & -> & _).
      specialize (IH s (or_introl Hp)).
      destruct (deliver ResultLogger.on_event events s) as [s'' t']. exact IH.
    + destruct (is_input ev) eqn:Hi.
      * pose proof (logger_first_input w ev s Hi Hp) as Hf.
        destruct (ResultLogger.on_event w ev s) as [[r s'] t].
        destruct Hf as (_ & Hp' & _). specialize (IH s' (or_introl Hp')).
        destruct (deliver ResultLogger.on_event events s') as [s'' t']. exact IH.
      * assert (Hs : exists r t, ResultLogger.on_event w ev s = (r, s, t))
          by (destruct ev; [discriminate| | |]; do 2 eexists; reflexivity).
        destruct Hs as (r & t & ->).
        assert (Hrest : exists w' ev', In (w', ev') events /\ is_input ev' = true).
        { destruct H as [H | (w' & ev' & [Heq | Hin] & Hi')]; [congruence| |eauto].
          injection Heq as <- <-. congruence. }
        specialize (IH s (or_intror Hrest)).
        destruct (deliver ResultLogger.on_event events s) as [s'' t']. exact IH.
Qed.

Lemma logger_deliver_quiet (events : list (ResultLogger.world * event)) :
  forall s : ResultLogger.Operator,
    actions (snd (deliver ResultLogger.on_event events s)) = [].
Proof.
  induction events as [|[w ev] events IH]; intros s; [reflexivity|].
  cbn [deliver].
  assert (Ht : actions (snd (ResultLogger.on_event w ev s)) = []).
  { destruct (ResultLogger.processed s) eqn:Hp.
    - destruct (logger_done_quiet w ev s Hp) as (r & t & -> & Ht). exact Ht.
    - destruct (is_input ev) eqn:Hi.
      + pose proof (logger_first_input w ev s Hi Hp) as Hf.
        destruct (ResultLogger.on_event w ev s) as [[r s'] t]. apply Hf.
      + destruct ev; [discriminate| | |]; reflexivity. }
  destruct (ResultLogger.on_event w ev s) as [[r s'] t]. specialize (IH s').
  destruct (deliver ResultLogger.on_event events s') as [s'' t'].
  cbn [snd] in *. now rewrite actions_app, Ht, IH.
Qed.

(** [result_logger_operator.py]: a sequence of events that holds an input
    event leaves the logger processed, from any state, whatever the input
    carries and whatever the file system answers; and the logger does
    nothing but write log records: no output, no file written. *)
Theorem logger_logs_once (events : list (ResultLogger.world * event))
    (s : ResultLogger.Operator) (w : ResultLogger.world) (ev : event) :
  In (w, ev) events -> is_input ev = true ->
  ResultLogger.processed (fst (deliver ResultLogger.on_event events s)) = true /\
  actions (snd (deliver ResultLogger.on_event events s)) = [].
Proof.
  intros Hin Hi. split; [|apply logger_deliver_quiet].
  apply logger_flag_set. right. eauto.
Qed.

Lemma logger_logs_once_witness :
  let w := {| ResultLogger.os_path_exists :=
                fun _ => Raise (Exception "PermissionError" "denied") |} in
  let ev := INPUT "query_results"
              (Envelope.create_agent_output "rag_query_evaluator"
                 (PDict [("results_file", PStr "/app/out/results.json");
                         ("errors_file", PNone)]) true)
              (PStr "meta") in
  let events := [(w, STOP_EVENT); (w, ev); (w, ev)] in
  In (w, ev) events /\ is_input ev = true /\
  ResultLogger.processed (fst (deliver ResultLogger.on_event events ResultLogger.init)) = true /\
  actions (snd (deliver ResultLogger.on_event events ResultLogger.init)) = [].
Proof.
  cbv zeta. split; [right; left; reflexivity|]. split; [reflexivity|].
  eapply logger_logs_once; [right; left; reflexivity | reflexivity].
Defined.

(** ** rag_index_operator.py: insertion of context files *)

Section InsertFacts.
Import RagIndex.
Variable w : world.
Variable file : string.
Variables (max_retries retry_delay : Z).

Let loop := insert_loop w file (PInt max_retries) (PInt retry_delay).

Lemma insert_loop_succeeds (j : nat) :
  forall (fuel : nat) (retries : Z),
    (forall r, (retries <= r < retries + Z.of_nat j)%Z ->
               exists e, insert w file r = Raise e) ->
    insert w file (retries + Z.of_nat j)%Z = Ret tt ->
    (retries + Z.of_nat j < max_retries)%Z ->
    (j < fuel)%nat ->
    exists t,
      loop fuel retries = Some (Ret true, t) /\
      actions t = retry_schedule (RagInsert file) retry_delay (S j).
Proof.
  subst loop.
  induction j as [|j IH]; intros fuel retries Hfail Hok Hlt Hf;
    (destruct fuel as [|fuel]; [lia|]);
    cbn [insert_loop py_int_lt py_as_int asyncio_sleep_py];
    (assert (Hlt0 : (retries <? max_retries)%Z = true) by (apply Z.ltb_lt; lia));
    rewrite Hlt0.
  - replace (retries + Z.of_nat 0)%Z with retries in Hok by lia. rewrite Hok.
    eexists; split; reflexivity.
  - destruct (Hfail retries ltac:(lia)) as [e ->].
    assert (Hlt' : (retries + 1 <? max_retries)%Z = true) by (apply Z.ltb_lt; lia).
    rewrite Hlt'.
    destruct (IH fuel (retries + 1)%Z) as (t & -> & Ht).
    + intros r Hr. apply Hfail. lia.
    + replace (retries + 1 + Z.of_nat j)%Z with (retries + Z.of_nat (S j))%Z by lia.
      exact Hok.
    + lia.
    + lia.
    + eexists; split; [reflexivity|]. rewrite !actions_app, Ht. reflexivity.
Qed.

Hypothesis always_fails : forall r, exists e, insert w file r = Raise e.

Lemma insert_loop_all_fail (k : nat) :
  forall (fuel : nat) (retries : Z),
    Z.to_nat (max_retries - retries) = k ->
    (k < fuel)%nat ->
    exists t,
      loop fuel retries = Some (Ret false, t) /\
      actions t = retry_schedule (RagInsert file) retry_delay k.
Proof.
  subst loop.
  induction k as [|k IH]; intros fuel retries Hk Hf;
    (destruct fuel as [|fuel]; [lia|]);
    cbn [insert_loop py_int_lt py_as_int asyncio_sleep_py].
  - assert (Hlt : (retries <? max_retries)%Z = false) by (apply Z.ltb_ge; lia).
    rewrite Hlt. eexists; split; reflexivity.
  - assert (Hlt : (retries <? max_retries)%Z = true) by (apply Z.ltb_lt; lia).
    rewrite Hlt. destruct (always_fails retries) as [e ->].
    destruct (retries + 1 <? max_retries)%Z eqn:Hlt'.
    + apply Z.ltb_lt in Hlt'.
      destruct (IH fuel (retries + 1)%Z) as (t & -> & Ht); [lia | lia |].
      eexists; split; [reflexivity|].
      rewrite !actions_app, Ht. destruct k; [lia | reflexivity].
    + apply Z.ltb_ge in Hlt'. assert (k = 0%nat) as -> by lia.
      eexists; split; reflexivity.
Qed.

End InsertFacts.

Section InsertContexts.
Import RagIndex.
Variable w : world.

Lemma insert_loop_true (file : string) (mr rd : pyval) :
  forall (fuel : nat) (retries : Z) (t : trace),
    insert_loop w file mr rd fuel retries = Some (Ret true, t) ->
    exists r, insert w file r = Ret tt.
Proof.
  induction fuel as [|fuel IH]; intros retries t; cbn [insert_loop]; [discriminate|].
  destruct (py_int_lt retries mr) as [[]|]; try discriminate.
  destruct (insert w file retries) as [[]|e] eqn:Hi; [eauto|].
  destruct (py_int_lt (retries + 1) mr) as [[]|]; try discriminate.
  destruct (asyncio_sleep_py rd); [|discriminate].
  destruct (insert_loop w file mr rd fuel (retries + 1)%Z) as [[r t']|] eqn:Hl;
    [|discriminate].
  intros [= -> _]. eapply IH, Hl.
Qed.

Lemma run_insert_loop_state (file : string) (mr rd : pyval) (s : Operator) :
  exists r t,
    run_insert_loop w file mr rd s = (r, s, t) /\
    (r = Ret true -> exists k, insert w file k = Ret tt).
Proof.
  unfold run_insert_loop.
  match goal with |- context [insert_loop w file mr rd ?f ?r] =>
    destruct (insert_loop w file mr rd f r) as [[r' t']|] eqn:Hl end.
  - exists r', t'. split; [reflexivity|]. intros ->. eapply insert_loop_true, Hl.
  - do 2 eexists. split; [reflexivity | discriminate].
Qed.

Lemma insert_contexts_answers_aux (file : string) (s : Operator) :
  exists b t,
    _insert_contexts_from_file w file s = (Ret b, s, t) /\
    (actions t = [] \/
     rag_instance s <> None /\ exists c cs, json_load w file = Ret (PList (c :: cs))) /\
    (b = true ->
     rag_instance s <> None /\
     exists l, json_load w file = Ret (PList l) /\
               (l = [] \/ exists r, insert w file r = Ret tt)).
Proof.
  unfold _insert_contexts_from_file. rewrite run_get.
  destruct (rag_instance s) as [inst|] eqn:Hinst.
  2:{ do 2 eexists. split; [reflexivity|]. split; [now left | discriminate]. }
  rewrite run_log. unfold try_except.
  destruct (json_load w file) as [v|e] eqn:Hj.
  2:{ rewrite run_lift_raise.
      destruct (is_class "FileNotFoundError" e); [|destruct (is_class "JSONDecodeError" e)];
        (do 2 eexists; split; [reflexivity|]; split; [now left | discriminate]). }
  rewrite run_lift.
  destruct v as [| | | |l| |]; try destruct l as [|c cs];
    try (do 2 eexists; split; [reflexivity|]; split; [now left | discriminate]).
  - do 2 eexists. split; [reflexivity|]. split; [now left|]. intros _.
    split; [discriminate|]. exists []. split; [reflexivity | now left].
  - rewrite run_log.
    assert (Hright : Some inst <> None /\
              exists c0 cs0, Ret (PList (c :: cs)) = Ret (PList (c0 :: cs0)))
      by (split; [discriminate | eauto]).
    destruct (py_get (config s) "INSERT_MAX_RETRIES" (PInt 3)) as [mr|e1].
    2:{ rewrite run_lift_raise. cbn.
        destruct (is_class "FileNotFoundError" e1); [|destruct (is_class "JSONDecodeError" e1)];
          (do 2 eexists; split; [reflexivity|]; split; [now right | discriminate]). }
    rewrite run_lift.
    destruct (py_get (config s) "INSERT_RETRY_DELAY" (PInt 10)) as [rd|e1].
    2:{ rewrite run_lift_raise. cbn.
        destruct (is_class "FileNotFoundError" e1); [|destruct (is_class "JSONDecodeError" e1)];
          (do 2 eexists; split; [reflexivity|]; split; [now right | discriminate]). }
    rewrite run_lift.
    destruct (run_insert_loop_state file mr rd s) as (r & t & -> & Hr).
    destruct r as [b|e1]; cbn.
    + do 2 eexists. split; [reflexivity|]. split; [now right|].
      intros ->. split; [discriminate|]. exists (c :: cs). split; [reflexivity|].
      right. now apply Hr.
    + destruct (is_class "FileNotFoundError" e1); [|destruct (is_class "JSONDecodeError" e1)];
        (do 2 eexists; split; [reflexivity|]; split; [now right | discriminate]).
Qed.

End InsertContexts.
(** [_insert_contexts_from_file], with an instance and a non-empty list of
    contexts in the file: when attempts 1..k-1 of [insert] raise and
    attempt k succeeds (k <= INSERT_MAX_RETRIES), the function returns
    [True] after exactly k insertions and k-1 waits of INSERT_RETRY_DELAY,
    and leaves the operator as it was. *)
Theorem insert_contexts_succeeds_at
    (w : RagIndex.world) (file : string) (s : RagIndex.Operator) (inst c : pyval)
    (cs : list pyval) (max_retries retry_delay : Z) (k : nat) :
  RagIndex.rag_instance s = Some inst ->
  RagIndex.json_load w file = Ret (PList (c :: cs)) ->
  py_get (RagIndex.config s) "INSERT_MAX_RETRIES" (PInt 3) = Ret (PInt max_retries) ->
  py_get (RagIndex.config s) "INSERT_RETRY_DELAY" (PInt 10) = Ret (PInt retry_delay) ->
  (Z.of_nat (S k) <= max_retries)%Z ->
  (forall r, (0 <= r < Z.of_nat k)%Z -> exists e, RagIndex.insert w file r = Raise e) ->
  RagIndex.insert w file (Z.of_nat k) = Ret tt ->
  exists t,
    RagIndex._insert_contexts_from_file w file s = (Ret true, s, t) /\
    retried (RagInsert file) retry_delay (S k) t.
Proof.
  intros Hinst Hj Hm Hd Hk Hfail Hok. unfold RagIndex._insert_contexts_from_file.
  rewrite run_get, Hinst, run_log. unfold try_except.
  rewrite Hj, run_lift, run_log, Hm, run_lift, Hd, run_lift.
  unfold RagIndex.run_insert_loop. cbn [py_as_int].
  destruct (insert_loop_succeeds w file max_retries retry_delay k
              (S (Z.to_nat max_retries)) 0%Z) as (t & -> & Ht);
    [exact Hfail | exact Hok | lia | lia |].
  cbn. eexists. split; [reflexivity|].
  apply retried_of_actions; [reflexivity | exact Ht].
Qed.

Lemma insert_contexts_succeeds_at_witness :
  let w := IndexSamples.world_with (fun _ => Flaky.third_time tt) in
  exists t,
    RagIndex._insert_contexts_from_file w "a.json" IndexSamples.ready
      = (Ret true, IndexSamples.ready, t) /\
    retried (RagInsert "a.json") 10 3 t.
Proof.
  apply (insert_contexts_succeeds_at (IndexSamples.world_with (fun _ => Flaky.third_time tt))
           "a.json" IndexSamples.ready (PStr "/app/index") (PStr "a context") [] 3 10 2).
  - reflexivity.
  - reflexivity.
  - reflexivity.
  - reflexivity.
  - lia.
  - intros r Hr. exists Samples.offline. cbn. unfold Flaky.third_time.
    destruct (r <? 2)%Z eqn:E; [reflexivity|]. apply Z.ltb_ge in E. lia.
  - reflexivity.
Defined.

(** [_insert_contexts_from_file], with an instance and a non-empty list of
    contexts in the file: when every attempt of [insert] raises, the
    function returns [False] (it does not raise) after exactly
    INSERT_MAX_RETRIES insertions, none when that setting is zero or
    negative, with one wait of INSERT_RETRY_DELAY between consecutive
    attempts, and leaves the operator as it was. *)
Theorem insert_contexts_exhausted
    (w : RagIndex.world) (file : string) (s : RagIndex.Operator) (inst c : pyval)
    (cs : list pyval) (max_retries retry_delay : Z) :
  RagIndex.rag_instance s = Some inst ->
  RagIndex.json_load w file = Ret (PList (c :: cs)) ->
  py_get (RagIndex.config s) "INSERT_MAX_RETRIES" (PInt 3) = Ret (PInt max_retries) ->
  py_get (RagIndex.config s) "INSERT_RETRY_DELAY" (PInt 10) = Ret (PInt retry_delay) ->
  (forall r, exists e, RagIndex.insert w file r = Raise e) ->
  exists t,
    RagIndex._insert_contexts_from_file w file s = (Ret false, s, t) /\
    retried (RagInsert file) retry_delay (Z.to_nat max_retries) t.
Proof.
  intros Hinst Hj Hm Hd Hfail. unfold RagIndex._insert_contexts_from_file.
  rewrite run_get, Hinst, run_log. unfold try_except.
  rewrite Hj, run_lift, run_log, Hm, run_lift, Hd, run_lift.
  unfold RagIndex.run_insert_loop. cbn [py_as_int].
  destruct (insert_loop_all_fail w file max_retries retry_delay Hfail
              (Z.to_nat max_retries) (S (Z.to_nat max_retries)) 0%Z) as (t & -> & Ht);
    [lia | lia |].
  cbn. eexists. split; [reflexivity|].
  apply retried_of_actions; [reflexivity | exact Ht].
Qed.

Lemma insert_contexts_exhausted_witness :
  let w := IndexSamples.world_with IndexSamples.b_fails in
  exists t,
    RagIndex._insert_contexts_from_file w "b.json" IndexSamples.ready
      = (Ret false, IndexSamples.ready, t) /\
    retried (RagInsert "b.json") 10 3 t.
Proof.
  apply (insert_contexts_exhausted (IndexSamples.world_with IndexSamples.b_fails)
           "b.json" IndexSamples.ready (PStr "/app/index") (PStr "a context") [] 3 10).
  - reflexivity.
  - reflexivity.
  - reflexivity.
  - reflexivity.
  - intros r. exists Samples.offline. reflexivity.
Defined.

(** [_insert_contexts_from_file] never raises and never changes the
    operator, whatever the file holds and however the settings are typed.
    It inserts only with an instance and a non-empty list read from the
    file; it answers [True] only with an instance and a list that is empty
    or for which one insertion attempt succeeded. *)
Theorem insert_contexts_answers (w : RagIndex.world) (file : string)
    (s : RagIndex.Operator) :
  exists b t,
    RagIndex._insert_contexts_from_file w file s = (Ret b, s, t) /\
    (actions t = [] \/
     RagIndex.rag_instance s <> None /\
     exists c cs, RagIndex.json_load w file = Ret (PList (c :: cs))) /\
    (b = true ->
     RagIndex.rag_instance s <> None /\
     exists l, RagIndex.json_load w file = Ret (PList l) /\
               (l = [] \/ exists r, RagIndex.insert w file r = Ret tt)).
Proof. apply insert_contexts_answers_aux. Qed.
Section InsertAll.
Import RagIndex.
Variable w : world.

Lemma insert_all_cons (f : string) (rest : list string) (s : Operator) :
  exists b t,
    _insert_contexts_from_file w f s = (Ret b, s, t) /\
    insert_all w (f :: rest) s =
      if b then after t (insert_all w rest s)
      else (Ret false, s,
            t ++ [Log ERROR "Stopping indexing process due to failure in file: {os.path.basename(file_path)}"]).
Proof.
  destruct (insert_contexts_answers_aux w f s) as (b & t & Hf & _).
  exists b, t. split; [exact Hf|]. cbn [insert_all].
  rewrite (run_bind _ _ _ _ _ _ Hf). destruct b; reflexivity.
Qed.

Lemma insert_all_answers (files : list string) (s : Operator) :
  exists b t,
    insert_all w files s = (Ret b, s, t) /\
    (b = true <->
     forall p, In p files -> fst (fst (_insert_contexts_from_file w p s)) = Ret true).
Proof.
  induction files as [|f rest IH].
  - exists true, []. split; [reflexivity|]. split; [intros _ p [] | reflexivity].
  - destruct (insert_all_cons f rest s) as (b & t & Hf & ->). destruct b.
    + destruct IH as (b' & t' & -> & Hiff). exists b', (t ++ t'). split; [reflexivity|].
      rewrite Hiff. split.
      * intros H p [<- | Hin]; [now rewrite Hf | auto].
      * intros H p Hin. apply H. now right.
    + do 2 eexists. split; [reflexivity|]. split; [discriminate|].
      intros H. specialize (H f (or_introl eq_refl)). rewrite Hf in H. discriminate.
Qed.

(** The loop over the context files stops at the first file whose insertion
    fails: the answer is [False], and what it does is what it does on the
    files up to that one, so no later file is read or inserted. *)
Theorem insert_all_stops_at_first_failure (pre : list string) (f : string)
    (post : list string) (s : Operator) :
  (forall p, In p pre -> fst (fst (_insert_contexts_from_file w p s)) = Ret true) ->
  fst (fst (_insert_contexts_from_file w f s)) = Ret false ->
  insert_all w (pre ++ f :: post) s = insert_all w (pre ++ [f]) s /\
  fst (insert_all w (pre ++ f :: post) s) = (Ret false, s).
Proof.
  intros Hpre Hf. induction pre as [|p pre IH]; cbn [app].
  - destruct (insert_all_cons f post s) as (b & t & E & ->).
    destruct (insert_all_cons f [] s) as (b' & t' & E' & ->).
    rewrite E in E'. injection E' as <- <-. rewrite E in Hf. cbn in Hf.
    injection Hf as ->. now split.
  - destruct (insert_all_cons p (pre ++ f :: post) s) as (b & t & E & ->).
    destruct (insert_all_cons p (pre ++ [f]) s) as (b' & t' & E' & ->).
    rewrite E in E'. injection E' as <- <-.
    pose proof (Hpre p (or_introl eq_refl)) as Hp. rewrite E in Hp. cbn in Hp.
    injection Hp as ->.
    destruct IH as [I1 I2]; [intros q Hq; apply Hpre; now right|].
    rewrite I1. split; [reflexivity|].
    rewrite <- I1. destruct (insert_all w (pre ++ f :: post) s) as [[r s'] t']. exact I2.
Qed.

End InsertAll.

(** The loop over the context files in [main_indexing_task] never raises
    and never changes the operator; it answers [True] exactly when the
    insertion of every file does. *)
Theorem insert_all_true_iff (w : RagIndex.world) (files : list string)
    (s : RagIndex.Operator) :
  exists b t,
    RagIndex.insert_all w files s = (Ret b, s, t) /\
    (b = true <->
     forall p, In p files ->
       fst (fst (RagIndex._insert_contexts_from_file w p s)) = Ret true).
Proof. apply insert_all_answers. Qed.

Lemma insert_all_stops_at_first_failure_witness :
  let w := IndexSamples.world_with IndexSamples.b_fails in
  RagIndex.insert_all w (["a.json"] ++ "b.json" :: ["c.json"]) IndexSamples.ready
    = RagIndex.insert_all w (["a.json"] ++ ["b.json"]) IndexSamples.ready /\
  fst (RagIndex.insert_all w (["a.json"] ++ "b.json" :: ["c.json"]) IndexSamples.ready)
    = (Ret false, IndexSamples.ready).
Proof.
  apply (insert_all_stops_at_first_failure (IndexSamples.world_with IndexSamples.b_fails)
           ["a.json"] "b.json" ["c.json"] IndexSamples.ready).
  - intros p [<- | []]. vm_compute. reflexivity.
  - vm_compute. reflexivity.
Defined.

(** ** rag_query_operator.py: the loop over the queries *)

Section SingleQueryShape.
Import RagQuerySingle QueryFacts.
Variable aquery : Z -> res pyval.
Variable query_text : string.
Variables (max_retries retry_delay : Z).

Lemma query_loop_one_record :
  forall (fuel : nat) (retries : Z) (r : res (pyval * pyval)) (t : trace),
    query_loop aquery query_text (PInt max_retries) (PInt retry_delay) fuel retries
      = Some (r, t) ->
    one_record query_text r.
Proof.
  induction fuel as [|fuel IH]; intros retries r t;
    cbn [query_loop py_int_lt py_as_int asyncio_sleep_py]; [discriminate|].
  destruct (retries <? max_retries)%Z; [|intros [= <- _]; right; eauto].
  destruct (aquery retries) as [v|e]; [intros [= <- _]; left; eauto|].
  destruct (retries + 1 <? max_retries)%Z; [|intros [= <- _]; right; eauto].
  destruct (query_loop aquery query_text (PInt max_retries) (PInt retry_delay) fuel
              (retries + 1)%Z) as [[r' t']|] eqn:Hl; [|discriminate].
  intros [= <- _]. eapply IH, Hl.
Qed.

Lemma process_single_query_one_record (inst : option pyval) (config : pyval) :
  py_get config "QUERY_MAX_RETRIES" (PInt 1) = Ret (PInt max_retries) ->
  py_get config "QUERY_RETRY_DELAY" (PInt 5) = Ret (PInt retry_delay) ->
  one_record query_text (fst (_process_single_query inst config aquery query_text)).
Proof.
  intros Hm Hd. unfold _process_single_query.
  destruct inst as [inst|]; [|right; eexists; reflexivity].
  rewrite Hm, Hd. cbn [py_as_int].
  match goal with |- context [query_loop ?a ?q ?m ?d ?f ?r] =>
    destruct (query_loop a q m d f r) as [[r' t']|] eqn:Hl end.
  - cbn [fst]. eapply query_loop_one_record, Hl.
  - right. eexists. reflexivity.
Qed.

End SingleQueryShape.
Section RunQueries.
Import RagQuery QueryFacts.
Variable w : world.
Variable s : Operator.
Variables (max_retries retry_delay : Z).
Hypothesis retries_set :
  py_get (config s) "QUERY_MAX_RETRIES" (PInt 1) = Ret (PInt max_retries).
Hypothesis delay_set :
  py_get (config s) "QUERY_RETRY_DELAY" (PInt 5) = Ret (PInt retry_delay).

Lemma run_queries_step (i : nat) (q : string) (rest : list string)
    (results errors : list pyval) :
  exists t,
    (exists v,
       run_queries w i (q :: rest) results errors s =
         after t (run_queries w (S i) rest
                    (results ++ [RagQuerySingle.result_record q v]) errors s)) \/
    (exists msg,
       run_queries w i (q :: rest) results errors s =
         after t (run_queries w (S i) rest results
                    (errors ++ [RagQuerySingle.error_record q msg]) s)).
Proof.
  cbn [run_queries]. rewrite run_log.
  pose proof (process_single_query_one_record (aquery w i) q max_retries retry_delay
                (rag_instance s) (config s) retries_set delay_set) as H1.
  destruct (RagQuerySingle._process_single_query (rag_instance s) (config s) (aquery w i) q)
    as [r t] eqn:E.
  assert (Hrun : _process_single_query w i q s = (r, s, t))
    by (unfold _process_single_query; now rewrite E).
  cbn [fst] in H1. destruct H1 as [[v ->] | [msg ->]].
  - rewrite (run_bind _ _ _ _ _ _ Hrun), after_after. eexists. left. exists v. reflexivity.
  - rewrite (run_bind _ _ _ _ _ _ Hrun), after_after. eexists. right. exists msg. reflexivity.
Qed.

Lemma run_queries_accounted (queries : list string) :
  forall (i : nat) (results errors : list pyval),
    exists rs es t,
      run_queries w i queries results errors s = (Ret (results ++ rs, errors ++ es), s, t) /\
      (List.length rs + List.length es = List.length queries)%nat /\
      Forall (result_of queries) rs /\ Forall (error_of queries) es.
Proof.
  induction queries as [|q rest IH]; intros i results errors.
  - exists [], [], []. rewrite !app_nil_r. repeat split; constructor.
  - assert (Hres : forall l, Forall (result_of rest) l -> Forall (result_of (q :: rest)) l).
    { intros l. apply Forall_impl. intros a (q' & v & Hin & ->).
      exists q', v. split; [now right | reflexivity]. }
    assert (Herr : forall l, Forall (error_of rest) l -> Forall (error_of (q :: rest)) l).
    { intros l. apply Forall_impl. intros a (q' & v & Hin & ->).
      exists q', v. split; [now right | reflexivity]. }
    destruct (run_queries_step i q rest results errors) as (t & [[v ->] | [msg ->]]).
    + destruct (IH (S i) (results ++ [RagQuerySingle.result_record q v]) errors)
        as (rs & es & t' & -> & Hlen & Hrs & Hes).
      exists (RagQuerySingle.result_record q v :: rs), es, (t ++ t').
      rewrite <- app_assoc. split; [reflexivity|]. cbn [List.length]. split; [lia|].
      split; [|auto]. constructor; [|auto].
      exists q, v. split; [now left | reflexivity].
    + destruct (IH (S i) results (errors ++ [RagQuerySingle.error_record q msg]))
        as (rs & es & t' & -> & Hlen & Hrs & Hes).
      exists rs, (RagQuerySingle.error_record q msg :: es), (t ++ t').
      rewrite <- app_assoc. split; [reflexivity|]. cbn [List.length]. split; [lia|].
      split; [auto|]. constructor; [|auto].
      exists q, msg. split; [now left | reflexivity].
Qed.

End RunQueries.

Section QueryReturns.
Import RagQuerySingle QueryFacts.
Variable aquery : Z -> res pyval.
Variable query_text : string.

Lemma query_loop_ret (max_retries retry_delay : pyval) :
  forall (fuel : nat) (retries : Z) (x : pyval * pyval) (t : trace),
    query_loop aquery query_text max_retries retry_delay fuel retries = Some (Ret x, t) ->
    one_record query_text (Ret x).
Proof.
  induction fuel as [|fuel IH]; intros retries x t; cbn [query_loop]; [discriminate|].
  destruct (py_int_lt retries max_retries) as [[]|e]; try discriminate;
    [|intros [= <- _]; right; eexists; reflexivity].
  destruct (aquery retries) as [v|e]; [intros [= <- _]; left; eexists; reflexivity|].
  destruct (py_int_lt (retries + 1) max_retries) as [[]|e']; try discriminate;
    [|intros [= <- _]; right; eexists; reflexivity].
  destruct (asyncio_sleep_py retry_delay) as [ts|e']; [|discriminate].
  destruct (query_loop aquery query_text max_retries retry_delay fuel (retries + 1)%Z)
    as [[r' t']|] eqn:Hl; [|discriminate].
  intros [= -> _]. eapply IH, Hl.
Qed.

Lemma process_single_query_ret (inst : option pyval) (config : pyval) (x : pyval * pyval) :
  fst (_process_single_query inst config aquery query_text) = Ret x ->
  one_record query_text (Ret x).
Proof.
  unfold _process_single_query.
  destruct inst as [inst|]; [|intros [= <-]; right; eexists; reflexivity].
  destruct (py_get config "QUERY_MAX_RETRIES" (PInt 1)) as [mr|e]; [|discriminate].
  destruct (py_get config "QUERY_RETRY_DELAY" (PInt 5)) as [rd|e]; [|discriminate].
  match goal with |- context [query_loop ?a ?q ?m ?d ?f ?r] =>
    destruct (query_loop a q m d f r) as [[r' t']|] eqn:Hl end.
  - cbn [fst]. intros ->. eapply query_loop_ret, Hl.
  - intros [= <-]. right. eexists. reflexivity.
Qed.

End QueryReturns.

Lemma record_of_one_record (q : string) (x : pyval * pyval) :
  QueryFacts.one_record q (Ret x) -> exists o, x = Accounting.record q o.
Proof.
  intros [[v Hx] | [msg Hx]]; injection Hx as ->.
  - now exists (Accounting.Answered v).
  - now exists (Accounting.Failed msg).
Qed.

Lemma sort_lengths (inst : option pyval) (config : pyval) (aquery : nat -> Z -> res pyval)
    (queries : list string) :
  forall (i : nat) (outcomes : list Accounting.outcome),
    Accounting.called inst config aquery i queries outcomes ->
    List.length outcomes = List.length queries /\
    (List.length (fst (Accounting.sort queries outcomes))
     + List.length (snd (Accounting.sort queries outcomes)) = List.length queries)%nat.
Proof.
  induction queries as [|q qs IH]; intros i [|o os]; cbn [Accounting.called];
    try contradiction; [now split|].
  intros [_ H]. destruct (IH _ _ H) as [Hl Hs]. cbn [Accounting.sort List.length].
  destruct (Accounting.sort qs os) as [rs es]. cbn [fst snd] in Hs.
  destruct o; cbn [fst snd List.length]; split; lia.
Qed.

Section RunQueriesSorted.
Import RagQuery.
Variable w : world.

(** When the loop returns, it has made one call per query, in order, and
    has put each pair where it belongs. *)
Lemma run_queries_sorted (queries : list string) :
  forall (i : nat) (results errors : list pyval) (s s' : Operator)
         (lists : list pyval * list pyval) (t : trace),
    run_queries w i queries results errors s = (Ret lists, s', t) ->
    s' = s /\
    exists outcomes,
      Accounting.called (rag_instance s) (config s) (aquery w) i queries outcomes /\
      lists = (results ++ fst (Accounting.sort queries outcomes),
               errors ++ snd (Accounting.sort queries outcomes)).
Proof.
  induction queries as [|q rest IH]; intros i results errors s s' lists t.
  - cbn. intros [= <- <- _]. split; [reflexivity|].
    exists []. cbn. rewrite !app_nil_r. now split.
  - cbn [run_queries]. rewrite run_log.
    pose proof (process_single_query_ret (aquery w i) q (rag_instance s) (config s)) as H1.
    destruct (RagQuerySingle._process_single_query (rag_instance s) (config s) (aquery w i) q)
      as [r tq] eqn:E.
    assert (Hrun : _process_single_query w i q s = (r, s, tq))
      by (unfold _process_single_query; now rewrite E).
    cbn [fst] in H1. destruct r as [x|e];
      [|rewrite (run_bind_raise _ _ _ _ _ _ Hrun); cbn; discriminate].
    rewrite (run_bind _ _ _ _ _ _ Hrun), after_after.
    destruct (record_of_one_record q x (H1 x eq_refl)) as [o ->].
    match goal with |- context [run_queries w (S i) rest ?rs ?es s] =>
      destruct (run_queries w (S i) rest rs es s) as [[r1 s1] t1] eqn:E1 end.
    cbn [after]. intros [= -> <- _].
    destruct (IH _ _ _ _ _ _ _ E1) as (-> & os & Hcalled & ->).
    split; [reflexivity|]. exists (o :: os). split.
    + cbn [Accounting.called]. rewrite E. cbn [fst]. now split.
    + cbn [Accounting.sort]. destruct (Accounting.sort rest os) as [rs es].
      destruct o; cbn [Accounting.record fst snd];
        change (truthy PNone) with false; cbv iota.
      * change (truthy (RagQuerySingle.result_record q result)) with true. cbv iota.
        now rewrite <- app_assoc.
      * change (truthy (RagQuerySingle.error_record q msg)) with true. cbv iota.
        now rewrite <- app_assoc.
Qed.

End RunQueriesSorted.

(** The loop over the queries in [_run_queries_and_save_task], with integer
    retry settings: it runs to its end without raising and without changing
    the operator, whether or not there is an instance and whatever the
    queries answer.  There is one outcome per query, in the order of the
    queries, which is what [_process_single_query] returned for that
    query: the results list holds the records of the answered queries, in
    order, the errors list those of the failed ones, in order.  So every
    query has exactly one record, in exactly one of the two lists. *)
Theorem run_queries_accounts (w : RagQuery.world) (s : RagQuery.Operator)
    (max_retries retry_delay : Z) (queries : list string) :
  py_get (RagQuery.config s) "QUERY_MAX_RETRIES" (PInt 1) = Ret (PInt max_retries) ->
  py_get (RagQuery.config s) "QUERY_RETRY_DELAY" (PInt 5) = Ret (PInt retry_delay) ->
  exists outcomes results errors t,
    RagQuery.run_queries w 0 queries [] [] s = (Ret (results, errors), s, t) /\
    Accounting.called (RagQuery.rag_instance s) (RagQuery.config s) (RagQuery.aquery w)
      0 queries outcomes /\
    (results, errors) = Accounting.sort queries outcomes /\
    List.length outcomes = List.length queries /\
    (List.length results + List.length errors = List.length queries)%nat /\
    Forall (QueryFacts.result_of queries) results /\
    Forall (QueryFacts.error_of queries) errors.
Proof.
  intros Hm Hd.
  destruct (run_queries_accounted w s max_retries retry_delay Hm Hd queries 0 [] [])
    as (rs & es & t & H & Hlen & Hrs & Hes).
  destruct (run_queries_sorted w queries _ _ _ _ _ _ _ H) as (_ & os & Hcalled & Hsort).
  cbn [app] in H, Hsort. exists os, rs, es, t.
  split; [exact H|]. split; [exact Hcalled|].
  split; [rewrite Hsort; now destruct (Accounting.sort queries os)|].
  split; [eapply sort_lengths, Hcalled|]. auto.
Qed.

Lemma run_queries_accounts_witness :
  exists outcomes results errors t,
    RagQuery.run_queries QuerySamples.world 0 ["What is X?"; "How does Y work?"] [] []
      DoneSamples.done = (Ret (results, errors), DoneSamples.done, t) /\
    Accounting.called (RagQuery.rag_instance DoneSamples.done)
      (RagQuery.config DoneSamples.done) (RagQuery.aquery QuerySamples.world)
      0 ["What is X?"; "How does Y work?"] outcomes /\
    (results, errors) = Accounting.sort ["What is X?"; "How does Y work?"] outcomes /\
    List.length outcomes = List.length ["What is X?"; "How does Y work?"] /\
    (List.length results + List.length errors
       = List.length ["What is X?"; "How does Y work?"])%nat /\
    Forall (QueryFacts.result_of ["What is X?"; "How does Y work?"]) results /\
    Forall (QueryFacts.error_of ["What is X?"; "How does Y work?"]) errors.
Proof.
  apply (run_queries_accounts QuerySamples.world DoneSamples.done 1 5);
    vm_compute; reflexivity.
Defined.

(** ** rag_query_operator.py: a questions file without questions *)

Lemma extract_queries_none (read_file : res string) :
  match read_file with
  | Ret data => Scenario.no_dash data = true
  | Raise _ => True
  end ->
  fst (RagQueryExtract.extract_queries read_file) = [].
Proof.
  unfold RagQueryExtract.extract_queries. destruct read_file as [data|e].
  - intros H. unfold Regex.findall.
    rewrite findall_dashless; [reflexivity|].
    now apply (remove_double_star_no_dash (String.length data)).
  - intros _. now destruct (is_class "FileNotFoundError" e).
Qed.

Ltac logs_or_init :=
  cbn; repeat (apply Forall_cons; [first [left; reflexivity | right; reflexivity]|]);
  try apply Forall_nil.

Section NoQueries.
Import RagQuery.
Variable w : world.

Lemma initialize_rag_instance_trace (rag_dir : pyval) (s : Operator) :
  exists b s' t,
    _initialize_rag_instance w rag_dir s = (Ret b, s', t) /\
    Forall (fun e => is_log e = true \/ e = RagInit rag_dir) t.
Proof.
  unfold _initialize_rag_instance. rewrite run_get.
  destruct (negb (truthy (config s)) || negb (llm_model_func s)
            || negb (embedding_func_wrapper s)).
  - do 3 eexists. split; [reflexivity|]. logs_or_init.
  - unfold try_except. rewrite run_log, run_emit.
    destruct (lightrag_new w rag_dir) as [[]|e].
    + rewrite run_lift. destruct (initialize_storages w) as [[]|e];
        (do 3 eexists; split; [reflexivity|]); logs_or_init.
    + rewrite run_lift_raise. do 3 eexists. split; [reflexivity|]. logs_or_init.
Qed.

(** [_run_queries_and_save_task] on a questions file that cannot be read
    or holds no hyphen: no query is extracted, and the task answers
    [(None, None)] having made no query and written no file (it writes log
    records and, at most, sets up the instance). *)
Theorem no_queries_no_work (questions_file rag_dir : pyval) (s : Operator) :
  match read_text w questions_file with
  | Ret data => Scenario.no_dash data = true
  | Raise _ => True
  end ->
  exists s' t,
    _run_queries_and_save_task w questions_file rag_dir s = (Ret (PNone, PNone), s', t) /\
    Forall (fun e => is_log e = true \/ e = RagInit rag_dir) t.
Proof.
  intros H. apply extract_queries_none in H.
  unfold _run_queries_and_save_task.
  destruct (initialize_rag_instance_trace rag_dir s) as (b & s' & t & E & Ht).
  rewrite (run_bind _ _ _ _ _ _ E). destruct b; cbn [negb].
  - rewrite H.
    assert (Hl : Forall (fun e => is_log e = true \/ e = RagInit rag_dir)
                   (snd (RagQueryExtract.extract_queries (read_text w questions_file)))).
    { unfold RagQueryExtract.extract_queries.
      destruct (read_text w questions_file) as [data|e]; cbn [snd].
      - match goal with |- context [match ?l with [] => _ | _ => _ end] => destruct l end;
          logs_or_init.
      - destruct (is_class "FileNotFoundError" e); logs_or_init. }
    do 2 eexists. split; [reflexivity|].
    rewrite !Forall_app. repeat split; auto; logs_or_init.
  - do 2 eexists. split; [reflexivity|]. rewrite app_nil_r. exact Ht.
Qed.

End NoQueries.

Lemma no_queries_no_work_witness :
  let s := Barrier.with_index (PStr "/data/index") RagQuery.init in
  exists s' t,
    RagQuery._run_queries_and_save_task QuerySamples.unconfigured
      (PStr "/data/questions.txt") (PStr "/data/index") s = (Ret (PNone, PNone), s', t) /\
    Forall (fun e => is_log e = true \/ e = RagInit (PStr "/data/index")) t.
Proof.
  cbv zeta. apply no_queries_no_work. reflexivity.
Defined.

(** ** question_gen_operator.py: get_summary *)

Section SummaryFacts.
Import Summary.

Lemma slice_to_all {A} (stop : Z) (l : list A) :
  (Z.of_nat (List.length l) <= stop)%Z -> slice_to stop l = l.
Proof.
  intros H. unfold slice_to, clip.
  destruct (stop <? 0)%Z eqn:E; [apply Z.ltb_lt in E; lia|].
  apply firstn_all2. lia.
Qed.

Lemma slice_to_firstn {A} (stop : Z) (l : list A) :
  (0 <= stop)%Z -> slice_to stop l = firstn (Z.to_nat stop) l.
Proof.
  intros H. unfold slice_to, clip.
  destruct (stop <? 0)%Z eqn:E; [apply Z.ltb_lt in E; lia|].
  destruct (Nat.le_ge_cases (Z.to_nat stop) (List.length l)) as [Hle|Hge].
  - now rewrite Nat.min_l.
  - rewrite Nat.min_r by exact Hge. now rewrite !firstn_all2 by lia.
Qed.

Lemma slice_from_skipn {A} (start : Z) (l : list A) :
  (0 <= start)%Z -> slice_from start l = skipn (Z.to_nat start) l.
Proof.
  intros H. unfold slice_from, clip.
  destruct (start <? 0)%Z eqn:E; [apply Z.ltb_lt in E; lia|].
  destruct (Nat.le_ge_cases (Z.to_nat start) (List.length l)) as [Hle|Hge].
  - now rewrite Nat.min_l.
  - rewrite Nat.min_r by exact Hge. now rewrite !skipn_all2 by lia.
Qed.

(** The tokens [get_summary] keeps, by the size of the context. *)
Lemma summary_tokens_kept (tokens : list string) (total_tokens : Z) :
  (0 <= total_tokens)%Z ->
  let half := (total_tokens / 2)%Z in
  let len := Z.of_nat (List.length tokens) in
  fst (summary_tokens tokens total_tokens) =
    if (len <=? 2 * half)%Z then tokens
    else firstn (Z.to_nat half) tokens ++ skipn (Z.to_nat (len - half)) tokens.
Proof.
  intros Ht half len. unfold summary_tokens. fold half. fold len.
  assert (Hh : (0 <= half)%Z) by (apply Z.div_pos; lia).
  assert (Hh2 : (2 * half <= total_tokens)%Z) by (apply Z.mul_div_le; lia).
  destruct (len <=? 2 * half)%Z eqn:Hfit;
    [apply Z.leb_le in Hfit | apply Z.leb_gt in Hfit].
  - destruct (Z.max 0 (len - half) <? Z.min half len)%Z eqn:Ho; cbn [fst].
    + apply slice_to_all. subst len. lia.
    + apply Z.ltb_ge in Ho.
      destruct (Z.eq_dec len (2 * half)) as [Heq|Hne].
      * rewrite slice_to_firstn, slice_from_skipn by lia.
        replace (Z.max 0 (len - half)) with half by lia.
        replace (Z.min half len) with half by lia.
        apply firstn_skipn.
      * assert (len = 0%Z) by lia.
        destruct tokens; [|subst len; cbn in *; lia].
        unfold slice_to, slice_from. now rewrite firstn_nil, skipn_nil.
  - assert (Ho : (Z.max 0 (len - half) <? Z.min half len)%Z = false)
      by (apply Z.ltb_ge; lia).
    rewrite Ho. cbn [fst].
    rewrite slice_to_firstn, slice_from_skipn by lia.
    replace (Z.max 0 (len - half)) with (len - half)%Z by lia.
    replace (Z.min half len) with half by lia. reflexivity.
Qed.

End SummaryFacts.

(** [get_summary] on a context of at least [min_tokens_for_summary] tokens,
    with a non-negative [total_tokens]: the summary is built from all the
    tokens when there are at most [2 * (total_tokens // 2)] of them, and
    otherwise from the first and the last [total_tokens // 2] tokens; never
    from more than [total_tokens] tokens.  (For an odd [total_tokens] a
    context of exactly [total_tokens] tokens loses its middle token.)  If
    the tokens cannot be joined, the answer is the context cut to
    [5 * total_tokens] characters. *)
Theorem get_summary_keeps_ends (tok : Summary.tokenizer) (context : string)
    (total_tokens min_tokens_for_summary : Z) (tokens : list string) :
  Summary.tokenize tok context = Ret tokens ->
  (min_tokens_for_summary <= Z.of_nat (List.length tokens))%Z ->
  (0 <= total_tokens)%Z ->
  let half := Z.to_nat (total_tokens / 2) in
  let kept :=
    if (List.length tokens <=? 2 * half)%nat then tokens
    else firstn half tokens ++ skipn (List.length tokens - half) tokens in
  (Z.of_nat (List.length kept) <= total_tokens)%Z /\
  ((2 * half < List.length tokens)%nat -> List.length kept = (2 * half)%nat) /\
  fst (Summary.get_summary tok context total_tokens min_tokens_for_summary) =
    match Summary.convert_tokens_to_string tok kept with
    | Ret summary => summary
    | Raise _ => Summary.str_slice_to (total_tokens * 5) context
    end.
Proof.
  intros Htok Hmin Ht half kept.
  assert (Hh : (0 <= total_tokens / 2)%Z) by (apply Z.div_pos; lia).
  assert (Hh2 : (2 * (total_tokens / 2) <= total_tokens)%Z) by (apply Z.mul_div_le; lia).
  assert (Hkept : fst (Summary.summary_tokens tokens total_tokens) = kept).
  { rewrite summary_tokens_kept by exact Ht. subst kept half.
    destruct (Nat.leb_spec (List.length tokens) (2 * Z.to_nat (total_tokens / 2))) as [Hle|Hgt].
    - assert (E : (Z.of_nat (List.length tokens) <=? 2 * (total_tokens / 2))%Z = true)
        by (apply Z.leb_le; lia).
      now rewrite E.
    - assert (E : (Z.of_nat (List.length tokens) <=? 2 * (total_tokens / 2))%Z = false)
        by (apply Z.leb_gt; lia).
      rewrite E. f_equal. f_equal. lia. }
  split; [|split].
  - subst kept. destruct (Nat.leb_spec (List.length tokens) (2 * half)) as [Hle|Hgt].
    + subst half. lia.
    + rewrite length_app, length_firstn, length_skipn. subst half. lia.
  - intros Hgt. subst kept.
    destruct (Nat.leb_spec (List.length tokens) (2 * half)) as [Hle|_]; [lia|].
    rewrite length_app, length_firstn, length_skipn. lia.
  - unfold Summary.get_summary. rewrite Htok.
    assert (E : (Z.of_nat (List.length tokens) <? min_tokens_for_summary)%Z = false)
      by (apply Z.ltb_ge; lia).
    rewrite E. destruct (Summary.summary_tokens tokens total_tokens) as [k t].
    cbn [fst] in Hkept. subst k.
    now destruct (Summary.convert_tokens_to_string tok kept).
Qed.

Lemma get_summary_keeps_ends_witness :
  let context := "a b c d e" in
  let tokens := ["a"; "b"; "c"; "d"; "e"] in
  (Z.of_nat (List.length ["a"; "b"; "d"; "e"]) <= 5)%Z /\
  ((2 * 2 < List.length tokens)%nat -> List.length ["a"; "b"; "d"; "e"] = (2 * 2)%nat) /\
  fst (Summary.get_summary Summary.blanks context 5 1) = "a b d e".
Proof.
  exact (get_summary_keeps_ends Summary.blanks "a b c d e" 5 1 ["a"; "b"; "c"; "d"; "e"]
           eq_refl ltac:(cbn; lia) ltac:(lia)).
Defined.
Lemma substring_prefix (n : nat) :
  forall s, String.prefix (String.substring 0 n s) s = true /\
            String.length (String.substring 0 n s) = Nat.min n (String.length s) /\
            ((String.length s <= n)%nat -> String.substring 0 n s = s).
Proof.
  induction n as [|n IH]; intros [|c s]; cbn; try (repeat split; auto; lia).
  destruct (IH s) as (Hp & Hl & Ha). rewrite Hp, Hl.
  split; [|split]; auto.
  - now destruct (Ascii.ascii_dec c c).
  - intros H. f_equal. apply Ha. lia.
Qed.

(** [get_summary] when the tokenizer raises or yields fewer than
    [min_tokens_for_summary] tokens, with a non-negative [total_tokens]:
    the answer is the start of the context, at most [5 * total_tokens]
    characters of it, and the whole context when it is no longer than
    that; the tokens are not joined. *)
Theorem get_summary_short_context (tok : Summary.tokenizer) (context : string)
    (total_tokens min_tokens_for_summary : Z) :
  match Summary.tokenize tok context with
  | Ret tokens => (Z.of_nat (List.length tokens) < min_tokens_for_summary)%Z
  | Raise _ => True
  end ->
  (0 <= total_tokens)%Z ->
  let summary := fst (Summary.get_summary tok context total_tokens min_tokens_for_summary) in
  String.prefix summary context = true /\
  (Z.of_nat (String.length summary) <= 5 * total_tokens)%Z /\
  ((Z.of_nat (String.length context) <= 5 * total_tokens)%Z -> summary = context).
Proof.
  intros Hshort Ht summary.
  assert (Hs : summary = Summary.str_slice_to (total_tokens * 5) context).
  { subst summary. unfold Summary.get_summary.
    destruct (Summary.tokenize tok context) as [tokens|e]; [|reflexivity].
    apply Z.ltb_lt in Hshort. now rewrite Hshort. }
  rewrite Hs. unfold Summary.str_slice_to, Summary.clip.
  assert (E : (total_tokens * 5 <? 0)%Z = false) by (apply Z.ltb_ge; lia). rewrite E.
  destruct (substring_prefix
              (Nat.min (Z.to_nat (total_tokens * 5)) (String.length context)) context)
    as (Hp & Hl & Ha).
  split; [exact Hp|]. split; [rewrite Hl; lia|].
  intros Hfit. apply Ha. lia.
Qed.

Lemma get_summary_short_context_witness :
  let summary := fst (Summary.get_summary Summary.blanks "a b c d e" 1 50) in
  String.prefix summary "a b c d e" = true /\
  (Z.of_nat (String.length summary) <= 5 * 1)%Z /\
  ((Z.of_nat (String.length "a b c d e") <= 5 * 1)%Z -> summary = "a b c d e").
Proof.
  apply (get_summary_short_context Summary.blanks "a b c d e" 1 50); cbn; lia.
Defined.

(** ** load_config: what a successful load establishes *)



Lemma getitem_of_has (k : string) (items : list (string * pyval)) :
  dict_has k items = true -> exists v, py_getitem (PDict items) k = Ret v.
Proof.
  unfold dict_has. cbn [py_getitem]. destruct (dict_get k items); [eauto | discriminate].
Qed.

Section PrepLoadConfig.
Import DataPrep.
Variable w : world.


End PrepLoadConfig.


Section PrepLoadConfigMain.
Import DataPrep.
Variable w : world.


End PrepLoadConfigMain.
(** ** data_prep_operator.py: SKIP_DOWNLOAD *)

Section PrepSkip.
Import DataPrep.
Variable w : world.

(** [on_event] on a configured stage with a true [SKIP_DOWNLOAD]: no
    download is attempted and nothing is waited for; the stage ends
    processed with [STOP]; the output directory is sent exactly when the
    download directory is an existing, non-empty directory and the
    extraction returns, whether or not the extraction reports success. *)
Theorem prep_skip_download (s : Operator) (download_dir output_dir dataset skip : pyval)
    (event_id : string) (value metadata : pyval) :
  processed s = false ->
  py_getitem (config s) "DOWNLOAD_DIR" = Ret download_dir ->
  py_getitem (config s) "OUTPUT_DIR" = Ret output_dir ->
  py_getitem (config s) "DATASET_REPO_ID" = Ret dataset ->
  py_get (config s) "SKIP_DOWNLOAD" (PBool false) = Ret skip ->
  truthy skip = true ->
  let '(r, s', t) := on_event w (INPUT event_id value metadata) s in
  r = Ret STOP /\ s' = mkOperator (config s) true /\
  filter is_invocation t = [] /\ filter is_sleep t = [] /\
  let present :=
    match os_path_isdir w download_dir, os_listdir w download_dir with
    | Ret true, Ret (_ :: _) => true
    | _, _ => false
    end in
  let extracted :=
    match extract_unique_contexts w download_dir output_dir with
    | Ret _ => true
    | Raise _ => false
    end in
  outputs t =
    if present && extracted then
      [SendOutput "unique_contexts_dir"
         (Envelope.create_agent_output "data_prep" output_dir false) metadata]
    else [].
Proof.
  intros Hp Hdd Hod Hds Hsk Hskip.
  pose proof (getitem_truthy _ _ _ Hdd) as Hc.
  unfold on_event. rewrite run_get, Hp, run_log, Hc. cbn [negb].
  rewrite run_ret. cbn [negb]. unfold try_except, main_logic.
  rewrite run_get, Hdd, run_lift, Hod, run_lift, Hds, run_lift, Hsk, run_lift, Hskip.
  cbn [negb]. unfold check_existing.
  destruct (os_path_isdir w download_dir) as [[]|e];
    [destruct (os_listdir w download_dir) as [[|n ns]|e]| |];
    try (cbn; repeat split; reflexivity).
  destruct (extract_unique_contexts w download_dir output_dir) as [[]|e];
    cbn; repeat split; reflexivity.
Qed.

End PrepSkip.

Lemma prep_skip_download_witness :
  let '(r, s', t) :=
    DataPrep.on_event SkipSamples.on_disk PrepSamples.trigger SkipSamples.skipping in
  r = Ret STOP /\
  s' = DataPrep.mkOperator (DataPrep.config SkipSamples.skipping) true /\
  filter is_invocation t = [] /\ filter is_sleep t = [] /\
  outputs t =
    [SendOutput "unique_contexts_dir"
       (Envelope.create_agent_output "data_prep" (PStr "/app/contexts") false) (PStr "meta")].
Proof.
  exact (prep_skip_download SkipSamples.on_disk SkipSamples.skipping
           (PStr "/app/data") (PStr "/app/contexts") (PStr "org/set") (PBool true)
           "tick" PNone (PStr "meta") eq_refl eq_refl eq_refl eq_refl eq_refl eq_refl).
Defined.

(** ** question_gen_operator.py: an output means a written file *)

Section LLMAnswer.
Import QuestionGenLLM.
Variable chat_completion : Z -> res pyval.
Variables (model : pyval) (prompt : string) (max_retries delay : Z).

(** A non-empty result of the loop is the answer of the first request that
    succeeded, and that request was sent. *)
Lemma llm_loop_answer (fuel : nat) :
  forall retries content t,
    llm_loop chat_completion model prompt max_retries delay fuel retries = Some (content, t) ->
    truthy content = true ->
    exists attempt,
      (retries <= attempt < max_retries)%Z /\
      (forall r, (retries <= r < attempt)%Z -> exists e, chat_completion r = Raise e) /\
      chat_completion attempt = Ret content /\
      In (ChatCompletion model prompt) t.
Proof.
  induction fuel as [|fuel IH]; intros retries content t; [discriminate|].
  cbn [llm_loop].
  destruct (retries <? max_retries)%Z eqn:Hlt; [|intros [= <- <-]; discriminate].
  apply Z.ltb_lt in Hlt.
  destruct (chat_completion retries) as [result|e] eqn:Hc.
  - intros [= <- <-] _. exists retries. split; [lia|]. split; [intros; lia|].
    split; [exact Hc|]. right. now left.
  - destruct (retries + 1 <? max_retries)%Z; [|intros [= <- <-]; discriminate].
    destruct (llm_loop chat_completion model prompt max_retries delay fuel (retries + 1))
      as [[r' t']|] eqn:El; [|discriminate].
    intros [= <- <-] Ht.
    destruct (IH _ _ _ El Ht) as (attempt & Ha & Hbefore & Hat & Hin).
    exists attempt. split; [lia|]. split.
    + intros r Hr. destruct (Z.eq_dec r retries) as [->|Hne]; [now exists e|].
      apply Hbefore. lia.
    + split; [exact Hat|]. right. now left.
Qed.

Lemma call_llm_for_questions_answer (content : pyval) (t : trace) :
  call_llm_for_questions chat_completion model prompt max_retries delay = (content, t) ->
  truthy content = true ->
  exists attempt,
    (0 <= attempt < max_retries)%Z /\
    (forall r, (0 <= r < attempt)%Z -> exists e, chat_completion r = Raise e) /\
    chat_completion attempt = Ret content /\
    In (ChatCompletion model prompt) t.
Proof.
  unfold call_llm_for_questions.
  destruct (llm_loop chat_completion model prompt max_retries delay
              (S (Z.to_nat max_retries)) 0) as [[c t0]|] eqn:El.
  - intros [= <- <-] Ht. exact (llm_loop_answer _ _ _ _ El Ht).
  - intros [= <- <-]. discriminate.
Qed.

End LLMAnswer.

Section GenWritten.
Import QuestionGen GenFacts.
Variable w : world.

Ltac no_path :=
  cbn; rewrite ?app_nil_r;
  repeat match goal with
         | |- context [is_class ?c ?e] => destruct (is_class c e); cbn
         end;
  intros p s' t [= <- <- <-]; discriminate.

Lemma generate_questions_task_written (dir : pyval) (s : Operator) :
  forall p s' t,
    _generate_questions_task w dir s = (Ret p, s', t) -> truthy p = true ->
    s' = s /\ written w (config s) dir p t.
Proof.
  unfold _generate_questions_task. rewrite run_get.
  destruct (negb (truthy (config s)) || negb (tokenizer s) || negb (llm_client s));
    [no_path|].
  unfold try_except at 1.
  destruct (py_getitem (config s) "INPUT_CONTEXTS_FILENAME") as [name|e] eqn:Hname;
    [rewrite run_lift | rewrite run_lift_raise; no_path].
  destruct (os_path_join w dir name) as [file|e] eqn:Hfile;
    [rewrite run_lift | rewrite run_lift_raise; no_path].
  rewrite run_log.
  destruct (os_path_exists w file) as [[]|e];
    [rewrite run_lift | rewrite run_lift; no_path | rewrite run_lift_raise; no_path].
  cbn [negb].
  destruct (json_load w file) as [contexts|e] eqn:Hload;
    [rewrite run_lift | rewrite run_lift_raise; no_path].
  destruct contexts as [| | | |[|c cs]| |]; try no_path.
  rewrite run_log.
  destruct (py_get (config s) "SUMMARY_TOTAL_TOKENS" (PInt 2000)) as [st|e] eqn:Hst;
    [rewrite run_lift | rewrite run_lift_raise; no_path].
  destruct (build_prompt w (PList (c :: cs)) st) as [prompt|e] eqn:Hprompt;
    [rewrite run_lift | rewrite run_lift_raise; no_path].
  rewrite !run_log.
  destruct (py_getitem (config s) "LLM_MODEL_NAME") as [model|e] eqn:Hmodel;
    [rewrite run_lift | rewrite run_lift_raise; no_path].
  unfold call_llm_for_questions.
  destruct (QuestionGenLLM.call_llm_for_questions (chat_completion w) model prompt 3 5)
    as [content tl] eqn:El.
  match goal with |- context [bind ?m ?k s] =>
    rewrite (run_bind m k s s content tl) by reflexivity end.
  destruct (truthy content) eqn:Hcontent; cbn [negb]; [|no_path].
  destruct (py_getitem (config s) "OUTPUT_QUESTIONS_FILE") as [out|e] eqn:Hout;
    [rewrite run_lift | rewrite run_lift_raise; no_path].
  rewrite run_emit. unfold try_except.
  destruct (write_text w out content) as [[]|e] eqn:Hw.
  - cbn. intros p s' t [= <- <- <-] _. split; [reflexivity|].
    destruct (call_llm_for_questions_answer _ _ _ _ _ _ _ El Hcontent)
      as (attempt & Ha & Hbefore & Hat & Hin).
    exists model, prompt, content, attempt.
    split; [exact Hmodel|]. split; [exact Hout|].
    split; [now exists name, file, (PList (c :: cs)), st|].
    split; [do 4 right; apply in_or_app; now left|].
    split; [exact Ha|]. split; [exact Hbefore|]. split; [exact Hat|].
    split; [exact Hcontent|]. split; [|exact Hw].
    do 4 right. apply in_or_app. right. now left.
  - rewrite run_lift_raise. no_path.
Qed.

End GenWritten.
Lemma written_after (w : QuestionGen.world) (config dir p : pyval) (t0 t : trace) :
  GenFacts.written w config dir p t -> GenFacts.written w config dir p (t0 ++ t).
Proof.
  intros (model & prompt & content & attempt
          & H1 & H2 & H3 & H4 & H5 & H6 & H7 & H8 & H9 & H10).
  exists model, prompt, content, attempt.
  repeat (split; [first [assumption | apply in_or_app; now right]|]). exact H10.
Qed.

Lemma written_before (w : QuestionGen.world) (config dir p : pyval) (t t1 : trace) :
  GenFacts.written w config dir p t -> GenFacts.written w config dir p (t ++ t1).
Proof.
  intros (model & prompt & content & attempt
          & H1 & H2 & H3 & H4 & H5 & H6 & H7 & H8 & H9 & H10).
  exists model, prompt, content, attempt.
  repeat (split; [first [assumption | apply in_or_app; now left]|]). exact H10.
Qed.

Section GenOutput.
Import QuestionGen GenFacts.
Variable w : world.

Lemma run_until_complete_written (v : pyval) (s : Operator) :
  forall p s' t,
    run_until_complete w v s = (Ret p, s', t) -> truthy p = true ->
    s' = s /\ written w (config s) (Envelope.load_node_result v) p t.
Proof.
  unfold run_until_complete, try_except.
  destruct (loop_refuses w) as [msg|].
  - cbn. intros p s' t [= <- <- <-]. discriminate.
  - unfold run_main_task.
    assert (Hd : exists r,
              (if truthy (Envelope.load_node_result v)
               then lift (os_path_isdir w (Envelope.load_node_result v)) else ret false) s
                = (r, s, []))
      by (destruct (truthy (Envelope.load_node_result v)); eexists; reflexivity).
    destruct Hd as ([[]|e] & Hd).
    + rewrite (run_bind _ _ _ _ _ _ Hd), after_nil. cbn [negb].
      destruct (_generate_questions_task w (Envelope.load_node_result v) s)
        as [[[p0|e] s0] t0] eqn:E.
      * intros p s' t [= <- <- <-]. eapply generate_questions_task_written, E.
      * destruct (is_class "RuntimeError" e); cbn; [|discriminate].
        intros p s' t [= <- <- <-]. discriminate.
    + rewrite (run_bind _ _ _ _ _ _ Hd). cbn. intros p s' t [= <- <- <-]. discriminate.
    + rewrite (run_bind_raise _ _ _ _ _ _ Hd).
      destruct (is_class "RuntimeError" e); cbn; [|discriminate].
      intros p s' t [= <- <- <-]. discriminate.
Qed.

(** [on_event] of the question generation stage, for any event, state and
    answers of the outside: if it sends an output, the path in the
    envelope is not empty, is the [OUTPUT_QUESTIONS_FILE] of the
    configuration the handler ends with, and was written during this
    event, successfully, with the answer of the model: the non-empty
    content returned by the first completion request that succeeded, of at
    most three, sent during this event for the configured [LLM_MODEL_NAME]
    and the prompt built from the contexts that were loaded from the file
    [INPUT_CONTEXTS_FILENAME] of the directory named in the payload. *)
Theorem gen_output_means_written (ev : event) (s : Operator) :
  let '(r, s', t) := on_event w ev s in
  outputs t = [] \/
  exists path,
    outputs t = [SendOutput "generated_questions_file"
                   (Envelope.create_agent_output "question_generator" path false)
                   (event_metadata ev)] /\
    truthy path = true /\
    written w (config s') (Envelope.load_node_result (event_value ev)) path t.
Proof.
  destruct ev as [id v md| | |]; try (now left).
  destruct (processed s) eqn:Hp.
  - destruct (gen_done_ignores w (INPUT id v md) s eq_refl Hp) as (t & -> & Ht).
    left. unfold outputs. rewrite <- (filter_actions is_output) by (intros [] ?; easy).
    now rewrite Ht.
  - unfold on_event. rewrite run_log.
    destruct (String.eqb id "unique_contexts_dir"); [|now left].
    rewrite run_get, Hp, run_log, after_after.
    pose proof (gen_config_step_avoids w s) as Ho1.
    destruct ((if negb (truthy (config s)) then load_config w else ret true) s)
      as [[[b|e] s1] t1] eqn:E1; cbn [snd] in Ho1;
      [rewrite (run_bind _ _ _ _ _ _ E1)
      |rewrite (run_bind_raise _ _ _ _ _ _ E1); cbn; left;
       unfold outputs in *; now rewrite Ho1].
    rewrite after_after.
    destruct b; cbn [negb];
      [|cbn; left; unfold outputs in *; now rewrite filter_app, Ho1].
    rewrite run_get.
    pose proof (gen_setup_step_avoids w s1) as Ho2.
    destruct ((if negb (tokenizer s1) || negb (llm_client s1)
               then _setup_dependencies w else ret true) s1)
      as [[[b|e] s2] t2] eqn:E2; cbn [snd] in Ho2;
      [rewrite (run_bind _ _ _ _ _ _ E2)
      |rewrite (run_bind_raise _ _ _ _ _ _ E2); cbn; left;
       unfold outputs in *; now rewrite !filter_app, Ho1, Ho2].
    rewrite after_after.
    destruct b; cbn [negb];
      [|cbn; left; unfold outputs in *; now rewrite !filter_app, Ho1, Ho2].
    pose proof (gen_run_until_complete_avoids is_output is_output_silent w v s2) as Ho3.
    pose proof (run_until_complete_written v s2) as Hw.
    destruct (run_until_complete w v s2) as [[[path|e] s3] t3] eqn:E3; cbn [snd] in Ho3;
      [rewrite (run_bind _ _ _ _ _ _ E3)
      |rewrite (run_bind_raise _ _ _ _ _ _ E3); cbn; left;
       unfold outputs in *; now rewrite !filter_app, Ho1, Ho2, Ho3].
    destruct (truthy path) eqn:Hpath; cbn; unfold outputs in *;
      rewrite !filter_app, Ho1, Ho2, Ho3; cbn; [|now left].
    right. exists path. split; [reflexivity|]. split; [exact Hpath|].
    destruct (Hw path s3 t3 eq_refl Hpath) as [-> Hw'].
    change (?a :: ?b :: (t1 ++ t2) ++ t3 ++ ?rest)
      with ([a; b] ++ ((t1 ++ t2) ++ t3 ++ rest)).
    apply written_after. apply written_after. now apply written_before.
Qed.

End GenOutput.

(** ** rag_index_operator.py: an output means an index *)

Section IndexOutput.
Import RagIndex IndexFacts.
Variable w : world.

Lemma main_indexing_task_true (v : pyval) (s : Operator) :
  forall s' t, main_indexing_task w v s = (Ret true, s', t) -> indexed w v.
Proof.
  unfold main_indexing_task, try_except.
  destruct (_initialize_rag_instance w s) as [[[[]|e] s1] t1] eqn:E1;
    [rewrite (run_bind _ _ _ _ _ _ E1)
    |rewrite (run_bind _ _ _ _ _ _ E1); cbn; discriminate
    |rewrite (run_bind_raise _ _ _ _ _ _ E1); cbn; discriminate].
  cbn [negb].
  destruct (truthy (Envelope.load_node_result v)) eqn:Hv;
    [|rewrite run_ret; cbn; discriminate].
  destruct (os_path_isdir w (Envelope.load_node_result v)) as [[]|e] eqn:Hd;
    [rewrite run_lift | rewrite run_lift; cbn; discriminate
     | rewrite run_lift_raise; cbn; discriminate].
  cbn [negb]. rewrite run_log, run_get.
  destruct (py_getitem (config s1) "INPUT_CONTEXTS_FILENAME_PATTERN") as [pat|e];
    [rewrite run_lift | rewrite run_lift_raise; cbn; discriminate].
  destruct (glob w (Envelope.load_node_result v) pat) as [files|e] eqn:Hg;
    [rewrite run_lift | rewrite run_lift_raise; cbn; discriminate].
  assert (Hwarn : exists t0,
            (match files with
             | [] => log WARNING "No context files found matching pattern '{file_pattern}' in {unique_contexts_dir}. Indexing will be empty."
             | _ => ret tt
             end) s1 = (Ret tt, s1, t0))
    by (destruct files; eexists; reflexivity).
  destruct Hwarn as (t0 & Hwarn). rewrite (run_bind _ _ _ _ _ _ Hwarn).
  destruct (insert_all_answers w files s1) as (b & ta & Ea & Hiff).
  rewrite (run_bind _ _ _ _ _ _ Ea). destruct b; [|cbn; discriminate].
  intros s' t _. split; [exact Hv|]. split; [exact Hd|].
  exists pat, files. split; [exact Hg|]. intros f Hf.
  destruct Hiff as [Hall _]. specialize (Hall eq_refl f Hf).
  destruct (insert_contexts_answers_aux w f s1) as (b & tf & Ef & _ & Htrue).
  rewrite Ef in Hall. cbn in Hall. injection Hall as ->.
  destruct (Htrue eq_refl) as (_ & l & Hl & Hins). eauto.
Qed.

Lemma index_run_until_complete_true (v : pyval) (s : Operator) :
  forall s' t, run_until_complete w v s = (Ret (Some true), s', t) -> indexed w v.
Proof.
  unfold run_until_complete, try_except.
  destruct (loop_refuses w) as [msg|]; [cbn; discriminate|].
  destruct (main_indexing_task w v s) as [[[b|e] s1] t1] eqn:E.
  - rewrite (run_bind _ _ _ _ _ _ E). cbn. intros s' t [= -> _ _].
    eapply main_indexing_task_true, E.
  - rewrite (run_bind_raise _ _ _ _ _ _ E).
    destruct (is_class "RuntimeError" e); cbn; discriminate.
Qed.

End IndexOutput.
Section IndexOutputEvent.
Import RagIndex IndexFacts.
Variable w : world.

(** [on_event] of the indexing stage, for any event, state and answers of
    the outside: if it sends an output, the payload of the event named an
    existing directory, every context file found there held a list that
    was empty or was inserted by a successful attempt, and the output
    carries the configured WORKING_DIR. *)
Theorem index_output_means_indexed (ev : event) (s : Operator) :
  let '(r, s', t) := on_event w ev s in
  outputs t = [] \/
  exists working_dir,
    outputs t = [SendOutput "rag_index_dir"
                   (Envelope.create_agent_output "rag_indexer" working_dir false)
                   (event_metadata ev)] /\
    py_getitem (config s') "WORKING_DIR" = Ret working_dir /\
    indexed w (event_value ev).
Proof.
  destruct ev as [id v md| | |]; try (now left).
  destruct (processed s) eqn:Hp.
  - destruct (index_done_ignores w (INPUT id v md) s eq_refl Hp) as (t & -> & Ht).
    left. unfold outputs. rewrite <- (filter_actions is_output) by (intros [] ?; easy).
    now rewrite Ht.
  - unfold on_event. rewrite run_log.
    destruct (String.eqb id "unique_contexts_dir"); [|now left].
    rewrite run_get, Hp, run_log, after_after.
    pose proof (index_config_step_avoids w s) as Ho1.
    destruct ((if negb (truthy (config s)) then load_config w else ret true) s)
      as [[[b|e] s1] t1] eqn:E1; cbn [snd] in Ho1;
      [rewrite (run_bind _ _ _ _ _ _ E1)
      |rewrite (run_bind_raise _ _ _ _ _ _ E1); cbn; left;
       unfold outputs in *; now rewrite Ho1].
    rewrite after_after.
    destruct b; cbn [negb];
      [|cbn; left; unfold outputs in *; now rewrite filter_app, Ho1].
    rewrite run_get.
    pose proof (index_setup_step_avoids s1) as Ho2.
    destruct ((if negb (llm_model_func s1) || negb (embedding_func_wrapper s1)
               then _setup_async_funcs else ret true) s1)
      as [[[b|e] s2] t2] eqn:E2; cbn [snd] in Ho2;
      [rewrite (run_bind _ _ _ _ _ _ E2)
      |rewrite (run_bind_raise _ _ _ _ _ _ E2); cbn; left;
       unfold outputs in *; now rewrite !filter_app, Ho1, Ho2].
    rewrite after_after.
    destruct b; cbn [negb];
      [|cbn; left; unfold outputs in *; now rewrite !filter_app, Ho1, Ho2].
    pose proof (index_run_until_complete_avoids is_output is_output_silent w v s2) as Ho3.
    pose proof (index_run_until_complete_true w v s2) as Hi.
    destruct (run_until_complete w v s2) as [[[success|e] s3] t3] eqn:E3; cbn [snd] in Ho3;
      [rewrite (run_bind _ _ _ _ _ _ E3)
      |rewrite (run_bind_raise _ _ _ _ _ _ E3); cbn; left;
       unfold outputs in *; now rewrite !filter_app, Ho1, Ho2, Ho3].
    destruct success as [[]|].
    + rewrite run_log, run_get.
      destruct (py_getitem (config s3) "WORKING_DIR") as [wd|e] eqn:Hwd;
        [rewrite run_lift | rewrite run_lift_raise]; cbn;
        unfold outputs in *; rewrite !filter_app, Ho1, Ho2, Ho3; cbn; [|now left].
      right. exists wd. split; [reflexivity|]. split; [exact Hwd|].
      eapply Hi. reflexivity.
    + cbn. left. unfold outputs in *. now rewrite !filter_app, Ho1, Ho2, Ho3.
    + cbn. left. unfold outputs in *. now rewrite !filter_app, Ho1, Ho2, Ho3.
Qed.

End IndexOutputEvent.

(** ** rag_query_operator.py: an output means saved answers *)

Section QueryTask.
Import RagQuery QueryFacts.
Variable w : world.

Lemma save_results_ret (path : pyval) (data : list pyval) (s : Operator) :
  exists p t,
    save_results w path data s = (Ret p, s, t) /\
    (is_none p = false ->
     p = path /\
     exists default_str,
       In (JsonDump path (PList data) default_str) t /\
       json_dump w path (PList data) default_str = Ret tt).
Proof.
  unfold save_results, dump, try_except, bind, emit, lift, log, ret.
  destruct (json_dump w path (PList data) false) as [[]|e] eqn:H1; cbn.
  - do 2 eexists. split; [reflexivity|]. intros _. split; [reflexivity|].
    exists false. split; [now left | first [assumption | reflexivity]].
  - destruct (is_class "TypeError" e); cbn.
    + destruct (json_dump w path (PList data) true) as [[]|e'] eqn:H2; cbn.
      * do 2 eexists. split; [reflexivity|]. intros _. split; [reflexivity|].
        exists true. split; [cbn; auto | first [assumption | reflexivity]].
      * do 2 eexists. split; [reflexivity|]. discriminate.
    + do 2 eexists. split; [reflexivity|]. discriminate.
Qed.

Lemma save_errors_ret (path : pyval) (data : list pyval) (s : Operator) :
  exists p t,
    save_errors w path data s = (Ret p, s, t) /\
    (is_none p = false ->
     p = path /\
     In (JsonDump path (PList data) false) t /\
     json_dump w path (PList data) false = Ret tt).
Proof.
  unfold save_errors, dump, try_except, bind, emit, lift, log, ret.
  destruct (json_dump w path (PList data) false) as [[]|e] eqn:H1; cbn.
  - do 2 eexists. split; [reflexivity|]. intros _. split; [reflexivity|].
    split; [now left | first [assumption | reflexivity]].
  - do 2 eexists. split; [reflexivity|]. discriminate.
Qed.

End QueryTask.
Section QueryTaskSaved.
Import RagQuery QueryFacts SavedFacts.
Variable w : world.

Lemma initialize_rag_instance_keeps_questions (rag_dir : pyval) :
  keeps questions_file_path (_initialize_rag_instance w rag_dir).
Proof. unfold _initialize_rag_instance. repeat keep_step. Qed.

Lemma after_inv {A} (t0 : trace) (o : res A * Operator * trace) (r : res A)
    (s' : Operator) (t : trace) :
  after t0 o = (r, s', t) -> exists t', o = (r, s', t') /\ t = t0 ++ t'.
Proof. destruct o as [[r0 s0] t']. cbn. intros [= -> -> <-]. eauto. Qed.

Lemma run_queries_and_save_task_ret (questions_file rag_dir : pyval) (s : Operator) :
  forall p1 p2 s' t,
    _run_queries_and_save_task w questions_file rag_dir s = (Ret (p1, p2), s', t) ->
    is_none p1 = false -> is_none p2 = false ->
    questions_file_path s' = questions_file_path s /\
    saved w (rag_instance s') (config s') questions_file t
      (PDict [("results_file", p1); ("errors_file", p2)]).
Proof.
  intros p1 p2 s' t. unfold _run_queries_and_save_task.
  pose proof (initialize_rag_instance_keeps_questions rag_dir s) as Hk.
  destruct (_initialize_rag_instance w rag_dir s) as [[[[]|e] s1] t1] eqn:E1;
    cbn [fst snd] in Hk;
    [rewrite (run_bind _ _ _ _ _ _ E1)
    |rewrite (run_bind _ _ _ _ _ _ E1); cbn; intros [= <- <- _ _]; discriminate
    |rewrite (run_bind_raise _ _ _ _ _ _ E1); discriminate].
  cbn [negb]. unfold emits at 1.
  match goal with |- context [bind ?m ?k s1] =>
    rewrite (run_bind m k s1 s1 tt
               (snd (RagQueryExtract.extract_queries (read_text w questions_file))))
      by reflexivity end.
  rewrite after_after.
  destruct (fst (RagQueryExtract.extract_queries (read_text w questions_file)))
    as [|q qs] eqn:Hq; [cbn; intros [= <- <- _ _]; discriminate|].
  rewrite run_get.
  destruct (py_get (config s1) "QUERY_MODE" (PStr "hybrid")) as [mode|e];
    [rewrite run_lift | rewrite run_lift_raise; discriminate].
  rewrite run_log, after_after.
  destruct (run_queries w 0 (q :: qs) [] [] s1) as [[[lists|e] s2] tq] eqn:Eq;
    [rewrite (run_bind _ _ _ _ _ _ Eq)
    |rewrite (run_bind_raise _ _ _ _ _ _ Eq); discriminate].
  destruct (run_queries_sorted w _ _ _ _ _ _ _ _ Eq) as (-> & os & Hcalled & ->).
  cbn [app fst snd]. rewrite after_after.
  destruct (Accounting.sort (q :: qs) os) as [rs es] eqn:Hsort. cbn [fst snd].
  destruct (py_getitem (config s1) "OUTPUT_RESULTS_FILE") as [rp|e];
    [rewrite run_lift | rewrite run_lift_raise; discriminate].
  destruct (py_getitem (config s1) "OUTPUT_ERRORS_FILE") as [ep|e];
    [rewrite run_lift | rewrite run_lift_raise; discriminate].
  rewrite run_log, after_after.
  destruct (save_results_ret w rp rs s1) as (p & tr & Er & Hr).
  rewrite (run_bind _ _ _ _ _ _ Er), after_after, run_log, after_after.
  destruct (save_errors_ret w ep es s1) as (p' & te & Ee & He).
  rewrite (run_bind _ _ _ _ _ _ Ee), after_after. cbn [after ret].
  intros [= <- <- <- <-] Hn1 Hn2.
  destruct (Hr Hn1) as (-> & d & Hin1 & Hd1). destruct (He Hn2) as (-> & Hin2 & Hd2).
  split; [exact Hk|].
  exists rp, ep, rs, es. split; [reflexivity|].
  split; [exists d; split; [|exact Hd1]; rewrite !in_app_iff; cbn [In]; tauto|].
  split; [rewrite !in_app_iff; cbn [In]; tauto|].
  split; [exact Hd2|]. cbv zeta. rewrite Hq.
  split; [discriminate|]. exists os. split; [exact Hcalled | now rewrite Hsort].
Qed.

Lemma run_main_query_task_ret (s : Operator) :
  forall p1 p2 s' t,
    run_main_query_task w s = (Ret (p1, p2), s', t) ->
    is_none p1 = false -> is_none p2 = false ->
    questions_file_path s' = questions_file_path s /\
    saved w (rag_instance s') (config s') (questions_file_path s) t
      (PDict [("results_file", p1); ("errors_file", p2)]).
Proof.
  intros p1 p2 s' t. unfold run_main_query_task, try_except.
  destruct (loop_refuses w) as [msg|]; [cbn; intros [= <- <- _ _]; discriminate|].
  rewrite run_get.
  destruct (_run_queries_and_save_task w (questions_file_path s) (rag_index_dir s) s)
    as [[[[q1 q2]|e] s1] t1] eqn:E.
  - intros [= <- <- <- <-]. eapply run_queries_and_save_task_ret, E.
  - destruct (is_class "RuntimeError" e); cbn; [|discriminate].
    intros [= <- <- _ _]. discriminate.
Qed.

End QueryTaskSaved.
Lemma saved_within (w : RagQuery.world) (inst : option pyval) (config questions_file : pyval)
    (t0 t t1 : trace) (payload : pyval) :
  SavedFacts.saved w inst config questions_file t payload ->
  SavedFacts.saved w inst config questions_file (t0 ++ t ++ t1) payload.
Proof.
  intros (rp & ep & rs & es & Hp & (d & Hin1 & Hd1) & Hin2 & Hd2 & Hrest).
  exists rp, ep, rs, es. split; [exact Hp|].
  split; [exists d; split; [|exact Hd1]; rewrite !in_app_iff; tauto|].
  split; [rewrite !in_app_iff; tauto|]. split; [exact Hd2 | exact Hrest].
Qed.

Section QueryOutputEvent.
Import RagQuery SavedFacts QueryOutput.
Variable w : world.

Lemma load_config_keeps_questions : keeps questions_file_path (load_config w).
Proof. unfold load_config, resolve_path, make_parent_dir. repeat keep_step. Qed.

Lemma setup_async_funcs_keeps_questions : keeps questions_file_path _setup_async_funcs.
Proof. unfold _setup_async_funcs. repeat keep_step. Qed.

Lemma sound_quiet (md : pyval) (r : res DoraStatus) (s' : Operator) (t : trace) :
  outputs t = [] -> sound w md (r, s', t).
Proof. intros H. now left. Qed.

Lemma sound_after (md : pyval) (t0 : trace) (o : res DoraStatus * Operator * trace) :
  outputs t0 = [] -> sound w md o -> sound w md (after t0 o).
Proof.
  destruct o as [[r s'] t]. cbn. intros H0 [Ho | (p & Ho & Hs)].
  - left. rewrite outputs_app, H0, Ho. reflexivity.
  - right. exists p. split; [rewrite outputs_app, H0; exact Ho|].
    rewrite <- (app_nil_r t). now apply saved_within.
Qed.

Lemma start_processing_sound (md : pyval) (s : Operator) :
  sound w md (start_processing w md s).
Proof.
  unfold start_processing. rewrite run_log, run_get.
  apply sound_after; [reflexivity|].
  pose proof (query_config_step_avoids w s) as Ho1.
  assert (Hk1 : questions_file_path
                  (snd (fst ((if negb (truthy (config s)) then load_config w else ret true) s)))
                = questions_file_path s)
    by (destruct (negb (truthy (config s))); [apply load_config_keeps_questions | reflexivity]).
  destruct ((if negb (truthy (config s)) then load_config w else ret true) s)
    as [[[b|e] s1] t1] eqn:E1; cbn [fst snd] in Ho1, Hk1;
    [rewrite (run_bind _ _ _ _ _ _ E1)
    |rewrite (run_bind_raise _ _ _ _ _ _ E1); now apply sound_quiet].
  apply sound_after; [exact Ho1|].
  destruct b; cbn [negb]; [|now apply sound_quiet].
  rewrite run_get.
  pose proof (query_setup_step_avoids s1) as Ho2.
  assert (Hk2 : questions_file_path
                  (snd (fst ((if negb (llm_model_func s1) || negb (embedding_func_wrapper s1)
                              then _setup_async_funcs else ret true) s1)))
                = questions_file_path s1)
    by (destruct (negb (llm_model_func s1) || negb (embedding_func_wrapper s1));
        [apply setup_async_funcs_keeps_questions | reflexivity]).
  destruct ((if negb (llm_model_func s1) || negb (embedding_func_wrapper s1)
             then _setup_async_funcs else ret true) s1)
    as [[[b|e] s2] t2] eqn:E2; cbn [fst snd] in Ho2, Hk2;
    [rewrite (run_bind _ _ _ _ _ _ E2)
    |rewrite (run_bind_raise _ _ _ _ _ _ E2); now apply sound_quiet].
  apply sound_after; [exact Ho2|].
  destruct b; cbn [negb]; [|now apply sound_quiet].
  pose proof (run_main_query_task_avoids is_output is_output_silent w s2) as Ho3.
  pose proof (run_main_query_task_ret w s2) as Hs.
  destruct (run_main_query_task w s2) as [[[[p1 p2]|e] s3] t3] eqn:E3; cbn [snd] in Ho3;
    [rewrite (run_bind _ _ _ _ _ _ E3)
    |rewrite (run_bind_raise _ _ _ _ _ _ E3); now apply sound_quiet].
  cbn [fst snd].
  destruct (is_none p1) eqn:Hn1; [cbn; left; unfold outputs in *;
                                   now rewrite filter_app, Ho3|].
  destruct (is_none p2) eqn:Hn2; [cbn; left; unfold outputs in *;
                                   now rewrite filter_app, Ho3|].
  destruct (Hs p1 p2 s3 t3 eq_refl Hn1 Hn2) as [Hq Hsaved].
  cbn. right. eexists. split.
  - unfold outputs in *. rewrite filter_app, Ho3. reflexivity.
  - rewrite Hq.
    match goal with |- saved _ _ _ _ (t3 ++ ?rest) _ =>
      change (t3 ++ rest) with ([] ++ t3 ++ rest) end.
    now apply saved_within.
Qed.

Lemma check_inputs_sound (md : pyval) (s : Operator) :
  sound w md (check_inputs w md s).
Proof.
  destruct (processed s) eqn:Hp.
  - rewrite check_inputs_done by exact Hp. now apply sound_quiet.
  - destruct (Barrier.complete s) eqn:Hc.
    + rewrite check_inputs_start by (exact Hc || exact Hp). apply start_processing_sound.
    + rewrite check_inputs_waiting by (exact Hc || exact Hp). now apply sound_quiet.
Qed.

Lemma on_event_sound (ev : event) (s : Operator) :
  sound w (event_metadata ev) (on_event w ev s).
Proof.
  destruct ev as [id v md| | |]; try (now apply sound_quiet).
  cbn [event_metadata].
  destruct (String.eqb id Barrier.questions_id) eqn:Eq;
    [apply String.eqb_eq in Eq; subst id|
     destruct (String.eqb id Barrier.index_id) eqn:Ei;
     [apply String.eqb_eq in Ei; subst id|]].
  - destruct (os_path_isfile w (Envelope.load_node_result v)) as [b|e] eqn:Hf.
    + rewrite (on_event_questions w v md s b Hf).
      apply sound_after; [now destruct b | apply check_inputs_sound].
    + unfold on_event. cbn [Barrier.questions_id String.eqb Ascii.eqb Bool.eqb].
      rewrite run_log, Hf, run_lift_raise. now apply sound_quiet.
  - destruct (os_path_isdir w (Envelope.load_node_result v)) as [b|e] eqn:Hd.
    + rewrite (on_event_index w v md s b Hd).
      apply sound_after; [now destruct b | apply check_inputs_sound].
    + unfold on_event. cbn [Barrier.index_id String.eqb Ascii.eqb Bool.eqb].
      rewrite run_log, Hd, run_lift_raise. now apply sound_quiet.
  - rewrite (on_event_foreign w (INPUT id v md) s)
      by (cbn [Barrier.foreign]; now rewrite Eq, Ei).
    now apply sound_quiet.
Qed.

(** [on_event] of the query stage, for any event, state and answers of the
    outside: if it sends an output, the results file and the errors file
    named in it were both written during this event, successfully; at
    least one query was extracted from the questions file the operator
    holds; every extracted query was put to [_process_single_query] and
    has exactly one record, which is what that call returned: a result in
    the results file or an error in the errors file, each file in the
    order of the queries. *)
Theorem query_output_means_saved (ev : event) (s : Operator) :
  let '(r, s', t) := on_event w ev s in
  outputs t = [] \/
  exists payload,
    outputs t = [SendOutput "query_results"
                   (Envelope.create_agent_output "rag_query_evaluator" payload true)
                   (event_metadata ev)] /\
    saved w (rag_instance s') (config s') (questions_file_path s') t payload.
Proof.
  pose proof (on_event_sound ev s) as H.
  destruct (on_event w ev s) as [[r s'] t]. exact H.
Qed.

End QueryOutputEvent.

(** ** C3: the join of the two inputs, for every history *)

Section BarrierRelease.
Import RagQuery Barrier.

Lemma check_inputs_release (w : world) (md : pyval) (s0 : Operator) :
  started (snd (check_inputs w md s0))
    = (if complete s0 && negb (processed s0) then 1%nat else 0%nat) /\
  (complete s0 && negb (processed s0) = false ->
   snd (fst (check_inputs w md s0)) = s0).
Proof.
  destruct (complete s0) eqn:Hc; [destruct (processed s0) eqn:Hp|]; cbn [andb negb].
  - rewrite check_inputs_done by exact Hp. now split.
  - rewrite check_inputs_start by (exact Hc || exact Hp).
    split; [apply start_processing_started | discriminate].
  - destruct (check_inputs_not_start w md s0 Hc) as [msg Hm]. rewrite Hm. split; [|reflexivity].
    destruct (processed s0) eqn:Hp.
    + rewrite check_inputs_done in Hm by exact Hp. now injection Hm as <-.
    + rewrite check_inputs_waiting in Hm by (exact Hc || exact Hp). now injection Hm as <-.
Qed.

(** The rule of [on_event]: an event starts processing, once, exactly when
    it releases the barrier; an event that does not leaves the processed
    flag as it was. *)
Lemma on_event_release (w : world) (ev : event) (s : Operator) :
  started (snd (on_event w ev s)) = (if releases w ev s then 1%nat else 0%nat) /\
  (releases w ev s = false ->
   processed (snd (fst (on_event w ev s))) = processed s).
Proof.
  unfold releases.
  destruct ev as [id v md| | |]; try (now split).
  cbn [offered].
  destruct (String.eqb id questions_id) eqn:Eq;
    [apply String.eqb_eq in Eq; subst id|
     destruct (String.eqb id index_id) eqn:Ei;
     [apply String.eqb_eq in Ei; subst id|]].
  - destruct (os_path_isfile w (Envelope.load_node_result v)) as [b|e] eqn:Hf.
    + rewrite (on_event_questions w v md s b Hf).
      pose proof (check_inputs_release w md
                    (if b then with_questions (Envelope.load_node_result v) s else s))
        as [Hs Hk].
      destruct (check_inputs w md _) as [[r s'] t] eqn:Ec. cbn [after fst snd] in *.
      rewrite started_app. destruct b; cbn [started filter is_start List.length Nat.add];
        (split; [exact Hs | intros Hr; now rewrite (Hk Hr)]).
    + unfold on_event. cbn [questions_id String.eqb Ascii.eqb Bool.eqb].
      rewrite run_log, Hf, run_lift_raise. now split.
  - destruct (os_path_isdir w (Envelope.load_node_result v)) as [b|e] eqn:Hf.
    + rewrite (on_event_index w v md s b Hf).
      pose proof (check_inputs_release w md
                    (if b then with_index (Envelope.load_node_result v) s else s))
        as [Hs Hk].
      destruct (check_inputs w md _) as [[r s'] t] eqn:Ec. cbn [after fst snd] in *.
      rewrite started_app. destruct b; cbn [started filter is_start List.length Nat.add];
        (split; [exact Hs | intros Hr; now rewrite (Hk Hr)]).
    + unfold on_event. cbn [index_id String.eqb Ascii.eqb Bool.eqb].
      unfold questions_id. cbn [String.eqb Ascii.eqb Bool.eqb].
      rewrite run_log, Hf, run_lift_raise. now split.
  - assert (Hfor : foreign (INPUT id v md) = true) by (cbn; now rewrite Eq, Ei).
    rewrite (on_event_foreign w _ s Hfor). now split.
Qed.

End BarrierRelease.

Section JoinBarrierAll.
Import RagQuery Barrier.

Lemma offered_processed (w : world) (ev : event) (s s0 : Operator) :
  offered w ev s = Some s0 -> processed s0 = processed s.
Proof.
  destruct ev as [id v md| | |]; try discriminate. cbn [offered].
  destruct (String.eqb id questions_id);
    [destruct (os_path_isfile w _) as [[]|e]
    |destruct (String.eqb id index_id); [destruct (os_path_isdir w _) as [[]|e]|]];
    try discriminate; now intros [= <-].
Qed.

Lemma releases_done (w : world) (ev : event) (s : Operator) :
  processed s = true -> releases w ev s = false.
Proof.
  intros Hp. unfold releases. destruct (offered w ev s) as [s0|] eqn:Ho; [|reflexivity].
  rewrite (offered_processed w ev s s0 Ho), Hp. apply andb_false_r.
Qed.

(** Once the flag is set, no history starts processing again. *)
Lemma deliver_done (events : list (world * event)) :
  forall s, processed s = true ->
    started (snd (deliver on_event events s)) = 0%nat /\
    processed (fst (deliver on_event events s)) = true.
Proof.
  induction events as [|[w ev] events IH]; intros s Hp; [now split|].
  cbn [deliver]. pose proof (on_event_release w ev s) as [Hs Hk].
  rewrite (releases_done w ev s Hp) in Hs. specialize (Hk (releases_done w ev s Hp)).
  destruct (on_event w ev s) as [[r s'] t]. cbn [fst snd] in *.
  assert (Hp' : processed s' = true) by congruence.
  destruct (IH s' Hp') as [I1 I2]. destruct (deliver on_event events s') as [s'' t'].
  cbn [fst snd] in *. split; [|exact I2]. now rewrite started_app, Hs, I1.
Qed.

(** An offer that reaches the check of the two inputs. *)
Lemma on_event_offered (w : world) (ev : event) (s s0 : Operator) :
  offered w ev s = Some s0 ->
  exists t0,
    outputs t0 = [] /\
    on_event w ev s = after t0 (check_inputs w (event_metadata ev) s0).
Proof.
  destruct ev as [id v md| | |]; try discriminate. cbn [offered event_metadata].
  destruct (String.eqb id questions_id) eqn:Eq;
    [apply String.eqb_eq in Eq; subst id|
     destruct (String.eqb id index_id) eqn:Ei;
     [apply String.eqb_eq in Ei; subst id|discriminate]].
  - destruct (os_path_isfile w (Envelope.load_node_result v)) as [b|e] eqn:Hf;
      [|discriminate].
    rewrite (on_event_questions w v md s b Hf).
    destruct b; intros [= <-]; eexists; (split; [|reflexivity]); reflexivity.
  - destruct (os_path_isdir w (Envelope.load_node_result v)) as [b|e] eqn:Hf;
      [|discriminate].
    rewrite (on_event_index w v md s b Hf).
    destruct b; intros [= <-]; eexists; (split; [|reflexivity]); reflexivity.
Qed.

(** A start whose configuration and set-up succeed and whose task returns
    sets the processed flag. *)
Lemma start_sets_flag (w : world) (ev : event) (s s0 s1 s2 s3 : Operator)
    (t1 t2 t3 : trace) (paths : pyval * pyval) :
  offered w ev s = Some s0 -> complete s0 = true -> processed s0 = false ->
  (if negb (truthy (config s0)) then load_config w else ret true) s0 = (Ret true, s1, t1) ->
  (if negb (llm_model_func s1) || negb (embedding_func_wrapper s1)
   then _setup_async_funcs else ret true) s1 = (Ret true, s2, t2) ->
  run_main_query_task w s2 = (Ret paths, s3, t3) ->
  processed (snd (fst (on_event w ev s))) = true.
Proof.
  intros Ho Hc Hp E1 E2 E3.
  destruct (on_event_offered w ev s s0 Ho) as (t0 & _ & ->).
  rewrite check_inputs_start by (exact Hc || exact Hp).
  unfold start_processing. rewrite run_log, run_get.
  rewrite (run_bind _ _ _ _ _ _ E1). cbn [negb]. rewrite run_get.
  rewrite (run_bind _ _ _ _ _ _ E2). cbn [negb].
  rewrite (run_bind _ _ _ _ _ _ E3).
  destruct (negb (is_none (fst paths)) && negb (is_none (snd paths))); reflexivity.
Qed.

(** An event that does not release the barrier leaves the fields as they
    were when it was looked at. *)
Lemma on_event_unreleased (w : world) (ev : event) (s : Operator) :
  releases w ev s = false ->
  snd (fst (on_event w ev s))
    = match offered w ev s with Some s0 => s0 | None => s end.
Proof.
  unfold releases. destruct (offered w ev s) as [s0|] eqn:Ho.
  - intros Hr. destruct (on_event_offered w ev s s0 Ho) as (t0 & _ & ->).
    pose proof (proj2 (check_inputs_release w (event_metadata ev) s0) Hr) as Hk.
    destruct (check_inputs w (event_metadata ev) s0) as [[r s'] t]. exact Hk.
  - intros _. destruct ev as [id v md| | |]; try reflexivity.
    cbn [offered] in Ho. unfold on_event.
    destruct (String.eqb id questions_id) eqn:Eq.
    + apply String.eqb_eq in Eq. subst id.
      cbn [questions_id String.eqb Ascii.eqb Bool.eqb].
      destruct (os_path_isfile w (Envelope.load_node_result v)) as [[]|e] eqn:Hf;
        try discriminate.
      now rewrite run_log, run_lift_raise.
    + destruct (String.eqb id index_id) eqn:Ei.
      * apply String.eqb_eq in Ei. subst id.
        cbn [index_id String.eqb Ascii.eqb Bool.eqb].
        destruct (os_path_isdir w (Envelope.load_node_result v)) as [[]|e] eqn:Hf;
          try discriminate.
        now rewrite run_log, run_lift_raise.
      * unfold questions_id, index_id in Eq, Ei. now rewrite Eq, Ei.
Qed.

(** As long as one of the two inputs has never been offered, nothing
    starts, however often the other one is. *)
Lemma deliver_one_sided (events : list (world * event)) :
  forall s,
    (truthy (rag_index_dir s) = false ->
     Forall (fun we => offers index_id (snd we) = false) events ->
     started (snd (deliver on_event events s)) = 0%nat) /\
    (truthy (questions_file_path s) = false ->
     Forall (fun we => offers questions_id (snd we) = false) events ->
     started (snd (deliver on_event events s)) = 0%nat).
Proof.
  induction events as [|[w ev] events IH]; intros s; [now split|].
  assert (Hstep : forall s0, offered w ev s = Some s0 ->
            (offers index_id ev = false -> rag_index_dir s0 = rag_index_dir s) /\
            (offers questions_id ev = false ->
             questions_file_path s0 = questions_file_path s)).
  { intros s0. destruct ev as [id v md| | |]; try discriminate. cbn [offered offers].
    destruct (String.eqb id questions_id) eqn:Eq;
      [destruct (os_path_isfile w _) as [[]|e]
      |destruct (String.eqb id index_id) eqn:Ei; [destruct (os_path_isdir w _) as [[]|e]|]];
      try discriminate; intros [= <-]; split; intros; try reflexivity; discriminate. }
  pose proof (on_event_release w ev s) as [Hs _].
  pose proof (on_event_unreleased w ev s) as Hu.
  split; intros Hempty Hall; inversion Hall as [|? ? Hev Hrest]; subst; cbn [snd] in Hev.
  - assert (Hr : releases w ev s = false).
    { unfold releases. destruct (offered w ev s) as [s0|] eqn:Ho; [|reflexivity].
      unfold complete. rewrite (proj1 (Hstep s0 eq_refl) Hev), Hempty.
      now rewrite andb_false_r. }
    rewrite Hr in Hs. specialize (Hu Hr). cbn [deliver].
    destruct (on_event w ev s) as [[r s'] t]. cbn [fst snd] in *.
    assert (Hempty' : truthy (rag_index_dir s') = false).
    { subst s'. destruct (offered w ev s) as [s0|]; [|exact Hempty].
      now rewrite (proj1 (Hstep s0 eq_refl) Hev). }
    pose proof (proj1 (IH s') Hempty' Hrest) as Hi.
    destruct (deliver on_event events s') as [s'' t']. cbn [fst snd] in *.
    now rewrite started_app, Hs, Hi.
  - assert (Hr : releases w ev s = false).
    { unfold releases. destruct (offered w ev s) as [s0|] eqn:Ho; [|reflexivity].
      unfold complete. rewrite (proj2 (Hstep s0 eq_refl) Hev), Hempty. reflexivity. }
    rewrite Hr in Hs. specialize (Hu Hr). cbn [deliver].
    destruct (on_event w ev s) as [[r s'] t]. cbn [fst snd] in *.
    assert (Hempty' : truthy (questions_file_path s') = false).
    { subst s'. destruct (offered w ev s) as [s0|]; [|exact Hempty].
      now rewrite (proj2 (Hstep s0 eq_refl) Hev). }
    pose proof (proj2 (IH s') Hempty' Hrest) as Hi.
    destruct (deliver on_event events s') as [s'' t']. cbn [fst snd] in *.
    now rewrite started_app, Hs, Hi.
Qed.

(** C3 (amended): the query stage starts processing, once, at each event
    that releases its barrier, and at no other: an offer on one of the two
    ids after which both inputs are recorded while the processed flag is
    not set.  From the initial state, offered a valid questions file and a
    valid index directory, in either order, among any number of input
    events on other ids ([f1], [f2], [f3]), processing is not started while
    only one of the two has been offered and is started once by the event
    that brings the second; an event on another id is answered with
    [CONTINUE], changes no field and has no part in this.  A history in
    which one of the two inputs is never offered starts nothing, however
    often the other one is offered.  For every
    history: when the first start sets the processed flag, as it does when
    the configuration and the set-up succeed and the task returns, no
    later event starts processing again, whatever is offered, so that
    processing starts exactly once; and once the flag is set nothing
    starts. *)
Theorem join_barrier
    (f1 f2 f3 : list (world * event)) (wq wi : world) (qv iv qmd imd : pyval) :
  Forall (fun we => foreign (snd we) = true) (f1 ++ f2 ++ f3) ->
  valid_questions wq qv -> valid_index wi iv ->
  let q := (wq, INPUT questions_id qv qmd) in
  let i := (wi, INPUT index_id iv imd) in
  started (snd (deliver on_event (f1 ++ [q] ++ f2) init)) = 0%nat /\
  started (snd (deliver on_event (f1 ++ [i] ++ f2) init)) = 0%nat /\
  started (snd (deliver on_event (f1 ++ [q] ++ f2 ++ [i] ++ f3) init)) = 1%nat /\
  started (snd (deliver on_event (f1 ++ [i] ++ f2 ++ [q] ++ f3) init)) = 1%nat /\
  (forall w ev s, foreign ev = true ->
     exists t, on_event w ev s = (Ret CONTINUE, s, t) /\ started t = 0%nat) /\
  (* every event, every state *)
  (forall w ev s,
     started (snd (on_event w ev s)) = (if releases w ev s then 1%nat else 0%nat)) /\
  (* every history *)
  (forall before w ev later s,
     started (snd (deliver on_event before s)) = 0%nat ->
     releases w ev (fst (deliver on_event before s)) = true ->
     processed (snd (fst (on_event w ev (fst (deliver on_event before s))))) = true ->
     started (snd (deliver on_event (before ++ (w, ev) :: later) s)) = 1%nat) /\
  (forall events s,
     processed s = true -> started (snd (deliver on_event events s)) = 0%nat) /\
  (forall events,
     Forall (fun we => offers index_id (snd we) = false) events ->
     started (snd (deliver on_event events init)) = 0%nat) /\
  (forall events,
     Forall (fun we => offers questions_id (snd we) = false) events ->
     started (snd (deliver on_event events init)) = 0%nat) /\
  (forall w ev s s0 s1 s2 s3 t1 t2 t3 paths,
     offered w ev s = Some s0 -> complete s0 = true -> processed s0 = false ->
     (if negb (truthy (config s0)) then load_config w else ret true) s0
       = (Ret true, s1, t1) ->
     (if negb (llm_model_func s1) || negb (embedding_func_wrapper s1)
      then _setup_async_funcs else ret true) s1 = (Ret true, s2, t2) ->
     run_main_query_task w s2 = (Ret paths, s3, t3) ->
     processed (snd (fst (on_event w ev s))) = true).
Proof.
  intros Hf Hq Hi q i.
  apply Forall_app in Hf as [Hf1 Hf]. apply Forall_app in Hf as [Hf2 Hf3].
  pose proof (proj1 (first_offer_waits wq qv qmd) Hq) as Eq.
  pose proof (proj2 (first_offer_waits wi iv imd) Hi) as Ei.
  pose proof (proj2 (second_offer_starts wi iv qv imd (proj2 Hq)) Hi) as Si.
  pose proof (proj1 (second_offer_starts wq qv iv qmd (proj2 Hi)) Hq) as Sq.
  assert (Hfst : forall l s, Forall (fun we => foreign (snd we) = true) l ->
                             fst (deliver on_event l s) = s)
    by (intros l s Hl; apply (deliver_foreign l s Hl)).
  assert (Hsnd : forall l s, Forall (fun we => foreign (snd we) = true) l ->
                             started (snd (deliver on_event l s)) = 0%nat)
    by (intros l s Hl; apply (deliver_foreign l s Hl)).
  subst q i.
  repeat match goal with |- _ /\ _ => split end;
    try (repeat (rewrite deliver_app_snd || rewrite deliver_app_fst || rewrite started_app
                 || rewrite (proj1 (deliver_one _ _ _))
                 || rewrite (proj2 (deliver_one _ _ _))
                 || (rewrite Hfst by assumption) || (rewrite Hsnd by assumption)
                 || rewrite Eq || rewrite Ei || cbn [fst snd]);
         rewrite ?Si, ?Sq; reflexivity).
  - intros w ev s Hev. rewrite (on_event_foreign w ev s Hev). eexists. split; reflexivity.
  - intros w ev s. apply on_event_release.
  - intros before w ev later s H0 Hr Hp.
    rewrite deliver_app_snd, started_app, H0. cbn [deliver Nat.add].
    pose proof (on_event_release w ev (fst (deliver on_event before s))) as [Hs _].
    rewrite Hr in Hs.
    destruct (on_event w ev (fst (deliver on_event before s))) as [[r s'] t].
    cbn [fst snd] in *. destruct (deliver_done later s' Hp) as [Hl _].
    destruct (deliver on_event later s') as [s'' t']. cbn [fst snd] in *.
    now rewrite started_app, Hs, Hl.
  - intros events s Hp. apply (deliver_done events s Hp).
  - intros events Hall. now apply (proj1 (deliver_one_sided events init)).
  - intros events Hall. now apply (proj2 (deliver_one_sided events init)).
  - intros. eapply start_sets_flag; eassumption.
Qed.

Lemma join_barrier_witness :
  let other := (QuerySamples.world, QuerySamples.offer_other) in
  let q := (QuerySamples.world, QuerySamples.offer_questions) in
  let i := (QuerySamples.world, QuerySamples.offer_index) in
  started (snd (deliver on_event ([other] ++ [q] ++ []) init)) = 0%nat /\
  started (snd (deliver on_event ([other] ++ [i] ++ []) init)) = 0%nat /\
  started (snd (deliver on_event ([other] ++ [q] ++ [] ++ [i] ++ [other]) init)) = 1%nat /\
  started (snd (deliver on_event ([other] ++ [i] ++ [] ++ [q] ++ [other]) init)) = 1%nat /\
  started (snd (deliver on_event ([other; i] ++ q :: [q; i; other]) init)) = 1%nat /\
  started (snd (deliver on_event [q; other; q; q] init)) = 0%nat.
Proof.
  intros other q i.
  assert (Hf : Forall (fun we : world * event => foreign (snd we) = true)
                 ([other] ++ [] ++ [other])) by (repeat constructor).
  assert (Hq : valid_questions QuerySamples.world
                 (Envelope.create_agent_output "question_generator"
                    (PStr "/data/questions.txt") false)) by (split; reflexivity).
  assert (Hi : valid_index QuerySamples.world
                 (Envelope.create_agent_output "rag_indexer" (PStr "/data/index") false))
    by (split; reflexivity).
  destruct (join_barrier [other] [] [other] QuerySamples.world QuerySamples.world
              _ _ (PStr "meta") (PStr "meta") Hf Hq Hi)
    as (H1 & H2 & H3 & H4 & _ & _ & H7 & _ & H9 & _).
  refine (conj H1 (conj H2 (conj H3 (conj H4 (conj _ _))))).
  - apply (H7 [other; i] QuerySamples.world QuerySamples.offer_questions [q; i; other] init);
      vm_compute; reflexivity.
  - apply H9. repeat constructor.
Defined.

(** C3, as stated, fails for "exactly once": a start that fails before the
    processed flag is set is repeated by the next offer.  With no
    configuration file, the index directory and the questions file are
    offered, processing starts and stops at the configuration with the
    flag still [False]; the questions file is offered again and processing
    starts a second time. *)
Lemma join_barrier_restart_counterexample :
  let w := QuerySamples.unconfigured in
  let first := deliver on_event
                 [(w, QuerySamples.offer_index); (w, QuerySamples.offer_questions)] init in
  let run := deliver on_event
               [(w, QuerySamples.offer_index); (w, QuerySamples.offer_questions);
                (w, QuerySamples.offer_questions)] init in
  started (snd first) = 1%nat /\
  processed (fst first) = false /\
  started (snd run) = 2%nat /\
  processed (fst run) = false.
Proof.
  cbv zeta. repeat split; vm_compute; reflexivity.
Qed.

End JoinBarrierAll.
